(** * JARVIS backend: the model orchestration engine

    A shallow embedding of [backend/utils/model_manager.py], of the session
    handling of [backend/main.py] and of the model preferences of
    [backend/config.py], with the properties of the orchestration engine
    proved about it.

    Layout:
    - Python values as produced by [json.loads], and the string helpers the
      code uses ([str.lower], [in], truthiness, [dict.get]);
    - a reference JSON decoder for the protocol lines of the local runtime;
    - the outside world (HTTP client, process spawning, clock) as an
      interface, and a state-and-exception monad over it;
    - [ModelManager] and the endpoints of [main.py];
    - the coroutine steps of [start_ollama] under cooperative scheduling;
    - a scripted runtime used to run the code on concrete inputs, the
      vocabulary of the statements and the scenarios they are run on;
    - the theorems, one section per operation. *)

From Stdlib Require Import ZArith List String Ascii Bool Lia.
From stdpp Require Import base option list strings pretty gmap.
Import ListNotations.

Set Warnings "-register-all".

Local Open Scope string_scope.
Local Open Scope Z_scope.

(* ===================================================================== *)
(** ** Python values *)
(* ===================================================================== *)

(** The values [json.loads] can return.  A number keeps its source text; an
    object keeps its members in source order, and a later member with the
    same key shadows an earlier one, as in the [dict] Python builds. *)
Inductive json : Type :=
| JNull
| JBool (b : bool)
| JNum (raw : string)
| JStr (s : string)
| JArr (items : list json)
| JObj (members : list (string * json)).

(** Exceptions the modelled code can meet.  Only their class matters to the
    control flow; [str(e)] is left to the interpreter (see [Python]). *)
Inductive exn : Type :=
| TransportError (info : string)      (* httpx / socket failures, timeouts *)
| JSONDecodeError (doc : string)      (* response.json() on a non-JSON body *)
| AttributeError (ty attr : string)   (* 'ty' object has no attribute 'attr' *)
| TypeError (info : string)
| KeyError (key : string)
| ValueError (info : string)
| OSError (info : string).            (* subprocess.Popen failures *)

Inductive outcome (A : Type) : Type :=
| Val (a : A)
| Exc (e : exn).
Arguments Val {A} a.
Arguments Exc {A} e.

(** *** Strings *)

Definition ascii_lower (c : ascii) : ascii :=
  let n := nat_of_ascii c in
  if (Nat.leb 65 n && Nat.leb n 90)%bool then ascii_of_nat (n + 32) else c.

(** [str.lower()] on the ASCII range; other bytes are left as they are. *)
Fixpoint str_lower (s : string) : string :=
  match s with
  | EmptyString => EmptyString
  | String c r => String (ascii_lower c) (str_lower r)
  end.

(** [needle in hay] for two strings. *)
Fixpoint str_in (needle hay : string) : bool :=
  match hay with
  | EmptyString => String.prefix needle EmptyString
  | String _ r => String.prefix needle hay || str_in needle r
  end.

Definition str_nonempty (s : string) : bool :=
  match s with EmptyString => false | String _ _ => true end.

(** *** Truthiness, type names, [dict.get] *)

Definition nonzero_digit (c : ascii) : bool :=
  let n := nat_of_ascii c in (Nat.leb 49 n && Nat.leb n 57)%bool.

(** Whether the mantissa of a number text has a digit other than 0; the
    texts [NaN] and [Infinity] denote non-zero floats. *)
Fixpoint num_nonzero (raw : string) : bool :=
  match raw with
  | EmptyString => false
  | String c r =>
      if (Ascii.eqb c "e" || Ascii.eqb c "E")%bool then false
      else if (Ascii.eqb c "N" || Ascii.eqb c "I")%bool then true
      else nonzero_digit c || num_nonzero r
  end.

(** [bool(v)]. *)
Definition truthy (v : json) : bool :=
  match v with
  | JNull => false
  | JBool b => b
  | JNum raw => num_nonzero raw
  | JStr s => str_nonempty s
  | JArr l => match l with [] => false | _ => true end
  | JObj l => match l with [] => false | _ => true end
  end.

Fixpoint is_float_text (raw : string) : bool :=
  match raw with
  | EmptyString => false
  | String c r =>
      (Ascii.eqb c "." || Ascii.eqb c "e" || Ascii.eqb c "E"
       || Ascii.eqb c "N" || Ascii.eqb c "I")%bool || is_float_text r
  end.

(** [type(v).__name__]. *)
Definition py_type_name (v : json) : string :=
  match v with
  | JNull => "NoneType"
  | JBool _ => "bool"
  | JNum raw => if is_float_text raw then "float" else "int"
  | JStr _ => "str"
  | JArr _ => "list"
  | JObj _ => "dict"
  end.

(** Lookup in a [dict] given by its members in insertion order: the last
    member with the key is the one the dict holds. *)
Fixpoint dict_lookup (k : string) (d : list (string * json)) : option json :=
  match d with
  | [] => None
  | (k', v) :: r =>
      match dict_lookup k r with
      | Some v' => Some v'
      | None => if String.eqb k k' then Some v else None
      end
  end.

(** [d.get(k, dflt)]. *)
Definition dict_get (k : string) (d : list (string * json)) (dflt : json) : json :=
  match dict_lookup k d with Some v => v | None => dflt end.

(** [v == s] for a string constant [s]. *)
Definition eq_str (v : json) (s : string) : bool :=
  match v with JStr t => String.eqb t s | _ => false end.

(** [s in l] for a string [s] and a list of values [l]. *)
Definition str_in_list (s : string) (l : list json) : bool :=
  existsb (fun v => eq_str v s) l.

(** The interpreter services the embedding does not spell out: the JSON
    decoder behind [json.loads] ([None] stands for [JSONDecodeError]), the
    text [str()] gives for numbers and containers, and [str(e)]. *)
Class Python : Type := {
  json_loads : string -> option json;
  py_repr : json -> string;
  str_exn : exn -> string;
}.

(** [str(v)], as the f-strings of the code apply it. *)
Definition py_str `{Python} (v : json) : string :=
  match v with
  | JStr s => s
  | JNull => "None"
  | JBool true => "True"
  | JBool false => "False"
  | _ => py_repr v
  end.

(* ===================================================================== *)
(** ** A reference JSON decoder *)
(* ===================================================================== *)

(** A recursive-descent decoder for the JSON grammar, used to run the code
    on literal protocol lines.  It follows the scanner of the [json] module:
    numbers are an optional minus sign, an integer part (a single 0, or a
    digit run that does not start with 0), an optional fraction and an
    optional exponent, each taken only when complete; then the constants [NaN], [Infinity] and [-Infinity], strict strings (no raw
    control characters).  Escapes of the form [\uXXXX] are outside the
    fragment it covers and are rejected.  Every theorem that does not name
    this decoder holds for any decoder. *)
Module JsonText.

(** The double quote character. *)
Definition dquote : ascii := "034"%char.

Definition is_ws (c : ascii) : bool :=
  (Ascii.eqb c " " || Ascii.eqb c "009" || Ascii.eqb c "010"
   || Ascii.eqb c "013")%bool.

Definition is_digit (c : ascii) : bool :=
  let n := nat_of_ascii c in (Nat.leb 48 n && Nat.leb n 57)%bool.

Fixpoint skip_ws (s : string) : string :=
  match s with
  | String c r => if is_ws c then skip_ws r else s
  | EmptyString => s
  end.

Definition unescape (c : ascii) : option ascii :=
  if Ascii.eqb c dquote then Some dquote
  else if Ascii.eqb c "\" then Some "\"%char
  else if Ascii.eqb c "/" then Some "/"%char
  else if Ascii.eqb c "b" then Some "008"%char
  else if Ascii.eqb c "f" then Some "012"%char
  else if Ascii.eqb c "n" then Some "010"%char
  else if Ascii.eqb c "r" then Some "013"%char
  else if Ascii.eqb c "t" then Some "009"%char
  else None.

(** The body of a string literal, after its opening quote. *)
Fixpoint scan_string (s : string) : option (string * string) :=
  match s with
  | EmptyString => None
  | String c r =>
      if Ascii.eqb c dquote then Some (EmptyString, r)
      else if Ascii.eqb c "\" then
        match r with
        | String e r' =>
            match unescape e, scan_string r' with
            | Some c', Some (body, rest) => Some (String c' body, rest)
            | _, _ => None
            end
        | EmptyString => None
        end
      else if Nat.ltb (nat_of_ascii c) 32 then None
      else
        match scan_string r with
        | Some (body, rest) => Some (String c body, rest)
        | None => None
        end
  end.

Fixpoint span_digits (s : string) : string * string :=
  match s with
  | String c r =>
      if is_digit c then let (d, rest) := span_digits r in (String c d, rest)
      else (EmptyString, s)
  | EmptyString => (EmptyString, s)
  end.

Definition scan_int_part (s : string) : option (string * string) :=
  match s with
  | String c r =>
      if Ascii.eqb c "0" then Some ("0", r)
      else if is_digit c then Some (span_digits s)
      else None
  | EmptyString => None
  end.

Definition scan_frac (s : string) : string * string :=
  match s with
  | String "." r =>
      match span_digits r with
      | (EmptyString, _) => (EmptyString, s)
      | (d, rest) => (String "." d, rest)
      end
  | _ => (EmptyString, s)
  end.

Definition scan_exp (s : string) : string * string :=
  match s with
  | String e r =>
      if (Ascii.eqb e "e" || Ascii.eqb e "E")%bool then
        let '(sign, r1) :=
          match r with
          | String "+" r' => ("+", r')
          | String "-" r' => ("-", r')
          | _ => (EmptyString, r)
          end in
        match span_digits r1 with
        | (EmptyString, _) => (EmptyString, s)
        | (d, rest) => (String e (sign ++ d), rest)
        end
      else (EmptyString, s)
  | EmptyString => (EmptyString, s)
  end.

Definition scan_number (s : string) : option (string * string) :=
  let '(sign, s1) :=
    match s with
    | String "-" r => ("-", r)
    | _ => (EmptyString, s)
    end in
  match scan_int_part s1 with
  | Some (ip, s2) =>
      let '(fp, s3) := scan_frac s2 in
      let '(ep, s4) := scan_exp s3 in
      Some (sign ++ ip ++ fp ++ ep, s4)
  | None => None
  end.

(** [strip_prefix p s]: the rest of [s] after the prefix [p]. *)
Fixpoint strip_prefix (p s : string) : option string :=
  match p, s with
  | EmptyString, _ => Some s
  | String a p', String b s' =>
      if Ascii.eqb a b then strip_prefix p' s' else None
  | String _ _, EmptyString => None
  end.

Definition scan_constant (s : string) : option (json * string) :=
  match strip_prefix "null" s with
  | Some r => Some (JNull, r)
  | None =>
  match strip_prefix "true" s with
  | Some r => Some (JBool true, r)
  | None =>
  match strip_prefix "false" s with
  | Some r => Some (JBool false, r)
  | None =>
  match strip_prefix "NaN" s with
  | Some r => Some (JNum "NaN", r)
  | None =>
  match strip_prefix "Infinity" s with
  | Some r => Some (JNum "Infinity", r)
  | None =>
  match strip_prefix "-Infinity" s with
  | Some r => Some (JNum "-Infinity", r)
  | None => None
  end end end end end end.

Fixpoint parse_value (fuel : nat) (s : string) : option (json * string) :=
  match fuel with
  | O => None
  | S fuel' =>
      match skip_ws s with
      | String "{" r =>
          match skip_ws r with
          | String "}" r' => Some (JObj [], r')
          | r1 =>
              match parse_members fuel' r1 with
              | Some (kvs, r') => Some (JObj kvs, r')
              | None => None
              end
          end
      | String "[" r =>
          match skip_ws r with
          | String "]" r' => Some (JArr [], r')
          | r1 =>
              match parse_items fuel' r1 with
              | Some (vs, r') => Some (JArr vs, r')
              | None => None
              end
          end
      | String "034" r =>
          match scan_string r with
          | Some (body, r') => Some (JStr body, r')
          | None => None
          end
      | s' =>
          match scan_constant s' with
          | Some res => Some res
          | None =>
              match scan_number s' with
              | Some (raw, r') => Some (JNum raw, r')
              | None => None
              end
          end
      end
  end
with parse_members (fuel : nat) (s : string)
  : option (list (string * json) * string) :=
  match fuel with
  | O => None
  | S fuel' =>
      match s with
      | String "034" r =>
          match scan_string r with
          | Some (k, r1) =>
              match skip_ws r1 with
              | String ":" r2 =>
                  match parse_value fuel' r2 with
                  | Some (v, r3) =>
                      match skip_ws r3 with
                      | String "," r4 =>
                          match parse_members fuel' (skip_ws r4) with
                          | Some (kvs, r5) => Some ((k, v) :: kvs, r5)
                          | None => None
                          end
                      | String "}" r4 => Some ([(k, v)], r4)
                      | _ => None
                      end
                  | None => None
                  end
              | _ => None
              end
          | None => None
          end
      | _ => None
      end
  end
with parse_items (fuel : nat) (s : string) : option (list json * string) :=
  match fuel with
  | O => None
  | S fuel' =>
      match parse_value fuel' s with
      | Some (v, r) =>
          match skip_ws r with
          | String "," r' =>
              match parse_items fuel' r' with
              | Some (vs, r'') => Some (v :: vs, r'')
              | None => None
              end
          | String "]" r' => Some ([v], r')
          | _ => None
          end
      | None => None
      end
  end.

(** [json.loads]: one value, then nothing but white space. *)
Definition loads (s : string) : option json :=
  match parse_value (2 * String.length s + 2) s with
  | Some (v, r) =>
      match skip_ws r with
      | EmptyString => Some v
      | String _ _ => None
      end
  | None => None
  end.

(** Writes a JSON text with apostrophes for its double quotes. *)
Fixpoint dq (s : string) : string :=
  match s with
  | EmptyString => EmptyString
  | String c r => String (if Ascii.eqb c "'" then dquote else c) (dq r)
  end.

End JsonText.

(* ===================================================================== *)
(** ** The outside world *)
(* ===================================================================== *)

(** A session message: the [dict] with the keys [role], [content] and
    [timestamp] that [main.py] appends to a session. *)
Definition msg : Type := list (string * json).

(** The body of [POST /api/generate]. *)
Record gen_request : Type := {
  req_model : string;
  req_prompt : string;
  req_stream : bool;
  req_temperature : string;
  req_top_p : string;
  req_top_k : Z;
  req_num_predict : Z;
}.

(** What [response.aiter_lines()] hands over: a line, or the exception the
    transport raises at that point of the stream. *)
Inductive stream_item : Type :=
| Line (l : string)
| Broken (e : exn).

(** Everything the engine reaches through [httpx], [subprocess], [asyncio],
    [platform], [datetime] and [uuid].  Each operation takes the state of
    the world and returns the next one; an HTTP exchange gives the status
    code with the body text (or the lines of a streamed body), or raises. *)
Class World (W : Type) : Type := {
  api_version : W -> outcome Z * W;
  api_tags : W -> outcome (Z * string) * W;
  api_pull : string -> W -> outcome (Z * list stream_item) * W;
  api_generate : gen_request -> W -> outcome (Z * string) * W;
  api_generate_stream : gen_request -> W -> outcome (Z * list stream_item) * W;
  popen_ollama_serve : bool -> W -> outcome unit * W;
  asyncio_sleep : Z -> W -> W;
  platform_system : W -> string;
  datetime_now_isoformat : W -> string * W;
  uuid4 : W -> string * W;
  (** the HTTP exchange of [call_claude_api], [call_openai_api] or
      [call_deepseek_api] once the key is known to be set, with the
      extraction of the reply text *)
  remote_call : string -> string -> list msg -> W -> outcome json * W;
}.

(** The calls the engine makes on the world, in order: a ghost record kept
    beside the program state so that theorems can speak of them. *)
Inductive call : Type :=
| CallVersion
| CallTags
| CallPull (name : string)
| CallGenerate (req : gen_request)
| CallPopen (new_console : bool)
| CallSleep (secs : Z)
| CallRemote (provider : string).

(** The configuration the engine reads ([config.py]). *)
Record Config : Type := {
  default_model : option string;       (* behavior.default_model *)
  temperature : option string;         (* behavior.temperature, as text *)
  max_tokens : option Z;               (* behavior.max_tokens *)
  model_preferences : option (gmap string (list string));
  CLAUDE_API_KEY : string;
  OPENAI_API_KEY : string;
  DEEPSEEK_API_KEY : string;
}.

(** The process state: the world, [model_manager.current_model],
    [manager.sessions], and the ghost record of calls. *)
Record State (W : Type) : Type := mkState {
  world : W;
  current_model : string;
  sessions : gmap string (list msg);
  calls : list call;
}.
Arguments mkState {W}.
Arguments world {W}.
Arguments current_model {W}.
Arguments sessions {W}.
Arguments calls {W}.

Definition with_world {W} (w : W) (c : call) (st : State W) : State W :=
  mkState w (current_model st) (sessions st) (calls st ++ [c])%list.

Definition set_world {W} (w : W) (st : State W) : State W :=
  mkState w (current_model st) (sessions st) (calls st).

Definition set_current_model {W} (m : string) (st : State W) : State W :=
  mkState (world st) m (sessions st) (calls st).

Definition set_sessions {W} (s : gmap string (list msg)) (st : State W) : State W :=
  mkState (world st) (current_model st) s (calls st).

(** *** The monad: state, with Python exceptions *)

Definition M (W A : Type) : Type := State W -> outcome A * State W.

Definition ret {W A} (a : A) : M W A := fun st => (Val a, st).

Definition raise {W A} (e : exn) : M W A := fun st => (Exc e, st).

Definition bind {W A B} (m : M W A) (k : A -> M W B) : M W B :=
  fun st =>
    match m st with
    | (Val a, st') => k a st'
    | (Exc e, st') => (Exc e, st')
    end.

(** [try: body / except Exception as e: handler e].  The handler runs in the
    state the body reached. *)
Definition try_except {W A} (body : M W A) (handler : exn -> M W A) : M W A :=
  fun st =>
    match body st with
    | (Val a, st') => (Val a, st')
    | (Exc e, st') => handler e st'
    end.

Definition lift {W A} (o : outcome A) : M W A := fun st => (o, st).

Definition get_state {W} : M W (State W) := fun st => (Val st, st).

Definition modify {W} (f : State W -> State W) : M W unit :=
  fun st => (Val tt, f st).

Declare Scope py_scope.
Delimit Scope py_scope with py.
Notation "x <- m ;; k" := (bind m (fun x => k))
  (at level 100, m at next level, right associativity) : py_scope.
Notation "m ;;; k" := (bind m (fun _ => k))
  (at level 100, right associativity) : py_scope.
Local Open Scope py_scope.

(** The line feed character, as a string. *)
Definition nl : string := String "010" EmptyString.

(** [l[-n:]]. *)
Definition last_n {A} (n : nat) (l : list A) : list A :=
  skipn (length l - n) l.

(* ===================================================================== *)
(** ** [config.py] *)
(* ===================================================================== *)

Definition get_model_for_task (config : Config) (task : string) : list string :=
  match model_preferences config with
  | Some prefs => match prefs !! task with Some l => l | None => ["llama3.2"] end
  | None => ["llama3.2"]
  end.

Definition get_system_prompt : string :=
  "You are JARVIS, an advanced AI assistant created to help with various tasks including:

1. Coding and Programming - Write, debug, and explain code in multiple languages
2. Data Analysis and Predictions - Analyze data patterns and make informed predictions
3. General Assistance - Answer questions and help with various tasks
4. File Processing - Analyze and extract information from uploaded files
5. Research and Information - Provide accurate and helpful information

You should be:
- Professional yet friendly
- Accurate and helpful
- Clear in your explanations
- Proactive in suggesting improvements
- Honest about your limitations

When working with code, always provide clean, well-commented, and efficient solutions.
When making predictions, explain your reasoning and any assumptions.
When uncertain, acknowledge it and suggest ways to get better information.".

(* ===================================================================== *)
(** ** [utils/model_manager.py]: class [ModelManager] *)
(* ===================================================================== *)

Section ModelManager.
Context `{Python} {W : Type} `{World W}.
Variable config : Config.

(** *** The calls on the world, recorded *)

Definition do_call {A} (c : call) (op : W -> outcome A * W) : M W A :=
  fun st => let (r, w) := op (world st) in (r, with_world w c st).

(** [ModelManager.__init__]: the current model starts as the configured
    default. *)
Definition init_state (w : W) : State W :=
  mkState w (match default_model config with Some m => m | None => "llama3.2" end)
          ∅ [].

Definition check_ollama_status : M W bool :=
  try_except
    (status_code <- do_call CallVersion api_version ;;
     ret (status_code =? 200))
    (fun _ => ret false).

Definition _is_windows : M W bool :=
  fun st => (Val (String.eqb (str_lower (platform_system (world st))) "windows"), st).

Definition start_ollama : M W bool :=
  try_except
    (up <- check_ollama_status ;;
     if up then ret true
     else
       windows <- _is_windows ;;
       do_call (CallPopen windows) (popen_ollama_serve windows) ;;;
       do_call (CallSleep 5) (fun w => (Val tt, asyncio_sleep 5 w)) ;;;
       check_ollama_status)
    (fun _ => ret false).

(** The guard that opens every operation on the runtime:
    [if not await self.check_ollama_status(): if not await self.start_ollama(): ...]
    gives [false] exactly when the operation takes the early return. *)
Definition ensure_running : M W bool :=
  up <- check_ollama_status ;;
  if up then ret true else start_ollama.

(** [response.json()]. *)
Definition response_json (text : string) : outcome json :=
  match json_loads text with
  | Some v => Val v
  | None => Exc (JSONDecodeError text)
  end.

(** [[model["name"] for model in models]] for a list [models]. *)
Fixpoint names_of (models : list json) : outcome (list json) :=
  match models with
  | [] => Val []
  | JObj d :: rest =>
      match dict_lookup "name" d with
      | Some v =>
          match names_of rest with
          | Val vs => Val (v :: vs)
          | Exc e => Exc e
          end
      | None => Exc (KeyError "name")
      end
  | (JStr _ | JArr _) :: _ => Exc (TypeError "indices must be integers")
  | _ :: _ => Exc (TypeError "not subscriptable")
  end.

(** [[model["name"] for model in data.get("models", [])]]. *)
Definition model_names (data : json) : outcome (list json) :=
  match data with
  | JObj d =>
      match dict_get "models" d (JArr []) with
      | JArr models => names_of models
      | JStr EmptyString => Val []
      | JStr _ => Exc (TypeError "indices must be integers")
      | JObj [] => Val []
      | JObj _ => Exc (TypeError "indices must be integers")
      | _ => Exc (TypeError "not iterable")
      end
  | v => Exc (AttributeError (py_type_name v) "get")
  end.

Definition get_available_models : M W (list json) :=
  try_except
    (running <- ensure_running ;;
     if negb running then ret []
     else
       response <- do_call CallTags api_tags ;;
       let '(status_code, text) := response in
       if status_code =? 200 then
         data <- lift (response_json text) ;;
         lift (model_names data)
       else ret [])
    (fun _ => ret []).

(** How the loop over the lines of a pull ends: at a line whose status
    contains [success], at the end of the lines, or with an exception that
    is not a [JSONDecodeError]. *)
Inductive pull_scan : Type :=
| PullSuccess
| PullEnd
| PullRaise (e : exn).

Fixpoint pull_lines (items : list stream_item) : pull_scan :=
  match items with
  | [] => PullEnd
  | Broken e :: _ => PullRaise e
  | Line line :: rest =>
      if str_nonempty line then
        match json_loads line with
        | None => pull_lines rest
        | Some (JObj data) =>
            match dict_get "status" data (JStr "") with
            | JStr status =>
                if (str_in "success" (str_lower status)
                    || eq_str (dict_get "status" data JNull) "success")%bool
                then PullSuccess
                else pull_lines rest
            | v => PullRaise (AttributeError (py_type_name v) "lower")
            end
        | Some v => PullRaise (AttributeError (py_type_name v) "get")
        end
      else pull_lines rest
  end.

Definition pull_model (model_name : string) : M W bool :=
  try_except
    (running <- ensure_running ;;
     if negb running then ret false
     else
       response <- do_call (CallPull model_name) (api_pull model_name) ;;
       let '(status_code, lines) := response in
       if status_code =? 200 then
         match pull_lines lines with
         | PullSuccess => ret true
         | PullEnd => ret true
         | PullRaise e => raise e
         end
       else ret false)
    (fun _ => ret false).

(** One line of the history, as [_prepare_prompt] renders it. *)
Definition render_msg (m : msg) : string :=
  let role := dict_get "role" m (JStr "user") in
  let content := dict_get "content" m (JStr "") in
  if eq_str role "user" then "User: " ++ py_str content ++ nl
  else if eq_str role "assistant" then "Assistant: " ++ py_str content ++ nl
  else "".

Definition _prepare_prompt (message : string)
    (conversation_history : option (list msg)) : string :=
  let context := "System: " ++ get_system_prompt ++ nl ++ nl in
  let context :=
    match conversation_history with
    | Some [] | None => context
    | Some history =>
        fold_left (fun ctx m => ctx ++ render_msg m) (last_n 10 history) context
    end in
  context ++ "User: " ++ message ++ nl ++ "Assistant: ".

(** [model or self.current_model]. *)
Definition model_or_current (model : option string) (st : State W) : string :=
  match model with
  | Some m => if str_nonempty m then m else current_model st
  | None => current_model st
  end.

Definition make_request (model_to_use prompt : string) (stream : bool)
  : gen_request :=
  {| req_model := model_to_use;
     req_prompt := prompt;
     req_stream := stream;
     req_temperature :=
       match temperature config with Some t => t | None => "0.7" end;
     req_top_p := "0.9";
     req_top_k := 40;
     req_num_predict :=
       match max_tokens config with Some n => n | None => 2000 end |}.

Definition generate_response (message : string) (model : option string)
    (conversation_history : option (list msg)) : M W json :=
  try_except
    (running <- ensure_running ;;
     if negb running then ret (JStr "Error: Ollama service is not available")
     else
       st <- get_state ;;
       let model_to_use := model_or_current model st in
       let prompt := _prepare_prompt message conversation_history in
       let req := make_request model_to_use prompt false in
       response <- do_call (CallGenerate req) (api_generate req) ;;
       let '(status_code, text) := response in
       if status_code =? 200 then
         data <- lift (response_json text) ;;
         match data with
         | JObj d => ret (dict_get "response" d (JStr "No response generated"))
         | v => raise (AttributeError (py_type_name v) "get")
         end
       else
         ret (JStr ("Error: Failed to generate response (Status: "
                    ++ pretty status_code ++ ")")))
    (fun e => ret (JStr ("Error: " ++ str_exn e))).

Definition switch_model (model_name : string) : M W bool :=
  try_except
    (available_models <- get_available_models ;;
     pulled <- (if str_in_list model_name available_models then ret true
                else pull_model model_name) ;;
     if negb pulled then ret false
     else
       test_response <-
         generate_response "Hello, respond with 'Model switched successfully'"
                           (Some model_name) None ;;
       match test_response with
       | JStr s =>
           if (str_in "successfully" (str_lower s) || str_nonempty s)%bool then
             modify (set_current_model model_name) ;;;
             ret true
           else ret false
       | v => raise (AttributeError (py_type_name v) "lower")
       end)
    (fun _ => ret false).

(** [["response" in data]]. *)
Definition contains_response (data : json) : outcome bool :=
  match data with
  | JObj d => Val (bool_decide (is_Some (dict_lookup "response" d)))
  | JArr l => Val (str_in_list "response" l)
  | JStr s => Val (str_in "response" s)
  | _ => Exc (TypeError "not iterable")
  end.

(** [[data["response"]]]. *)
Definition subscript_response (data : json) : outcome json :=
  match data with
  | JObj d =>
      match dict_lookup "response" d with
      | Some v => Val v
      | None => Exc (KeyError "response")
      end
  | JArr _ | JStr _ => Exc (TypeError "indices must be integers")
  | _ => Exc (TypeError "not subscriptable")
  end.

(** [[data.get("done", False)]]. *)
Definition get_done (data : json) : outcome json :=
  match data with
  | JObj d => Val (dict_get "done" d (JBool false))
  | v => Exc (AttributeError (py_type_name v) "get")
  end.

(** The loop over the lines of a streamed generation: the values yielded,
    and the exception that ended the loop, if one did. *)
Fixpoint stream_lines (items : list stream_item) : list json * option exn :=
  match items with
  | [] => ([], None)
  | Broken e :: _ => ([], Some e)
  | Line line :: rest =>
      if str_nonempty line then
        match json_loads line with
        | None => stream_lines rest
        | Some data =>
            match contains_response data with
            | Exc e => ([], Some e)
            | Val has_response =>
                let yielded :=
                  if has_response then
                    match subscript_response data with
                    | Val v => Val [v]
                    | Exc e => Exc e
                    end
                  else Val [] in
                match yielded with
                | Exc e => ([], Some e)
                | Val out =>
                    match get_done data with
                    | Exc e => (out, Some e)
                    | Val done =>
                        if truthy done then (out, None)
                        else
                          let (more, fault) := stream_lines rest in
                          ((out ++ more)%list, fault)
                    end
                end
            end
        end
      else stream_lines rest
  end.

(** The async generator, as the list of the values it yields when it is
    consumed to its end. *)
Definition generate_streaming_response (message : string)
    (model : option string) (conversation_history : option (list msg))
  : M W (list json) :=
  try_except
    (running <- ensure_running ;;
     if negb running then ret [JStr "Error: Ollama service is not available"]
     else
       st <- get_state ;;
       let model_to_use := model_or_current model st in
       let prompt := _prepare_prompt message conversation_history in
       let req := make_request model_to_use prompt true in
       response <- do_call (CallGenerate req) (api_generate_stream req) ;;
       let '(status_code, lines) := response in
       if status_code =? 200 then
         match stream_lines lines with
         | (chunks, None) => ret chunks
         | (chunks, Some e) => ret (chunks ++ [JStr ("Error: " ++ str_exn e)])%list
         end
       else
         ret [JStr ("Error: Failed to generate response (Status: "
                    ++ pretty status_code ++ ")")])
    (fun e => ret [JStr ("Error: " ++ str_exn e)]).

(** [[for model in recommended_models: if model in available_models:
    return model]]. *)
Fixpoint first_available (recommended_models : list string)
    (available_models : list json) : option string :=
  match recommended_models with
  | [] => None
  | model :: rest =>
      if str_in_list model available_models then Some model
      else first_available rest available_models
  end.

Definition optimize_model_selection (task_type message : string) : M W string :=
  try_except
    (let recommended_models := get_model_for_task config task_type in
     available_models <- get_available_models ;;
     match first_available recommended_models available_models with
     | Some model => ret model
     | None =>
         pulled <-
           match recommended_models with
           | first_choice :: _ => pull_model first_choice
           | [] => ret false
           end ;;
         match recommended_models, pulled with
         | first_choice :: _, true => ret first_choice
         | _, _ => st <- get_state ;; ret (current_model st)
         end
     end)
    (fun _ => st <- get_state ;; ret (current_model st)).

(* =================================================================== *)
(** ** [main.py]: sessions and the chat endpoint *)
(* =================================================================== *)

Record ChatMessage : Type := {
  message : string;
  model : string;
  use_online : bool;
  online_provider : option string;
  session_id : option string;
}.

(** The JSON object [chat_endpoint] returns. *)
Record ChatReply : Type := {
  reply_response : json;
  reply_session_id : string;
  reply_model_used : option string;
  reply_timestamp : string;
}.

(** What an endpoint gives back: its value, or the [HTTPException] it
    raises. *)
Inductive http_result (A : Type) : Type :=
| Returned (a : A)
| HTTPException (status_code : Z) (detail : string).
Arguments Returned {A} a.
Arguments HTTPException {A} status_code detail.

Definition api_key_of (provider : string) : string :=
  if String.eqb provider "claude" then CLAUDE_API_KEY config
  else if String.eqb provider "openai" then OPENAI_API_KEY config
  else DEEPSEEK_API_KEY config.

Definition provider_title (provider : string) : string :=
  if String.eqb provider "claude" then "Claude"
  else if String.eqb provider "openai" then "OpenAI"
  else "DeepSeek".

(** [call_claude_api], [call_openai_api], [call_deepseek_api]. *)
Definition call_provider_api (provider message_text : string)
    (history : list msg) : M W json :=
  if str_nonempty (api_key_of provider) then
    do_call (CallRemote provider) (remote_call provider message_text history)
  else ret (JStr (provider_title provider ++ " API key not configured")).

Definition process_online_model (message_text provider : string)
    (conversation_history : list msg) : M W json :=
  try_except
    (if (String.eqb provider "claude" || String.eqb provider "openai"
         || String.eqb provider "deepseek")%bool
     then call_provider_api provider message_text conversation_history
     else raise (ValueError ("Unsupported online provider: " ++ provider)))
    (fun e => ret (JStr ("Error processing with " ++ provider ++ ": "
                         ++ str_exn e))).

(** [manager.sessions.get(session_id, [])]. *)
Definition session_history (sid : string) (st : State W) : list msg :=
  match sessions st !! sid with Some h => h | None => [] end.

(** [manager.sessions[session_id].append(m)], the session being there. *)
Definition append_message (sid : string) (m : msg) : M W unit :=
  modify (fun st => set_sessions (<[sid := (session_history sid st ++ [m])%list]> (sessions st)) st).

Definition now : M W string :=
  fun st => let (t, w) := datetime_now_isoformat (world st) in (Val t, set_world w st).

Definition new_session_id : M W string :=
  fun st => let (u, w) := uuid4 (world st) in (Val u, set_world w st).

Definition make_message (role content : json) (timestamp : string) : msg :=
  [("role", role); ("content", content); ("timestamp", JStr timestamp)].

Definition chat_endpoint (chat_request : ChatMessage) : M W (http_result ChatReply) :=
  try_except
    (sid <-
       match session_id chat_request with
       | Some s => if str_nonempty s then ret s else new_session_id
       | None => new_session_id
       end ;;
     modify (fun st =>
               match sessions st !! sid with
               | Some _ => st
               | None => set_sessions (<[sid := []]> (sessions st)) st
               end) ;;;
     t_user <- now ;;
     append_message sid
       (make_message (JStr "user") (JStr (message chat_request)) t_user) ;;;
     st <- get_state ;;
     response <-
       match online_provider chat_request with
       | Some provider =>
           if (use_online chat_request && str_nonempty provider)%bool then
             process_online_model (message chat_request) provider
                                  (session_history sid st)
           else
             generate_response (message chat_request)
                               (Some (model chat_request))
                               (Some (session_history sid st))
       | None =>
           generate_response (message chat_request)
                             (Some (model chat_request))
                             (Some (session_history sid st))
       end ;;
     t_assistant <- now ;;
     append_message sid (make_message (JStr "assistant") response t_assistant) ;;;
     t_reply <- now ;;
     ret (Returned
            {| reply_response := response;
               reply_session_id := sid;
               reply_model_used :=
                 if use_online chat_request then online_provider chat_request
                 else Some (model chat_request);
               reply_timestamp := t_reply |}))
    (fun e => ret (HTTPException 500 (str_exn e))).

Definition get_session_history (sid : string) : M W (string * list msg) :=
  st <- get_state ;; ret (sid, session_history sid st).

(** [clear_session]: the reply is the constant
    [{"success": True, "message": "Session cleared"}]. *)
Definition clear_session (sid : string) : M W (bool * string) :=
  modify (fun st =>
            match sessions st !! sid with
            | Some _ => set_sessions (delete sid (sessions st)) st
            | None => st
            end) ;;;
  ret (true, "Session cleared").

End ModelManager.

Arguments Returned {A} a.
Arguments HTTPException {A} status_code detail.

(* ===================================================================== *)
(** ** [start_ollama] under cooperative scheduling *)
(* ===================================================================== *)

(** Several calls of [start_ollama] in flight on one event loop.  A call
    runs until it awaits; the awaits of [start_ollama] are the version probe
    inside [check_ollama_status] and [asyncio.sleep(5)].  An HTTP exchange is
    one transition of the world, so a call has two resumption points: its
    entry (probe, then the spawn when the probe fails, up to the sleep) and
    the end of the sleep (second probe, then the return). *)
Section Coroutines.
Context `{Python} {W : Type} `{World W}.

Inductive start_pc : Type :=
| AtEntry
| Sleeping
| Finished (result : bool).

(** The code of [start_ollama] from one resumption point to the next. *)
Definition start_step (pc : start_pc) (st : State W) : start_pc * State W :=
  match pc with
  | AtEntry =>
      match check_ollama_status st with
      | (Val true, st1) => (Finished true, st1)
      | (Val false, st1) =>
          match (windows <- _is_windows ;;
                 do_call (CallPopen windows) (popen_ollama_serve windows)) st1 with
          | (Val _, st2) => (Sleeping, st2)
          | (Exc _, st2) => (Finished false, st2)
          end
      | (Exc _, st1) => (Finished false, st1)
      end
  | Sleeping =>
      match (do_call (CallSleep 5) (fun w => (Val tt, asyncio_sleep 5 w)) ;;;
             check_ollama_status) st with
      | (Val result, st1) => (Finished result, st1)
      | (Exc _, st1) => (Finished false, st1)
      end
  | Finished result => (Finished result, st)
  end.

(** The event loop resumes task [i]. *)
Definition resume (i : nat) (cfg : list start_pc * State W)
  : list start_pc * State W :=
  match fst cfg !! i with
  | Some pc =>
      let (pc', st') := start_step pc (snd cfg) in (<[i := pc']> (fst cfg), st')
  | None => cfg
  end.

Definition run_schedule (schedule : list nat) (cfg : list start_pc * State W)
  : list start_pc * State W :=
  fold_left (fun c i => resume i c) schedule cfg.

Definition is_popen (c : call) : bool :=
  match c with CallPopen _ => true | _ => false end.

(** The number of times [subprocess.Popen] was called. *)
Definition spawn_attempts (st : State W) : nat :=
  length (List.filter is_popen (calls st)).

Definition is_finished (pc : start_pc) : bool :=
  match pc with Finished _ => true | _ => false end.

Definition past_entry (pc : start_pc) : bool :=
  match pc with AtEntry => false | _ => true end.

(** The number of calls that have run their first segment. *)
Definition left_entry (pcs : list start_pc) : nat :=
  length (List.filter past_entry pcs).

(** What a finished call returned. *)
Definition result_of (pc : start_pc) : bool :=
  match pc with Finished result => result | _ => false end.

End Coroutines.

(* ===================================================================== *)
(** ** A scripted runtime *)
(* ===================================================================== *)

(** A world with a scripted local runtime, to run the code on concrete
    inputs: the runtime answers while [sim_up]; a spawned process comes up
    during the next sleep when [sim_startable]. *)
Module Sim.

Record t : Type := mk {
  sim_up : bool;
  sim_startable : bool;
  sim_spawned : bool;
  sim_popen_fails : bool;
  sim_tags : Z * string;
  sim_pull : Z * list stream_item;
  sim_generate : Z * string;
  sim_generate_stream : Z * list stream_item;
  sim_platform : string;
  sim_clock : Z;
}.

Definition refused : exn := TransportError "connection refused".

Definition answer {A} (a : A) (w : t) : outcome A * t :=
  if sim_up w then (Val a, w) else (Exc refused, w).

Definition popen (w : t) : outcome unit * t :=
  if sim_popen_fails w then (Exc (OSError "ollama: not found"), w)
  else (Val tt,
        mk (sim_up w) (sim_startable w) (sim_startable w) (sim_popen_fails w)
           (sim_tags w) (sim_pull w) (sim_generate w) (sim_generate_stream w)
           (sim_platform w) (sim_clock w)).

Definition sleep (w : t) : t :=
  mk (sim_up w || sim_spawned w) (sim_startable w) (sim_spawned w)
     (sim_popen_fails w) (sim_tags w) (sim_pull w) (sim_generate w)
     (sim_generate_stream w) (sim_platform w) (sim_clock w + 5).

Definition tick (prefix : string) (w : t) : string * t :=
  (prefix ++ pretty (sim_clock w),
   mk (sim_up w) (sim_startable w) (sim_spawned w) (sim_popen_fails w)
      (sim_tags w) (sim_pull w) (sim_generate w) (sim_generate_stream w)
      (sim_platform w) (sim_clock w + 1)).

#[export] Instance sim_world : World t := {
  api_version w := answer 200 w;
  api_tags w := answer (sim_tags w) w;
  api_pull _ w := answer (sim_pull w) w;
  api_generate _ w := answer (sim_generate w) w;
  api_generate_stream _ w := answer (sim_generate_stream w) w;
  popen_ollama_serve _ w := popen w;
  asyncio_sleep _ w := sleep w;
  platform_system w := sim_platform w;
  datetime_now_isoformat w := tick "T" w;
  uuid4 w := tick "uuid-" w;
  remote_call _ _ _ w := (Val (JStr "remote reply"), w);
}.

(** An interpreter with the reference decoder. *)
Definition describe (e : exn) : string :=
  match e with
  | TransportError i => i
  | JSONDecodeError _ => "Expecting value"
  | AttributeError ty attr => "'" ++ ty ++ "' object has no attribute '" ++ attr ++ "'"
  | TypeError i => i
  | KeyError k => "'" ++ k ++ "'"
  | ValueError i => i
  | OSError i => i
  end.

#[export] Instance sim_python : Python := {
  json_loads := JsonText.loads;
  py_repr _ := "<repr>";
  str_exn := describe;
}.

Definition config : Config :=
  {| default_model := Some "llama3.2";
     temperature := Some "0.7";
     max_tokens := Some 2000;
     model_preferences :=
       Some (list_to_map
               [("coding", ["codellama"; "deepseek-coder"; "claude-3-sonnet"]);
                ("prediction", ["llama3.1:8b"; "claude-3-opus"; "gpt-4"]);
                ("conversation", ["llama3.2"; "neural-chat"; "claude-3-sonnet"]);
                ("analysis", ["llama3.1:8b"; "claude-3-opus"; "deepseek-chat"]);
                ("quick_tasks", ["phi3:mini"; "gpt-3.5-turbo"; "llama3.2"])]);
     CLAUDE_API_KEY := "";
     OPENAI_API_KEY := "";
     DEEPSEEK_API_KEY := "" |}.

(** A runtime that is up, holds the model [llama3.2], and answers a
    generation with [ok]. *)
Definition up : t :=
  {| sim_up := true;
     sim_startable := true;
     sim_spawned := false;
     sim_popen_fails := false;
     sim_tags := (200, JsonText.dq "{'models':[{'name':'llama3.2'}]}");
     sim_pull := (200, []);
     sim_generate := (200, JsonText.dq "{'response':'ok'}");
     sim_generate_stream := (200, []);
     sim_platform := "Linux";
     sim_clock := 0 |}.

(** A runtime that is down and does not come up when spawned. *)
Definition down : t :=
  {| sim_up := false;
     sim_startable := false;
     sim_spawned := false;
     sim_popen_fails := false;
     sim_tags := (200, JsonText.dq "{'models':[]}");
     sim_pull := (200, []);
     sim_generate := (200, JsonText.dq "{'response':'ok'}");
     sim_generate_stream := (200, []);
     sim_platform := "Linux";
     sim_clock := 0 |}.

Definition with_pull (p : Z * list stream_item) (w : t) : t :=
  mk (sim_up w) (sim_startable w) (sim_spawned w) (sim_popen_fails w)
     (sim_tags w) p (sim_generate w) (sim_generate_stream w)
     (sim_platform w) (sim_clock w).

Definition with_tags (g : Z * string) (w : t) : t :=
  mk (sim_up w) (sim_startable w) (sim_spawned w) (sim_popen_fails w)
     g (sim_pull w) (sim_generate w) (sim_generate_stream w)
     (sim_platform w) (sim_clock w).

Definition with_generate (g : Z * string) (w : t) : t :=
  mk (sim_up w) (sim_startable w) (sim_spawned w) (sim_popen_fails w)
     (sim_tags w) (sim_pull w) g (sim_generate_stream w)
     (sim_platform w) (sim_clock w).

Definition with_generate_stream (g : Z * list stream_item) (w : t) : t :=
  mk (sim_up w) (sim_startable w) (sim_spawned w) (sim_popen_fails w)
     (sim_tags w) (sim_pull w) (sim_generate w) g
     (sim_platform w) (sim_clock w).

Definition with_startable (b : bool) (w : t) : t :=
  mk (sim_up w) b (sim_spawned w) (sim_popen_fails w)
     (sim_tags w) (sim_pull w) (sim_generate w) (sim_generate_stream w)
     (sim_platform w) (sim_clock w).

End Sim.

(* ===================================================================== *)
(** ** Vocabulary of the statements *)
(* ===================================================================== *)

Section Vocabulary.
Context `{Python} {W : Type} `{World W}.

(** An operation that leaves [current_model] and [sessions] alone and only
    adds to the record of calls. *)
Definition frames {A} (m : M W A) : Prop :=
  forall st,
    current_model (snd (m st)) = current_model st
    /\ sessions (snd (m st)) = sessions st
    /\ exists new, calls (snd (m st)) = (calls st ++ new)%list.

(** An operation that returns, whatever the world does. *)
Definition never_raises {A} (m : M W A) : Prop :=
  forall st, exists a, fst (m st) = Val a.

(** The reply texts by which [generate_response] reports a failure all
    start with [Error:]. *)
Definition is_error_reply (v : json) : bool :=
  match v with
  | JStr s => String.prefix "Error:" s
  | _ => false
  end.

(** A set of world states in which the runtime is down and stays down:
    the version probe never answers 200, and neither a probe, nor a spawn,
    nor a sleep leaves the set. *)
Record stays_down (D : W -> Prop) : Prop := {
  down_version : forall w, D w -> fst (api_version w) <> Val 200;
  down_version_next : forall w, D w -> D (snd (api_version w));
  down_popen : forall w b, D w -> D (snd (popen_ollama_serve b w));
  down_sleep : forall w s, D w -> D (asyncio_sleep s w);
}.

(** A message as the session store holds it: the role is [user] or
    [assistant] and the content is a string. *)
Definition stored_message (m : msg) : bool :=
  match dict_lookup "role" m, dict_lookup "content" m with
  | Some (JStr r), Some (JStr _) =>
      (String.eqb r "user" || String.eqb r "assistant")%bool
  | _, _ => false
  end.

(** The line the specification gives for a message:
    [<Role>: <content>], then a line feed. *)
Definition spec_line (m : msg) : string :=
  (if eq_str (dict_get "role" m JNull) "user" then "User" else "Assistant")
  ++ ": "
  ++ match dict_get "content" m JNull with JStr c => c | _ => "" end
  ++ nl.

Definition concat_lines (ls : list string) : string :=
  fold_right String.append "" ls.

(** The protocol lines of the specification's examples. *)
Definition pull_event (status : string) : string :=
  JsonText.dq ("{'status':'" ++ status ++ "'}").

(** The three ways the loop of [pull_model] treats an item of the stream.
    A line is passed over when it is empty, when it does not decode, or when
    it decodes to an object whose status (the empty text when the object
    has none) is a text without [success] in it. *)
Inductive passed_over : stream_item -> Prop :=
| over_empty : passed_over (Line "")
| over_undecodable (line : string) :
    json_loads line = None -> passed_over (Line line)
| over_progress (line : string) (data : list (string * json)) (status : string) :
    json_loads line = Some (JObj data) ->
    dict_get "status" data (JStr "") = JStr status ->
    str_in "success" (str_lower status) = false ->
    passed_over (Line line).

(** A line announces success when it decodes to an object whose status is
    a text that contains [success], in any case of the letters. *)
Inductive announces_success : stream_item -> Prop :=
| success_line (line : string) (data : list (string * json)) (status : string) :
    str_nonempty line = true ->
    json_loads line = Some (JObj data) ->
    dict_get "status" data (JStr "") = JStr status ->
    str_in "success" (str_lower status) = true ->
    announces_success (Line line).

(** An item makes the reading raise when the transport breaks there, when
    the line decodes to a value that is not an object, or when the status
    of the object is not a text. *)
Inductive breaks_reading : stream_item -> Prop :=
| break_transport (e : exn) : breaks_reading (Broken e)
| break_not_object (line : string) (v : json) :
    str_nonempty line = true ->
    json_loads line = Some v ->
    (forall data, v <> JObj data) ->
    breaks_reading (Line line)
| break_status (line : string) (data : list (string * json)) :
    str_nonempty line = true ->
    json_loads line = Some (JObj data) ->
    (forall status, dict_get "status" data (JStr "") <> JStr status) ->
    breaks_reading (Line line).

Definition generate_event (response : string) (done : bool) : string :=
  JsonText.dq ("{'response':'" ++ response ++ "','done':"
               ++ (if done then "true" else "false") ++ "}").

(** The probe [switch_model] sends. *)
Definition probe_message : string :=
  "Hello, respond with 'Model switched successfully'".

(** The step of [switch_model] that makes the model present: nothing to do
    when it is in the inventory, a pull otherwise. *)
Definition make_present (model_name : string) (available_models : list json)
  : M W bool :=
  if str_in_list model_name available_models then ret true
  else pull_model model_name.

(** The turn goes to the local runtime: [use_online] is false or no online
    provider is named. *)
Definition local_path (chat_request : ChatMessage) : bool :=
  negb (use_online chat_request
        && match online_provider chat_request with
           | Some provider => str_nonempty provider
           | None => false
           end).

(** The first statements of [chat_endpoint], up to the user turn being in
    the session; gives the session id. *)
Definition open_turn (chat_request : ChatMessage) : M W string :=
  sid <-
    match session_id chat_request with
    | Some s => if str_nonempty s then ret s else new_session_id
    | None => new_session_id
    end ;;
  modify (fun st =>
            match sessions st !! sid with
            | Some _ => st
            | None => set_sessions (<[sid := []]> (sessions st)) st
            end) ;;;
  t_user <- now ;;
  append_message sid
    (make_message (JStr "user") (JStr (message chat_request)) t_user) ;;;
  ret sid.

(** An operation whose calls on the world all satisfy [P]. *)
Definition adds {A} (P : call -> bool) (m : M W A) : Prop :=
  forall st, exists new,
    calls (snd (m st)) = (calls st ++ new)%list /\ forallb P new = true.

Definition is_generate (c : call) : bool :=
  match c with CallGenerate _ => true | _ => false end.

(** A call other than a generation request. *)
Definition quiet (c : call) : bool := negb (is_generate c).

End Vocabulary.

#[global] Arguments stays_down {W _} D.

(* ===================================================================== *)
(** ** Scenarios *)
(* ===================================================================== *)

(** States of the scripted runtime and requests on which the statements
    below are run. *)
Section Scenarios.
#[local] Existing Instance Sim.sim_python.
#[local] Existing Instance Sim.sim_world.

(** A store with two sessions. *)
Definition two_sessions : State Sim.t :=
  set_sessions
    (<["s1" := [make_message (JStr "user") (JStr "hello") "T0"]]>
       (<["s2" := []]> ∅))
    (init_state Sim.config Sim.up).

(** The lines of the specification's example without the final success
    event. *)
Definition pull_without_success : State Sim.t :=
  init_state Sim.config
    (Sim.with_pull
       (200, [Line (pull_event "downloading"); Line (pull_event "verifying")])
       Sim.up).

(** The pull announces success after a line that does not decode, and the
    connection breaks afterwards. *)
Definition pull_success_then_broken : State Sim.t :=
  init_state Sim.config
    (Sim.with_pull
       (200, [Line (pull_event "downloading"); Line "not json";
              Line (pull_event "success");
              Broken (TransportError "connection reset")])
       Sim.up).

(** The connection breaks before the pull announces success. *)
Definition pull_broken_before_success : State Sim.t :=
  init_state Sim.config
    (Sim.with_pull
       (200, [Line (pull_event "downloading");
              Broken (TransportError "connection reset");
              Line (pull_event "success")])
       Sim.up).

(** The runtime holds llama3.2 only and refuses to pull (status 500). *)
Definition pull_refused : State Sim.t :=
  init_state Sim.config (Sim.with_pull (500, []) Sim.up).

(** The runtime holds llama3.2 and mistral:7b, and answers every generation
    with status 500. *)
Definition generation_broken : State Sim.t :=
  init_state Sim.config
    (Sim.with_tags
       (200, JsonText.dq "{'models':[{'name':'llama3.2'},{'name':'mistral:7b'}]}")
       (Sim.with_generate (500, "") Sim.up)).



(** Fifteen user messages m0 .. m14. *)
Definition fifteen_messages : list msg :=
  map (fun n : nat => make_message (JStr "user") (JStr ("m" ++ pretty n)) "T")
      (seq 0 15).

(** The runtime holds deepseek-coder and llama3.2; the preference list for
    coding is codellama, deepseek-coder, claude-3-sonnet. *)
Definition second_choice_present : State Sim.t :=
  init_state Sim.config
    (Sim.with_tags
       (200, JsonText.dq "{'models':[{'name':'llama3.2'},{'name':'deepseek-coder'}]}")
       Sim.up).

(** The scripted runtime that is down, cannot be started and has no
    process coming up. *)
Definition sim_down (w : Sim.t) : Prop :=
  Sim.sim_up w = false /\ Sim.sim_startable w = false
  /\ Sim.sim_spawned w = false.

Definition hello_turn : ChatMessage :=
  {| message := "hello";
     model := "llama3.2";
     use_online := false;
     online_provider := None;
     session_id := Some "s1" |}.

(** The runtime is down; a spawned process comes up during the sleep. *)
Definition down_startable : State Sim.t :=
  init_state Sim.config (Sim.with_startable true Sim.down).

End Scenarios.

(* ===================================================================== *)
(** ** More of [utils/model_manager.py] *)
(* ===================================================================== *)

(** The request of the runtime API that [World] leaves out and that the
    code gets sent: [POST /api/show].  It is not part of the record of
    calls. *)
Class RuntimeAdmin (W : Type) : Type := {
  api_show : string -> W -> outcome (Z * string) * W;
}.

Section Admin.
Context `{Python} {W : Type} `{World W} `{RuntimeAdmin W}.

(** An operation on the world that the record of calls does not list. *)
Definition unrecorded {A} (op : W -> outcome A * W) : M W A :=
  fun st => let (r, w) := op (world st) in (r, set_world w st).

Definition get_model_info (model_name : string) : M W (option json) :=
  try_except
    (up <- check_ollama_status ;;
     if negb up then ret None
     else
       response <- unrecorded (api_show model_name) ;;
       let '(status_code, text) := response in
       if status_code =? 200 then
         data <- lift (response_json text) ;;
         ret (Some data)
       else ret None)
    (fun _ => ret None).

(** [client.delete(url, json={"name": model_name})]: the [delete] method
    of the HTTP client takes no [json] argument (a [DELETE] carries no body
    there), so the call raises [TypeError] when it is made and no request
    leaves. *)
Definition client_delete_json (model_name : string) : M W Z :=
  raise (TypeError "delete() got an unexpected keyword argument 'json'").

Definition delete_model (model_name : string) : M W bool :=
  try_except
    (up <- check_ollama_status ;;
     if negb up then ret false
     else
       status_code <- client_delete_json model_name ;;
       ret (status_code =? 200))
    (fun _ => ret false).

End Admin.

(* ===================================================================== *)
(** ** More of [main.py]: the model endpoints *)
(* ===================================================================== *)

(** What is in flight when an endpoint leaves a [try] block by an
    exception: a Python exception, or the [HTTPException] the endpoint
    raised itself. *)
Inductive raised : Type :=
| RaisedPy (e : exn)
| RaisedHTTP (status_code : Z) (detail : string).

Inductive answer (A : Type) : Type :=
| Replied (a : A)
| Raised (r : raised).
Arguments Replied {A} a.
Arguments Raised {A} r.

(** Endpoint code: state, with the exceptions of [raised]. *)
Definition E (W A : Type) : Type := State W -> answer A * State W.

Definition e_ret {W A} (a : A) : E W A := fun st => (Replied a, st).

Definition e_raise {W A} (r : raised) : E W A := fun st => (Raised r, st).

Definition e_bind {W A B} (m : E W A) (k : A -> E W B) : E W B :=
  fun st =>
    match m st with
    | (Replied a, st') => k a st'
    | (Raised r, st') => (Raised r, st')
    end.

(** [try: body / except Exception as e: handler e]; an [HTTPException] is
    an [Exception] and is caught as well. *)
Definition e_try {W A} (body : E W A) (handler : raised -> E W A) : E W A :=
  fun st =>
    match body st with
    | (Replied a, st') => (Replied a, st')
    | (Raised r, st') => handler r st'
    end.

(** A call into [ModelManager] from an endpoint. *)
Definition of_M {W A} (m : M W A) : E W A :=
  fun st =>
    match m st with
    | (Val a, st') => (Replied a, st')
    | (Exc e, st') => (Raised (RaisedPy e), st')
    end.

Record ModelSwitch : Type := {
  model_name : string;
  provider : string;
}.

(** The JSON object [/models/switch] returns. *)
Record SwitchReply : Type := {
  switch_success : bool;
  switch_current_model : string;
  switch_provider : string;
}.

(** The JSON object [/models/pull/{model_name}] returns. *)
Record PullReply : Type := {
  pull_success : bool;
  pull_message : string;
}.

Section ModelEndpoints.
Context `{Python} {W : Type} `{World W}.
Variable config : Config.

(** [str(e)] for an [HTTPException] with the given status and detail; the
    text depends on the version of the web framework. *)
Variable str_http_exception : Z -> string -> string.

Definition str_raised (r : raised) : string :=
  match r with
  | RaisedPy e => str_exn e
  | RaisedHTTP status_code detail => str_http_exception status_code detail
  end.

(** The endpoint [switch_model] of [main.py] ([POST /models/switch]). *)
Definition post_models_switch (model_request : ModelSwitch) : E W SwitchReply :=
  e_try
    (e_bind
       (if String.eqb (provider model_request) "ollama" then
          e_bind (of_M (switch_model config (model_name model_request)))
                 (fun success =>
                    if negb success then
                      e_raise (RaisedHTTP 400 "Failed to switch model")
                    else e_ret tt)
        else e_ret tt)
       (fun _ =>
          e_ret {| switch_success := true;
                   switch_current_model := model_name model_request;
                   switch_provider := provider model_request |}))
    (fun r => e_raise (RaisedHTTP 500 (str_raised r))).

(** The endpoint [pull_model] of [main.py]
    ([POST /models/pull/{model_name}]). *)
Definition post_models_pull (name : string) : E W PullReply :=
  e_try
    (e_bind (of_M (pull_model name))
       (fun success =>
          if negb success then e_raise (RaisedHTTP 400 "Failed to pull model")
          else
            e_ret {| pull_success := true;
                     pull_message := "Model " ++ name ++ " pulled successfully" |}))
    (fun r => e_raise (RaisedHTTP 500 (str_raised r))).

(** The generation step of [chat_endpoint]: the remote provider when the
    request is online and names one, the local runtime otherwise; [sid] is
    the session of the turn and [st] the state whose history is handed
    over. *)
Definition respond (chat_request : ChatMessage) (sid : string) (st : State W)
  : M W json :=
  match online_provider chat_request with
  | Some provider =>
      if (use_online chat_request && str_nonempty provider)%bool then
        process_online_model config (message chat_request) provider
                             (session_history sid st)
      else
        generate_response config (message chat_request)
                          (Some (model chat_request))
                          (Some (session_history sid st))
  | None =>
      generate_response config (message chat_request)
                        (Some (model chat_request))
                        (Some (session_history sid st))
  end.

End ModelEndpoints.

(* ===================================================================== *)
(** ** More of [config.py] *)
(* ===================================================================== *)

Definition is_api_key_configured (config : Config) (provider : string) : bool :=
  if String.eqb provider "claude" then str_nonempty (CLAUDE_API_KEY config)
  else if String.eqb provider "openai" then str_nonempty (OPENAI_API_KEY config)
  else if String.eqb provider "deepseek" then str_nonempty (DEEPSEEK_API_KEY config)
  else false.

(** The calls of the runtime's life cycle: probe, spawn, sleep. *)
Definition is_lifecycle (c : call) : bool :=
  match c with
  | CallVersion | CallPopen _ | CallSleep _ => true
  | _ => false
  end.

(** Whether the version probe answers 200 in world [w]. *)
Definition probe_ok `{World W} (w : W) : bool :=
  match fst (api_version w) with
  | Val status_code => status_code =? 200
  | Exc _ => false
  end.

(** The [name] field of an entry of the model listing. *)
Definition entry_name (entry : json) : option json :=
  match entry with
  | JObj d => dict_lookup "name" d
  | _ => None
  end.

(** The names of a listing, when every entry is an object with a [name]. *)
Fixpoint all_names (entries : list json) : option (list json) :=
  match entries with
  | [] => Some []
  | entry :: rest =>
      match entry_name entry, all_names rest with
      | Some n, Some ns => Some (n :: ns)
      | _, _ => None
      end
  end.

(** A line of a streamed generation that carries the chunk [v] and is not
    terminal. *)
Definition chunk_line `{Python} (line : string) (v : json) : Prop :=
  str_nonempty line = true
  /\ exists d,
      json_loads line = Some (JObj d)
      /\ dict_lookup "response" d = Some v
      /\ truthy (dict_get "done" d (JBool false)) = false.

Section MoreScenarios.
#[local] Existing Instance Sim.sim_python.
#[local] Existing Instance Sim.sim_world.

(** The runtime streams one chunk, then the connection breaks. *)
Definition broken_stream : State Sim.t :=
  init_state Sim.config
    (Sim.with_generate_stream
       (200, [Line (generate_event "a" false);
              Broken (TransportError "connection reset")])
       Sim.up).

End MoreScenarios.

Section AdminScenario.

(** The scripted runtime answers [/api/show] while it is up. *)
#[local] Instance sim_admin : RuntimeAdmin Sim.t := {
  api_show _ w := Sim.answer (200, JsonText.dq "{'details':{'family':'llama'}}") w;
}.

End AdminScenario.

(* ===================================================================== *)
(** ** More of [config.py]: settings and model descriptions *)
(* ===================================================================== *)

(** [d[k] = v] on a dict given by its members: the key keeps its place when
    it is there, and goes to the end when it is new. *)
Fixpoint dict_replace (k : string) (v : json) (d : list (string * json))
  : list (string * json) :=
  match d with
  | [] => []
  | (k', v') :: r =>
      (k', if String.eqb k k' then v else v') :: dict_replace k v r
  end.

Definition dict_set (k : string) (v : json) (d : list (string * json))
  : list (string * json) :=
  match dict_lookup k d with
  | Some _ => dict_replace k v d
  | None => (d ++ [(k, v)])%list
  end.

(** [v.get(k, dflt)] for any value [v]. *)
Definition py_get (k : string) (v dflt : json) : outcome json :=
  match v with
  | JObj d => Val (dict_get k d dflt)
  | _ => Exc (AttributeError (py_type_name v) "get")
  end.

(** The file [config/settings.json], written by [json.dump]. *)
Class SettingsFile (F : Type) : Type := {
  dump_settings : json -> F -> outcome unit * F;
}.

Module ConfigPy.

(** [self.settings_config.get(category, {})], as [get_ui_settings] and
    [get_behavior_settings] read it. *)
Definition get_settings (category : string) (settings_config : json)
  : outcome json :=
  py_get category settings_config (JObj []).

Definition get_ui_settings : json -> outcome json := get_settings "ui".

Definition get_behavior_settings : json -> outcome json :=
  get_settings "behavior".

(** The two assignments of [update_setting]: the settings after them, or
    the exception they raise. *)
Definition assign_setting (category key : string) (value : json)
    (settings_config : json) : outcome json :=
  match settings_config with
  | JObj d =>
      match dict_lookup category d with
      | None => Val (JObj (d ++ [(category, JObj [(key, value)])])%list)
      | Some (JObj c) => Val (JObj (dict_replace category (JObj (dict_set key value c)) d))
      | Some _ => Exc (TypeError "does not support item assignment")
      end
  | JArr _ | JStr _ => Exc (TypeError "indices must be integers")
  | _ => Exc (TypeError "not iterable")
  end.

(** [update_setting]: what it returns, the settings in memory and the file
    afterwards.  The file is written only after the assignments went
    through; the settings in memory keep them whatever the writing does. *)
Definition update_setting `{SettingsFile F} (category key : string)
    (value : json) (settings_config : json) (f : F) : bool * json * F :=
  match assign_setting category key value settings_config with
  | Val settings' =>
      match dump_settings settings' f with
      | (Val _, f') => (true, settings', f')
      | (Exc _, f') => (false, settings', f')
      end
  | Exc _ => (false, settings_config, f)
  end.

(** [model["name"]]. *)
Definition subscript_name (model : json) : outcome json :=
  match model with
  | JObj d =>
      match dict_lookup "name" d with
      | Some v => Val v
      | None => Exc (KeyError "name")
      end
  | JArr _ | JStr _ => Exc (TypeError "indices must be integers")
  | _ => Exc (TypeError "not subscriptable")
  end.

(** The keys of a dict, each once, in the order of their first insertion. *)
Fixpoint dict_keys (seen : list string) (d : list (string * json)) : list string :=
  match d with
  | [] => []
  | (k, _) :: r =>
      if existsb (String.eqb k) seen then dict_keys seen r
      else k :: dict_keys (k :: seen) r
  end.

(** [d.values()]. *)
Definition dict_values (d : list (string * json)) : list json :=
  map (fun k => dict_get k d JNull) (dict_keys [] d).

Fixpoint chars (s : string) : list json :=
  match s with
  | EmptyString => []
  | String c r => JStr (String c EmptyString) :: chars r
  end.

(** The values a [for] loop over [v] visits. *)
Definition py_iter (v : json) : outcome (list json) :=
  match v with
  | JArr l => Val l
  | JObj d => Val (map JStr (dict_keys [] d))
  | JStr s => Val (chars s)
  | _ => Exc (TypeError "not iterable")
  end.

(** [for model in models: if model["name"] == model_name: return model]:
    the model returned, if the loop returns. *)
Fixpoint find_named (model_name : string) (models : list json)
  : outcome (option json) :=
  match models with
  | [] => Val None
  | model :: rest =>
      match subscript_name model with
      | Val v => if eq_str v model_name then Val (Some model)
                 else find_named model_name rest
      | Exc e => Exc e
      end
  end.

Definition find_in (model_name : string) (models : outcome json)
  : outcome (option json) :=
  match models with
  | Val v =>
      match py_iter v with
      | Val l => find_named model_name l
      | Exc e => Exc e
      end
  | Exc e => Exc e
  end.

Definition get_ollama_models (kind : string) (models_config : json) : outcome json :=
  match py_get "ollama_models" models_config (JObj []) with
  | Val d => py_get kind d (JArr [])
  | Exc e => Exc e
  end.

Definition get_recommended_models : json -> outcome json :=
  get_ollama_models "recommended".

Definition get_specialized_models : json -> outcome json :=
  get_ollama_models "specialized".

Definition get_online_models (models_config : json) : outcome json :=
  py_get "online_models" models_config (JObj []).

(** The nested loop over [self.get_online_models().values()]. *)
Fixpoint find_online (model_name : string) (providers : list json)
  : outcome (option json) :=
  match providers with
  | [] => Val None
  | provider_models :: rest =>
      match find_in model_name (Val provider_models) with
      | Val None => find_online model_name rest
      | other => other
      end
  end.

Definition get_model_info (models_config : json) (model_name : string)
  : outcome (option json) :=
  match find_in model_name (get_recommended_models models_config) with
  | Val None =>
      match find_in model_name (get_specialized_models models_config) with
      | Val None =>
          match get_online_models models_config with
          | Val (JObj d) => find_online model_name (dict_values d)
          | Val v => Exc (AttributeError (py_type_name v) "values")
          | Exc e => Exc e
          end
      | other => other
      end
  | other => other
  end.

End ConfigPy.

(* ===================================================================== *)
(** ** More of [main.py]: [ConnectionManager] *)
(* ===================================================================== *)

(** [ConnectionManager]: the open web sockets, each known by a number, and
    the sessions. *)
Record Connections : Type := {
  active_connections : list nat;
  conn_sessions : gmap string (list msg);
}.

(** [connect]; [accepted] is what [await websocket.accept()] does. *)
Definition connect (websocket : nat) (sid : string) (accepted : outcome unit)
    (m : Connections) : outcome unit * Connections :=
  match accepted with
  | Exc e => (Exc e, m)
  | Val _ =>
      (Val tt,
       {| active_connections := (active_connections m ++ [websocket])%list;
          conn_sessions :=
            match conn_sessions m !! sid with
            | Some _ => conn_sessions m
            | None => <[sid := []]> (conn_sessions m)
            end |})
  end.

(** [list.remove(x)]: the list without the first [x], if there is one. *)
Fixpoint list_remove (x : nat) (l : list nat) : option (list nat) :=
  match l with
  | [] => None
  | y :: r =>
      if Nat.eqb x y then Some r
      else match list_remove x r with
           | Some r' => Some (y :: r')
           | None => None
           end
  end.

Definition disconnect (websocket : nat) (m : Connections)
  : outcome unit * Connections :=
  match list_remove websocket (active_connections m) with
  | Some l =>
      (Val tt, {| active_connections := l; conn_sessions := conn_sessions m |})
  | None => (Exc (ValueError "list.remove(x): x not in list"), m)
  end.

Section SettingsScenario.

(** A settings file that cannot be written. *)
#[local] Instance read_only_file : SettingsFile unit := {
  dump_settings _ f := (Exc (OSError "read-only file system"), f);
}.

(** The behaviour settings of the default configuration. *)
Definition default_settings : list (string * json) :=
  [("behavior",
    JObj [("default_model", JStr "llama3.2"); ("temperature", JNum "0.7");
          ("max_tokens", JNum "2000")])].

(** A models configuration with one recommended and one specialized
    model. *)
Definition small_models_config : json :=
  JObj [("ollama_models",
         JObj [("recommended", JArr [JObj [("name", JStr "llama3.2")]]);
               ("specialized", JArr [JObj [("name", JStr "deepseek-coder")]])])].

End SettingsScenario.

(* ===================================================================== *)
(** ** More of [main.py]: [GET /models] *)
(* ===================================================================== *)

(** The JSON object [/models] returns. *)
Record ModelsReply : Type := {
  local_models : list json;
  online_models : json;
  reply_current_model : string;
}.

Section ModelsEndpoint.
Context `{Python} {W : Type} `{World W}.
Variable str_http_exception : Z -> string -> string.

Definition of_outcome {A} (o : outcome A) : E W A :=
  fun st =>
    match o with
    | Val a => (Replied a, st)
    | Exc e => (Raised (RaisedPy e), st)
    end.

(** The endpoint [get_models] of [main.py]; [models_config] is
    [config.models_config]. *)
Definition get_models (models_config : json) : E W ModelsReply :=
  e_try
    (e_bind (of_M get_available_models)
       (fun local =>
          e_bind (of_outcome (ConfigPy.get_online_models models_config))
            (fun online st =>
               (Replied {| local_models := local;
                           online_models := online;
                           reply_current_model := current_model st |},
                st))))
    (fun r => e_raise (RaisedHTTP 500 (str_raised str_http_exception r))).

End ModelsEndpoint.

(* ===================================================================== *)
(** ** More of [main.py]: the web socket *)
(* ===================================================================== *)

(** The JSON object a client sends over the web socket, decoded, with its
    fields at the types the front end gives them; a field that is [None] is
    absent from the object. *)
Record SocketMessage : Type := {
  socket_message : string;
  socket_model : option string;
  socket_use_online : option json;
  socket_online_provider : option string;
}.

(** The JSON object sent back. *)
Record SocketReply : Type := {
  socket_type : string;
  socket_content : json;
  socket_timestamp : string;
}.

Section WebSocket.
Context `{Python} {W : Type} `{World W}.
Variable config : Config.

(** One round of the loop of [websocket_endpoint], from the decoded message
    to the reply handed to [send_personal_message]. *)
Definition websocket_round (sid : string) (message_data : SocketMessage)
  : M W SocketReply :=
  st <- get_state ;;
  response <-
    (if match socket_use_online message_data with
        | Some v => truthy v
        | None => false
        end
     then
       process_online_model config (socket_message message_data)
         (match socket_online_provider message_data with
          | Some p => p
          | None => "claude"
          end)
         (session_history sid st)
     else
       generate_response config (socket_message message_data)
         (Some (match socket_model message_data with
                | Some m => m
                | None => "llama3.2"
                end))
         (Some (session_history sid st))) ;;
  timestamp <- now ;;
  ret {| socket_type := "response";
         socket_content := response;
         socket_timestamp := timestamp |}.

End WebSocket.

(* ===================================================================== *)
(** ** General facts about the operations *)
(* ===================================================================== *)

Lemma str_app_assoc (a b c : string) : (a ++ b) ++ c = a ++ (b ++ c).
Proof.
  induction a as [|x a IH]; [reflexivity|].
  change (String x ((a ++ b) ++ c) = String x (a ++ (b ++ c))).
  now rewrite IH.
Qed.

Lemma str_app_nil_r (a : string) : a ++ "" = a.
Proof.
  induction a as [|x a IH]; [reflexivity|].
  change (String x (a ++ "") = String x a). now rewrite IH.
Qed.

Lemma str_nonempty_app (a b : string) :
  str_nonempty a = true -> str_nonempty (a ++ b) = true.
Proof. destruct a; [discriminate | reflexivity]. Qed.

Lemma last_n_length {A} (n : nat) (l : list A) :
  length (last_n n l) = Nat.min n (length l).
Proof. unfold last_n. rewrite length_skipn. lia. Qed.

Section Facts.
Context `{Python} {W : Type} `{World W}.

Lemma frames_ret {A} (a : A) : frames (@ret W A a).
Proof. intros st. cbn. repeat split. exists []. now rewrite app_nil_r. Qed.

Lemma frames_raise {A} (e : exn) : frames (@raise W A e).
Proof. intros st. cbn. repeat split. exists []. now rewrite app_nil_r. Qed.

Lemma frames_lift {A} (o : outcome A) : frames (@lift W A o).
Proof. intros st. cbn. repeat split. exists []. now rewrite app_nil_r. Qed.

Lemma frames_get_state : frames (@get_state W).
Proof. intros st. cbn. repeat split. exists []. now rewrite app_nil_r. Qed.

Lemma frames_do_call {A} (c : call) (op : W -> outcome A * W) :
  frames (do_call c op).
Proof.
  intros st. unfold do_call. destruct (op (world st)) as [r w]. cbn.
  repeat split. now exists [c].
Qed.

Lemma frames_bind {A B} (m : M W A) (k : A -> M W B) :
  frames m -> (forall a, frames (k a)) -> frames (bind m k).
Proof.
  intros Hm Hk st. unfold bind.
  destruct (Hm st) as (Hc & Hs & new & Hn).
  destruct (m st) as [[a|e] st1]; cbn in *.
  - destruct (Hk a st1) as (Hc' & Hs' & new' & Hn').
    repeat split; [congruence | congruence |].
    exists (new ++ new')%list. rewrite Hn', Hn. now rewrite app_assoc.
  - repeat split; eauto.
Qed.

Lemma frames_try_except {A} (m : M W A) (h : exn -> M W A) :
  frames m -> (forall e, frames (h e)) -> frames (try_except m h).
Proof.
  intros Hm Hh st. unfold try_except.
  destruct (Hm st) as (Hc & Hs & new & Hn).
  destruct (m st) as [[a|e] st1]; cbn in *.
  - repeat split; eauto.
  - destruct (Hh e st1) as (Hc' & Hs' & new' & Hn').
    repeat split; [congruence | congruence |].
    exists (new ++ new')%list. rewrite Hn', Hn. now rewrite app_assoc.
Qed.

Lemma never_raises_try_except {A} (m : M W A) (h : exn -> M W A) :
  (forall e, never_raises (h e)) -> never_raises (try_except m h).
Proof.
  intros Hh st. unfold try_except.
  destruct (m st) as [[a|e] st1]; cbn; [now exists a | apply Hh].
Qed.

Lemma never_raises_ret {A} (a : A) : never_raises (@ret W A a).
Proof. intros st. now exists a. Qed.

(** Pairs a result with its state again. *)
Lemma run_eq {A} (m : M W A) (st : State W) (a : A) :
  fst (m st) = Val a -> m st = (Val a, snd (m st)).
Proof. destruct (m st) as [r st']. cbn. now intros ->. Qed.

Ltac frames_step :=
  lazymatch goal with
  | |- frames (ret _) => apply frames_ret
  | |- frames (raise _) => apply frames_raise
  | |- frames (lift _) => apply frames_lift
  | |- frames get_state => apply frames_get_state
  | |- frames (do_call _ _) => apply frames_do_call
  | |- frames (try_except _ _) => apply frames_try_except
  | |- frames (bind _ _) => apply frames_bind
  | |- frames (if ?b then _ else _) => destruct b
  | |- frames (match ?x with _ => _ end) => destruct x
  | |- frames _ => assumption
  end.

Ltac frames_auto := repeat (intros; frames_step).

Lemma frames_check_ollama_status : frames check_ollama_status.
Proof. unfold check_ollama_status. frames_auto. Qed.

Lemma frames__is_windows : frames _is_windows.
Proof. intros st. cbn. repeat split. exists []. now rewrite app_nil_r. Qed.

Lemma frames_start_ollama : frames start_ollama.
Proof.
  pose proof frames_check_ollama_status. pose proof frames__is_windows.
  unfold start_ollama. frames_auto.
Qed.

Lemma frames_ensure_running : frames ensure_running.
Proof.
  pose proof frames_check_ollama_status. pose proof frames_start_ollama.
  unfold ensure_running. frames_auto.
Qed.

Lemma frames_get_available_models : frames get_available_models.
Proof.
  pose proof frames_ensure_running.
  unfold get_available_models. frames_auto.
Qed.

Lemma frames_pull_model (name : string) : frames (pull_model name).
Proof.
  pose proof frames_ensure_running.
  unfold pull_model. frames_auto.
Qed.

Lemma frames_generate_response (config : Config) (message : string)
    (model : option string) (history : option (list msg)) :
  frames (generate_response config message model history).
Proof.
  pose proof frames_ensure_running.
  unfold generate_response. frames_auto.
Qed.




Lemma never_raises_get_available_models : never_raises get_available_models.
Proof. apply never_raises_try_except. intros e. apply never_raises_ret. Qed.

Lemma never_raises_pull_model (name : string) : never_raises (pull_model name).
Proof. apply never_raises_try_except. intros e. apply never_raises_ret. Qed.

Lemma never_raises_generate_response (config : Config) (message : string)
    (model : option string) (history : option (list msg)) :
  never_raises (generate_response config message model history).
Proof. apply never_raises_try_except. intros e. apply never_raises_ret. Qed.

Lemma never_raises_switch_model (config : Config) (name : string) :
  never_raises (switch_model config name).
Proof. apply never_raises_try_except. intros e. apply never_raises_ret. Qed.

End Facts.

(* ===================================================================== *)
(** ** The session store *)
(* ===================================================================== *)

Section SessionStore.
Context `{Python} {W : Type} `{World W}.

Lemma clear_session_run (sid : string) (st : State W) :
  clear_session sid st
  = (Val (true, "Session cleared"),
     match sessions st !! sid with
     | Some _ => set_sessions (delete sid (sessions st)) st
     | None => st
     end).
Proof. reflexivity. Qed.

Lemma clear_session_sessions (sid : string) (st : State W) :
  sessions (snd (clear_session sid st)) = delete sid (sessions st).
Proof.
  rewrite clear_session_run. cbn.
  destruct (sessions st !! sid) eqn:E; cbn; [reflexivity|].
  symmetry. now apply delete_id.
Qed.

(** C10.  Clearing a session always reports success, never raises, removes
    the session, leaves every other session and the rest of the state as
    they were, does nothing at all on an unknown id, and clearing twice
    leaves the state that clearing once leaves. *)
Theorem clear_session_idempotent_total (sid : string) (st : State W) :
  let st1 := snd (clear_session sid st) in
  fst (clear_session sid st) = Val (true, "Session cleared")
  /\ sessions st1 !! sid = None
  /\ (forall other, other <> sid -> sessions st1 !! other = sessions st !! other)
  /\ current_model st1 = current_model st
  /\ world st1 = world st
  /\ calls st1 = calls st
  /\ (sessions st !! sid = None -> st1 = st)
  /\ clear_session sid st1 = (Val (true, "Session cleared"), st1).
Proof.
  intros st1. subst st1.
  repeat split.
  - rewrite clear_session_sessions. apply lookup_delete_eq.
  - intros other Hne. rewrite clear_session_sessions.
    apply lookup_delete_ne. congruence.
  - rewrite clear_session_run. cbn. now destruct (sessions st !! sid).
  - rewrite clear_session_run. cbn. now destruct (sessions st !! sid).
  - rewrite clear_session_run. cbn. now destruct (sessions st !! sid).
  - intros Hnone. rewrite clear_session_run. cbn. now rewrite Hnone.
  - rewrite (clear_session_run sid (snd (clear_session sid st))).
    rewrite clear_session_sessions, lookup_delete_eq. reflexivity.
Qed.

End SessionStore.

Section SessionScenario.
#[local] Existing Instance Sim.sim_python.
#[local] Existing Instance Sim.sim_world.

Lemma clear_session_idempotent_total_witness :
  sessions (snd (clear_session "s1" two_sessions)) !! "s2"
  = sessions two_sessions !! "s2".
Proof.
  destruct (clear_session_idempotent_total "s1" two_sessions)
    as (_ & _ & Hother & _).
  apply Hother. discriminate.
Defined.

End SessionScenario.

(* ===================================================================== *)
(** ** Pulling a model *)
(* ===================================================================== *)

Section Pull.
Context `{Python} {W : Type} `{World W}.

Lemma pull_model_unavailable (name : string) (st st1 : State W) :
  ensure_running st = (Val false, st1) ->
  pull_model name st = (Val false, st1).
Proof.
  intros He. unfold pull_model, try_except, bind. now rewrite He.
Qed.

Lemma pull_model_answered (name : string) (st st1 : State W)
    (code : Z) (lines : list stream_item) (w2 : W) :
  ensure_running st = (Val true, st1) ->
  api_pull name (world st1) = (Val (code, lines), w2) ->
  pull_model name st
  = (Val (if code =? 200
          then match pull_lines lines with PullRaise _ => false | _ => true end
          else false),
     with_world w2 (CallPull name) st1).
Proof.
  intros He Hp. unfold pull_model, try_except, bind. rewrite He. cbn.
  unfold do_call. rewrite Hp. cbn.
  destruct (code =? 200); [|reflexivity].
  now destruct (pull_lines lines).
Qed.

Lemma pull_lines_skip (status : string) (rest : list stream_item) :
  str_nonempty (pull_event status) = true ->
  json_loads (pull_event status) = Some (JObj [("status", JStr status)]) ->
  str_in "success" (str_lower status) = false ->
  pull_lines (Line (pull_event status) :: rest) = pull_lines rest.
Proof.
  intros Hne Hd Hs. cbn [pull_lines]. rewrite Hne, Hd.
  cbn [dict_get dict_lookup String.eqb Ascii.eqb Bool.eqb].
  change (dict_get "status" [("status", JStr status)] (JStr ""))
    with (JStr status).
  rewrite Hs. cbn.
  destruct (String.eqb status "success") eqn:E; [|reflexivity].
  apply String.eqb_eq in E. subst status. discriminate Hs.
Qed.

Lemma pull_lines_passed_over (item : stream_item) (rest : list stream_item) :
  passed_over item ->
  pull_lines (item :: rest) = pull_lines rest.
Proof.
  intros [|line Hd|line data status Hd Hst Hin]; cbn [pull_lines].
  - reflexivity.
  - rewrite Hd. now destruct (str_nonempty line).
  - rewrite Hd, Hst, Hin.
    destruct (str_nonempty line); [|reflexivity].
    assert (eq_str (dict_get "status" data JNull) "success" = false) as ->;
      [|reflexivity].
    unfold dict_get in *. destruct (dict_lookup "status" data) as [v|].
    + subst v. cbn [eq_str].
      destruct (String.eqb status "success") eqn:E; [|reflexivity].
      apply String.eqb_eq in E. subst status. discriminate Hin.
    + reflexivity.
Qed.

Lemma pull_lines_announced (item : stream_item) (rest : list stream_item) :
  announces_success item ->
  pull_lines (item :: rest) = PullSuccess.
Proof.
  intros [line data status Hne Hd Hst Hin]. cbn [pull_lines].
  now rewrite Hne, Hd, Hst, Hin.
Qed.

Lemma pull_lines_broken (item : stream_item) (rest : list stream_item) :
  breaks_reading item ->
  exists e, pull_lines (item :: rest) = PullRaise e.
Proof.
  intros [e|line v Hne Hd Hno|line data Hne Hd Hno]; cbn [pull_lines].
  - now exists e.
  - rewrite Hne, Hd. destruct v as [| | | | |d]; try (eexists; reflexivity).
    now destruct (Hno d).
  - rewrite Hne, Hd.
    destruct (dict_get "status" data (JStr "")) as [| | |s| |] eqn:E;
      try (eexists; reflexivity).
    now destruct (Hno s).
Qed.

Lemma pull_lines_prefix (pre rest : list stream_item) :
  Forall passed_over pre ->
  pull_lines (pre ++ rest) = pull_lines rest.
Proof.
  induction 1 as [|item pre Hitem _ IH]; [reflexivity|].
  cbn [app]. now rewrite pull_lines_passed_over.
Qed.

End Pull.

Section PullVerdict.
Context `{Python} {W : Type} `{World W}.

(** C1, as the code has it.  When the runtime is reachable and the pull
    request is answered, [pull_model] returns true for status 200 unless
    reading the lines raises.  A status event containing [success] ends the
    reading early: after lines that are passed over (empty, undecodable, or
    progress events) it gives true whatever follows it, a broken transport
    included.  The end of the stream counts as success too: lines that are
    all passed over give true.  So the lines downloading, verifying, success
    give true, and the same lines without the last one give true as well.
    An item that makes the reading raise before any success event (a broken
    transport, a line that decodes to something other than an object, a
    status that is not a text) gives false, whatever follows; an undecodable
    line is not such an item.  A status other than 200 gives false. *)
Theorem pull_model_verdict (name : string) (st st1 : State W)
    (code : Z) (lines : list stream_item) (w2 : W) :
  ensure_running st = (Val true, st1) ->
  api_pull name (world st1) = (Val (code, lines), w2) ->
  json_loads (pull_event "downloading")
    = Some (JObj [("status", JStr "downloading")]) ->
  json_loads (pull_event "verifying")
    = Some (JObj [("status", JStr "verifying")]) ->
  json_loads (pull_event "success")
    = Some (JObj [("status", JStr "success")]) ->
  (code = 200 ->
   lines = [Line (pull_event "downloading"); Line (pull_event "verifying");
            Line (pull_event "success")] ->
   fst (pull_model name st) = Val true)
  /\ (code = 200 ->
      lines = [Line (pull_event "downloading"); Line (pull_event "verifying")] ->
      fst (pull_model name st) = Val true)
  /\ (code = 200 ->
      (forall e, pull_lines lines <> PullRaise e) ->
      fst (pull_model name st) = Val true)
  /\ (code = 200 ->
      (exists e, pull_lines lines = PullRaise e) ->
      fst (pull_model name st) = Val false)
  /\ (code <> 200 -> fst (pull_model name st) = Val false)
  /\ (forall pre item rest,
       code = 200 ->
       lines = (pre ++ item :: rest)%list ->
       Forall passed_over pre ->
       announces_success item ->
       fst (pull_model name st) = Val true)
  /\ (code = 200 ->
      Forall passed_over lines ->
      fst (pull_model name st) = Val true)
  /\ (forall pre item rest,
       code = 200 ->
       lines = (pre ++ item :: rest)%list ->
       Forall passed_over pre ->
       breaks_reading item ->
       fst (pull_model name st) = Val false).
Proof.
  intros He Hp Hd Hv Hs.
  rewrite (pull_model_answered name st st1 code lines w2 He Hp). cbn [fst].
  split; [|split; [|split; [|split; [|split; [|split; [|split]]]]]].
  - intros -> ->. cbn [Z.eqb Pos.eqb].
    rewrite !pull_lines_skip by (assumption || reflexivity).
    cbn [pull_lines].
    replace (str_nonempty (pull_event "success")) with true by reflexivity.
    rewrite Hs. reflexivity.
  - intros -> ->. cbn [Z.eqb Pos.eqb].
    rewrite !pull_lines_skip by (assumption || reflexivity).
    reflexivity.
  - intros -> Hok. cbn [Z.eqb Pos.eqb].
    destruct (pull_lines lines) as [| |e]; try reflexivity.
    now destruct (Hok e).
  - intros -> [e He']. cbn [Z.eqb Pos.eqb]. now rewrite He'.
  - intros Hne. destruct (Z.eqb_spec code 200); [contradiction | reflexivity].
  - intros pre item rest -> -> Hpre Hitem. cbn [Z.eqb Pos.eqb].
    now rewrite (pull_lines_prefix _ _ Hpre), (pull_lines_announced _ _ Hitem).
  - intros -> Hall. cbn [Z.eqb Pos.eqb].
    rewrite <- (app_nil_r lines), (pull_lines_prefix _ _ Hall). reflexivity.
  - intros pre item rest -> -> Hpre Hitem. cbn [Z.eqb Pos.eqb].
    rewrite (pull_lines_prefix _ _ Hpre).
    destruct (pull_lines_broken _ rest Hitem) as [e ->]. reflexivity.
Qed.

End PullVerdict.

Section PullScenario.
#[local] Existing Instance Sim.sim_python.
#[local] Existing Instance Sim.sim_world.

(** C1 as stated fails: the runtime is up, answers the pull with status
    200 and the two lines downloading and verifying, no success event
    follows, and [pull_model] returns true, not false. *)
Lemma pull_model_true_without_success_event :
  fst (pull_model "llama3.2" pull_without_success) = Val true
  /\ fst (pull_model "llama3.2" pull_without_success) <> Val false.
Proof. split; [vm_compute; reflexivity | vm_compute; discriminate]. Qed.

Lemma pull_model_verdict_witness :
  fst (pull_model "llama3.2" pull_without_success) = Val true
  /\ fst (pull_model "llama3.2" pull_success_then_broken) = Val true
  /\ fst (pull_model "llama3.2" pull_broken_before_success) = Val false.
Proof.
  split; [|split].
  - edestruct (pull_model_verdict "llama3.2" pull_without_success)
      as (_ & _ & _ & _ & _ & _ & Hend & _).
    + vm_compute. reflexivity.
    + vm_compute. reflexivity.
    + vm_compute. reflexivity.
    + vm_compute. reflexivity.
    + vm_compute. reflexivity.
    + apply Hend; [reflexivity|].
      constructor;
        [apply (over_progress _ [("status", JStr "downloading")] "downloading");
         vm_compute; reflexivity|].
      constructor;
        [apply (over_progress _ [("status", JStr "verifying")] "verifying");
         vm_compute; reflexivity|].
      constructor.
  - edestruct (pull_model_verdict "llama3.2" pull_success_then_broken)
      as (_ & _ & _ & _ & _ & Hearly & _).
    + vm_compute. reflexivity.
    + vm_compute. reflexivity.
    + vm_compute. reflexivity.
    + vm_compute. reflexivity.
    + vm_compute. reflexivity.
    + apply (Hearly [Line (pull_event "downloading"); Line "not json"]
                    (Line (pull_event "success"))
                    [Broken (TransportError "connection reset")]);
        [reflexivity | reflexivity | |].
      * constructor;
          [apply (over_progress _ [("status", JStr "downloading")]
                                "downloading");
           vm_compute; reflexivity|].
        constructor;
          [apply over_undecodable; vm_compute; reflexivity|].
        constructor.
      * apply (success_line _ [("status", JStr "success")] "success");
          vm_compute; reflexivity.
  - edestruct (pull_model_verdict "llama3.2" pull_broken_before_success)
      as (_ & _ & _ & _ & _ & _ & _ & Hbreak).
    + vm_compute. reflexivity.
    + vm_compute. reflexivity.
    + vm_compute. reflexivity.
    + vm_compute. reflexivity.
    + vm_compute. reflexivity.
    + apply (Hbreak [Line (pull_event "downloading")]
                    (Broken (TransportError "connection reset"))
                    [Line (pull_event "success")]);
        [reflexivity | reflexivity | |].
      * constructor;
          [apply (over_progress _ [("status", JStr "downloading")]
                                "downloading");
           vm_compute; reflexivity|].
        constructor.
      * apply break_transport.
Defined.

End PullScenario.

(* ===================================================================== *)
(** ** Switching the model *)
(* ===================================================================== *)

Section Switch.
Context `{Python} {W : Type} `{World W}.
Variable config : Config.

Lemma probe_test (s : string) :
  (str_in "successfully" (str_lower s) || str_nonempty s)%bool = str_nonempty s.
Proof.
  destruct s as [|c s]; [reflexivity|]. cbn [str_nonempty]. apply orb_true_r.
Qed.

Lemma frames_make_present (x : string) (available : list json) :
  frames (make_present x available).
Proof.
  unfold make_present. destruct (str_in_list x available).
  - apply frames_ret.
  - apply frames_pull_model.
Qed.

Lemma switch_model_not_present (x : string) (st st1 st2 : State W)
    (available : list json) :
  get_available_models st = (Val available, st1) ->
  make_present x available st1 = (Val false, st2) ->
  switch_model config x st = (Val false, st2).
Proof.
  intros Ha Hp. unfold switch_model, try_except, bind. rewrite Ha.
  unfold make_present in Hp. rewrite Hp. reflexivity.
Qed.

Lemma switch_model_probed (x : string) (st st1 st2 st3 : State W)
    (available : list json) (reply : json) :
  get_available_models st = (Val available, st1) ->
  make_present x available st1 = (Val true, st2) ->
  generate_response config probe_message (Some x) None st2 = (Val reply, st3) ->
  switch_model config x st
  = match reply with
    | JStr s =>
        if str_nonempty s then (Val true, set_current_model x st3)
        else (Val false, st3)
    | _ => (Val false, st3)
    end.
Proof.
  intros Ha Hp Hg. unfold switch_model, try_except, bind. rewrite Ha.
  unfold make_present in Hp. rewrite Hp. cbn [negb].
  unfold probe_message in Hg. rewrite Hg.
  destruct reply as [| b | raw | s | items | members]; try reflexivity.
  rewrite probe_test. now destruct (str_nonempty s).
Qed.

(** The three stages of a switch always return. *)
Lemma switch_model_stages (x : string) (st : State W) :
  exists available st1 present st2,
    get_available_models st = (Val available, st1)
    /\ make_present x available st1 = (Val present, st2)
    /\ current_model st2 = current_model st
    /\ exists reply st3,
        generate_response config probe_message (Some x) None st2
        = (Val reply, st3)
        /\ current_model st3 = current_model st.
Proof.
  destruct (never_raises_get_available_models st) as [available Ha].
  apply run_eq in Ha.
  set (st1 := snd (get_available_models st)) in *.
  assert (Hp : exists present, fst (make_present x available st1) = Val present).
  { unfold make_present. destruct (str_in_list x available).
    - now exists true.
    - apply never_raises_pull_model. }
  destruct Hp as [present Hp]. apply run_eq in Hp.
  set (st2 := snd (make_present x available st1)) in *.
  destruct (never_raises_generate_response config probe_message (Some x) None st2)
    as [reply Hg].
  apply run_eq in Hg.
  assert (H12 : current_model st2 = current_model st).
  { subst st2. rewrite (proj1 (frames_make_present x available st1)).
    subst st1. apply frames_get_available_models. }
  exists available, st1, present, st2. repeat split; try assumption.
  eexists _, _. split; [exact Hg|].
  rewrite (proj1 (frames_generate_response config _ _ _ st2)). exact H12.
Qed.

(** C4.  When the model is absent from the inventory and the pull that
    [switch_model] attempts reports failure, [switch_model] returns false
    and the current model is the one it was before the call. *)
Theorem switch_model_pull_failure (x : string) (st st1 st2 : State W)
    (available : list json) :
  get_available_models st = (Val available, st1) ->
  str_in_list x available = false ->
  pull_model x st1 = (Val false, st2) ->
  switch_model config x st = (Val false, st2)
  /\ current_model st2 = current_model st.
Proof.
  intros Ha Habsent Hp. split.
  - apply (switch_model_not_present x st st1 st2 available Ha).
    unfold make_present. now rewrite Habsent.
  - replace st2 with (snd (pull_model x st1)) by now rewrite Hp.
    rewrite (proj1 (frames_pull_model x st1)).
    replace st1 with (snd (get_available_models st)) by now rewrite Ha.
    apply frames_get_available_models.
Qed.

(** C2, as the code has it.  [switch_model] returns true exactly when the
    model is in the inventory or its pull returned true, and the probe
    generation returned a non-empty string; the state it leaves is the one
    after the probe with the current model set to the new name.  Any
    non-empty string commits, the error texts of [generate_response]
    included.  In every other case it returns false and the current model
    is unchanged; in particular an empty probe reply does not commit. *)
Theorem switch_model_commit_rule (x : string) (st : State W) :
  (forall st',
      switch_model config x st = (Val true, st') <->
      exists available st1 st2 s st3,
        get_available_models st = (Val available, st1)
        /\ ((str_in_list x available = true /\ st2 = st1)
            \/ (str_in_list x available = false
                /\ pull_model x st1 = (Val true, st2)))
        /\ generate_response config probe_message (Some x) None st2
           = (Val (JStr s), st3)
        /\ s <> ""
        /\ st' = set_current_model x st3)
  /\ (forall st',
         switch_model config x st = (Val false, st') ->
         current_model st' = current_model st).
Proof.
  destruct (switch_model_stages x st)
    as (available & st1 & present & st2 & Ha & Hp & H2 & reply & st3 & Hg & H3).
  assert (Hpresent : present = true ->
            (str_in_list x available = true /\ st2 = st1)
            \/ (str_in_list x available = false
                /\ pull_model x st1 = (Val true, st2))).
  { intros ->. unfold make_present in Hp.
    destruct (str_in_list x available).
    - left. split; [reflexivity|]. now inversion Hp.
    - right. now split. }
  split.
  - intros st'. split.
    + intros Hsw. destruct present.
      * rewrite (switch_model_probed x st st1 st2 st3 available reply Ha Hp Hg)
          in Hsw.
        destruct reply as [| b | raw | s | items | members]; try discriminate.
        destruct s as [|c s]; cbn in Hsw; [discriminate|].
        exists available, st1, st2, (String c s), st3.
        repeat split; try assumption; try discriminate.
        { now apply Hpresent. }
        now inversion Hsw.
      * rewrite (switch_model_not_present x st st1 st2 available Ha Hp) in Hsw.
        discriminate.
    + intros (available' & st1' & st2' & s & st3' & Ha' & Hor & Hg' & Hs & ->).
      rewrite Ha in Ha'. inversion Ha'; subst available' st1'.
      assert (Hp' : make_present x available st1 = (Val true, st2')).
      { unfold make_present. destruct Hor as [[Hin ->]|[Hin Hpull]];
          rewrite Hin; [reflexivity | exact Hpull]. }
      rewrite (switch_model_probed x st st1 st2' st3' available (JStr s) Ha Hp' Hg').
      destruct s; [contradiction | reflexivity].
  - intros st' Hsw. destruct present.
    + rewrite (switch_model_probed x st st1 st2 st3 available reply Ha Hp Hg)
        in Hsw.
      destruct reply as [| b | raw | s | items | members];
        try (inversion Hsw; subst; exact H3).
      destruct (str_nonempty s); [discriminate|].
      inversion Hsw; subst; exact H3.
    + rewrite (switch_model_not_present x st st1 st2 available Ha Hp) in Hsw.
      inversion Hsw; subst; exact H2.
Qed.

End Switch.

Section SwitchScenario.
#[local] Existing Instance Sim.sim_python.
#[local] Existing Instance Sim.sim_world.

Lemma switch_model_pull_failure_witness :
  fst (switch_model Sim.config "mistral:7b" pull_refused) = Val false
  /\ current_model (snd (switch_model Sim.config "mistral:7b" pull_refused))
     = "llama3.2".
Proof.
  edestruct (switch_model_pull_failure Sim.config "mistral:7b" pull_refused)
    as [Hsw Hcur].
  - vm_compute. reflexivity.
  - vm_compute. reflexivity.
  - vm_compute. reflexivity.
  - rewrite Hsw. split; [reflexivity|]. cbn [snd]. rewrite Hcur. reflexivity.
Defined.

(** C2 as stated fails: mistral:7b is in the inventory, the probe
    generation comes back as an error text (the runtime answers 500), and
    [switch_model] still returns true and moves the current model from
    llama3.2 to mistral:7b. *)
Lemma switch_model_commits_on_error_reply :
  let st1 := snd (get_available_models generation_broken) in
  fst (get_available_models generation_broken)
  = Val [JStr "llama3.2"; JStr "mistral:7b"]
  /\ fst (generate_response Sim.config probe_message (Some "mistral:7b") None st1)
     = Val (JStr "Error: Failed to generate response (Status: 500)")
  /\ is_error_reply (JStr "Error: Failed to generate response (Status: 500)")
     = true
  /\ fst (switch_model Sim.config "mistral:7b" generation_broken) = Val true
  /\ current_model generation_broken = "llama3.2"
  /\ current_model (snd (switch_model Sim.config "mistral:7b" generation_broken))
     = "mistral:7b".
Proof. vm_compute. repeat split. Qed.

Lemma switch_model_commit_rule_witness :
  current_model (snd (switch_model Sim.config "mistral:7b" pull_refused))
  = current_model pull_refused.
Proof.
  apply (proj2 (switch_model_commit_rule Sim.config "mistral:7b" pull_refused)).
  vm_compute. reflexivity.
Defined.

End SwitchScenario.

(* ===================================================================== *)
(** ** Streaming generation *)
(* ===================================================================== *)

Section Streaming.
Context `{Python} {W : Type} `{World W}.
Variable config : Config.


Lemma stream_lines_object (line : string) (d : list (string * json))
    (rest : list stream_item) :
  str_nonempty line = true ->
  json_loads line = Some (JObj d) ->
  stream_lines (Line line :: rest)
  = let out := match dict_lookup "response" d with Some v => [v] | None => [] end in
    if truthy (dict_get "done" d (JBool false)) then (out, None)
    else (out ++ fst (stream_lines rest), snd (stream_lines rest))%list.
Proof.
  intros Hne Hd. cbn [stream_lines]. rewrite Hne, Hd.
  cbn [contains_response subscript_response get_done].
  destruct (dict_lookup "response" d) as [v|] eqn:E.
  - rewrite bool_decide_eq_true_2 by eauto.
    destruct (truthy _); [reflexivity|]. now destruct (stream_lines rest).
  - rewrite bool_decide_eq_false_2 by (intros [v Hv]; discriminate).
    destruct (truthy _); [reflexivity|]. now destruct (stream_lines rest).
Qed.

Lemma generate_streaming_answered (message : string) (model : option string)
    (history : option (list msg)) (st st1 : State W)
    (lines : list stream_item) (w2 : W) :
  ensure_running st = (Val true, st1) ->
  api_generate_stream
    (make_request config (model_or_current model st1)
                  (_prepare_prompt message history) true)
    (world st1)
  = (Val (200, lines), w2) ->
  fst (generate_streaming_response config message model history st)
  = Val (match snd (stream_lines lines) with
         | None => fst (stream_lines lines)
         | Some e =>
             (fst (stream_lines lines) ++ [JStr ("Error: " ++ str_exn e)])%list
         end).
Proof.
  intros He Hg.
  unfold generate_streaming_response, try_except, bind. rewrite He.
  cbn [negb get_state]. unfold do_call. rewrite Hg. cbn [Z.eqb Pos.eqb].
  destruct (stream_lines lines) as [chunks [e|]]; reflexivity.
Qed.


End Streaming.

Section StreamingScenario.
#[local] Existing Instance Sim.sim_python.
#[local] Existing Instance Sim.sim_world.



End StreamingScenario.

(* ===================================================================== *)
(** ** Prompt assembly *)
(* ===================================================================== *)

Section Prompt.
Context `{Python}.

Lemma fold_left_render (l : list msg) (ctx : string) :
  fold_left (fun c m => c ++ render_msg m) l ctx
  = ctx ++ concat_lines (map render_msg l).
Proof.
  revert ctx. induction l as [|m l IH]; intros ctx; cbn [fold_left map].
  - cbn. now rewrite str_app_nil_r.
  - rewrite IH. cbn [concat_lines fold_right]. now rewrite str_app_assoc.
Qed.

Lemma prepare_prompt_eq (message : string) (history : list msg) :
  _prepare_prompt message (Some history)
  = ("System: " ++ get_system_prompt ++ nl ++ nl)
    ++ concat_lines (map render_msg (last_n 10 history))
    ++ "User: " ++ message ++ nl ++ "Assistant: ".
Proof.
  unfold _prepare_prompt. destruct history as [|m l].
  - cbn [last_n length skipn map concat_lines fold_right].
    now rewrite str_app_assoc.
  - rewrite fold_left_render. now rewrite !str_app_assoc.
Qed.

Lemma dict_get_found (k : string) (d : list (string * json)) (v dflt : json) :
  dict_lookup k d = Some v -> dict_get k d dflt = v.
Proof. unfold dict_get. now intros ->. Qed.

Lemma render_stored_message (m : msg) :
  stored_message m = true -> render_msg m = spec_line m.
Proof.
  unfold stored_message, render_msg, spec_line.
  destruct (dict_lookup "role" m) as [[| | |r| |]|] eqn:Er; try discriminate.
  destruct (dict_lookup "content" m) as [[| | |c| |]|] eqn:Ec; try discriminate.
  rewrite !(dict_get_found _ _ _ _ Er), !(dict_get_found _ _ _ _ Ec).
  cbn [eq_str py_str]. intros Hr.
  destruct (String.eqb r "user"); [reflexivity|].
  cbn in Hr. now rewrite Hr.
Qed.

Lemma map_render_stored (l : list msg) :
  forallb stored_message l = true -> map render_msg l = map spec_line l.
Proof.
  induction l as [|m l IH]; [reflexivity|]. cbn [forallb map].
  intros [Hm Hl]%andb_prop. now rewrite IH, render_stored_message.
Qed.

Lemma forallb_last_n {A} (p : A -> bool) (n : nat) (l : list A) :
  forallb p l = true -> forallb p (last_n n l) = true.
Proof.
  unfold last_n. generalize (length l - n)%nat as k. intros k. revert l.
  induction k as [|k IH]; intros [|x l]; cbn; try easy.
  intros [_ Hl]%andb_prop. now apply IH.
Qed.

(** C5.  For a history of stored messages, the prompt is the system
    preamble, then the last ten messages of the history, oldest first, each
    on a line of its own as [<Role>: <content>], then the new user turn and
    the assistant cue.  The window holds min(10, length) messages: exactly
    ten, the last ten, for a history of fifteen. *)
Theorem prepare_prompt_window (message : string) (history : list msg) :
  forallb stored_message history = true ->
  _prepare_prompt message (Some history)
  = ("System: " ++ get_system_prompt ++ nl ++ nl)
    ++ concat_lines (map spec_line (last_n 10 history))
    ++ "User: " ++ message ++ nl ++ "Assistant: "
  /\ length (last_n 10 history) = Nat.min 10 (length history)
  /\ history = (firstn (length history - 10) history ++ last_n 10 history)%list
  /\ (length history = 15%nat ->
      last_n 10 history = skipn 5 history
      /\ length (last_n 10 history) = 10%nat).
Proof.
  intros Hst. split; [|split; [|split]].
  - rewrite prepare_prompt_eq.
    now rewrite (map_render_stored _ (forallb_last_n _ 10 _ Hst)).
  - apply last_n_length.
  - unfold last_n. now rewrite firstn_skipn.
  - intros Hlen. split.
    + unfold last_n. now rewrite Hlen.
    + rewrite last_n_length. lia.
Qed.

End Prompt.

Section PromptScenario.
#[local] Existing Instance Sim.sim_python.

Lemma prepare_prompt_window_witness :
  length (last_n 10 fifteen_messages) = 10%nat
  /\ last_n 10 fifteen_messages = skipn 5 fifteen_messages.
Proof.
  destruct (prepare_prompt_window "new" fifteen_messages)
    as (_ & _ & _ & Hfifteen).
  - vm_compute. reflexivity.
  - destruct Hfifteen as [Hlast Hlen]; [reflexivity|]. now split.
Defined.

End PromptScenario.

(* ===================================================================== *)
(** ** Choosing a model for a task *)
(* ===================================================================== *)

Section Selection.
Context `{Python} {W : Type} `{World W}.
Variable config : Config.

Lemma first_available_found (before after : list string) (m : string)
    (available : list json) :
  forallb (fun p => negb (str_in_list p available)) before = true ->
  str_in_list m available = true ->
  first_available (before ++ m :: after) available = Some m.
Proof.
  induction before as [|p before IH]; cbn [forallb app first_available].
  - now intros _ ->.
  - intros [Hp Hb]%andb_prop Hm.
    apply negb_true_iff in Hp. rewrite Hp. now apply IH.
Qed.

Lemma first_available_none (l : list string) (available : list json) :
  forallb (fun p => negb (str_in_list p available)) l = true ->
  first_available l available = None.
Proof.
  induction l as [|p l IH]; cbn [forallb first_available]; [reflexivity|].
  intros [Hp Hl]%andb_prop. apply negb_true_iff in Hp. rewrite Hp. now apply IH.
Qed.

(** C8.  For a task with a non-empty preference list,
    [optimize_model_selection] returns the first entry of the list that is
    in the listing of available models; when no entry is, it pulls the first
    entry and returns it if the pull returns true, and returns the current
    model otherwise. *)
Theorem optimize_model_selection_rule (task message : string)
    (st st1 : State W) (available : list json) :
  get_model_for_task config task <> [] ->
  get_available_models st = (Val available, st1) ->
  (forall before m after,
      get_model_for_task config task = (before ++ m :: after)%list ->
      forallb (fun p => negb (str_in_list p available)) before = true ->
      str_in_list m available = true ->
      optimize_model_selection config task message st = (Val m, st1))
  /\ (forall first rest pulled st2,
         get_model_for_task config task = first :: rest ->
         forallb (fun p => negb (str_in_list p available)) (first :: rest) = true ->
         pull_model first st1 = (Val pulled, st2) ->
         optimize_model_selection config task message st
         = (Val (if pulled then first else current_model st), st2)).
Proof.
  intros _ Ha. split.
  - intros before m after Hprefs Hbefore Hm.
    unfold optimize_model_selection, try_except, bind. rewrite Ha, Hprefs.
    now rewrite (first_available_found before after m available Hbefore Hm).
  - intros first rest pulled st2 Hprefs Hnone Hp.
    assert (Hcur : current_model st2 = current_model st).
    { pose proof (proj1 (frames_pull_model first st1)) as H2.
      pose proof (proj1 (frames_get_available_models st)) as H1'.
      rewrite Hp in H2. rewrite Ha in H1'. cbn [snd] in *. congruence. }
    unfold optimize_model_selection, try_except, bind. rewrite Ha, Hprefs.
    rewrite (first_available_none _ _ Hnone). rewrite Hp.
    destruct pulled; [reflexivity|]. cbn [get_state ret]. now rewrite Hcur.
Qed.

End Selection.

Section SelectionScenario.
#[local] Existing Instance Sim.sim_python.
#[local] Existing Instance Sim.sim_world.

Lemma optimize_model_selection_rule_witness :
  fst (optimize_model_selection Sim.config "coding" "" second_choice_present)
  = Val "deepseek-coder"
  /\ fst (optimize_model_selection Sim.config "coding" "" pull_refused)
     = Val "llama3.2".
Proof.
  split.
  - edestruct (optimize_model_selection_rule Sim.config "coding" ""
                 second_choice_present) as [Hfound _].
    + vm_compute. discriminate.
    + vm_compute. reflexivity.
    + rewrite (Hfound ["codellama"] "deepseek-coder" ["claude-3-sonnet"]);
        vm_compute; reflexivity.
  - edestruct (optimize_model_selection_rule Sim.config "coding" ""
                 pull_refused) as [_ Hpull].
    + vm_compute. discriminate.
    + vm_compute. reflexivity.
    + erewrite (Hpull "codellama" ["deepseek-coder"; "claude-3-sonnet"] false).
      * reflexivity.
      * vm_compute. reflexivity.
      * vm_compute. reflexivity.
      * vm_compute. reflexivity.
Defined.

End SelectionScenario.

(* ===================================================================== *)
(** ** A turn through the chat endpoint *)
(* ===================================================================== *)

Section Calls.
Context `{Python} {W : Type} `{World W}.

Lemma adds_ret {A} (P : call -> bool) (a : A) : adds P (@ret W A a).
Proof. intros st. exists []. cbn. now rewrite app_nil_r. Qed.

Lemma adds_raise {A} (P : call -> bool) (e : exn) : adds P (@raise W A e).
Proof. intros st. exists []. cbn. now rewrite app_nil_r. Qed.

Lemma adds_do_call {A} (P : call -> bool) (c : call) (op : W -> outcome A * W) :
  P c = true -> adds P (do_call c op).
Proof.
  intros Hc st. exists [c]. unfold do_call.
  destruct (op (world st)) as [r w]. cbn. now rewrite Hc.
Qed.

Lemma adds_bind {A B} (P : call -> bool) (m : M W A) (k : A -> M W B) :
  adds P m -> (forall a, adds P (k a)) -> adds P (bind m k).
Proof.
  intros Hm Hk st. unfold bind. destruct (Hm st) as (new & Hn & Hp).
  destruct (m st) as [[a|e] st1]; cbn in *.
  - destruct (Hk a st1) as (new' & Hn' & Hp').
    exists (new ++ new')%list. rewrite Hn', Hn, app_assoc. split; [reflexivity|].
    rewrite forallb_app. now rewrite Hp, Hp'.
  - now exists new.
Qed.

Lemma adds_try_except {A} (P : call -> bool) (m : M W A) (h : exn -> M W A) :
  adds P m -> (forall e, adds P (h e)) -> adds P (try_except m h).
Proof.
  intros Hm Hh st. unfold try_except. destruct (Hm st) as (new & Hn & Hp).
  destruct (m st) as [[a|e] st1]; cbn in *.
  - now exists new.
  - destruct (Hh e st1) as (new' & Hn' & Hp').
    exists (new ++ new')%list. rewrite Hn', Hn, app_assoc. split; [reflexivity|].
    rewrite forallb_app. now rewrite Hp, Hp'.
Qed.

Lemma adds_check_ollama_status : adds quiet check_ollama_status.
Proof.
  apply adds_try_except.
  - apply adds_bind; [now apply adds_do_call|]. intros a. apply adds_ret.
  - intros e. apply adds_ret.
Qed.

Lemma adds_start_ollama : adds quiet start_ollama.
Proof.
  apply adds_try_except; [|intros e; apply adds_ret].
  apply adds_bind; [apply adds_check_ollama_status|]. intros [|].
  - apply adds_ret.
  - apply adds_bind.
    { intros st. exists []. cbn. now rewrite app_nil_r. }
    intros windows. apply adds_bind; [now apply adds_do_call|]. intros _.
    apply adds_bind; [now apply adds_do_call|]. intros _.
    apply adds_check_ollama_status.
Qed.

Lemma adds_ensure_running : adds quiet ensure_running.
Proof.
  apply adds_bind; [apply adds_check_ollama_status|]. intros [|].
  - apply adds_ret.
  - apply adds_start_ollama.
Qed.

End Calls.

Section Down.
Context `{Python} {W : Type} `{World W}.
Variable D : W -> Prop.
Hypothesis HD : stays_down D.

Lemma check_ollama_status_down (st : State W) :
  D (world st) ->
  exists st', check_ollama_status st = (Val false, st') /\ D (world st').
Proof.
  intros Hw. unfold check_ollama_status, try_except, bind, do_call.
  pose proof (down_version D HD _ Hw) as Hv.
  pose proof (down_version_next D HD _ Hw) as Hn.
  destruct (api_version (world st)) as [[code|e] w1]; cbn in *.
  - destruct (Z.eqb_spec code 200) as [->|Hne]; [now destruct Hv|].
    eexists. split; [reflexivity | exact Hn].
  - eexists. split; [reflexivity | exact Hn].
Qed.

End Down.

Section Turn.
Context `{Python} {W : Type} `{World W}.
Variable config : Config.

Lemma session_history_set_world (sid : string) (w : W) (st : State W) :
  session_history sid (set_world w st) = session_history sid st.
Proof. reflexivity. Qed.

Lemma open_turn_run (chat_request : ChatMessage) (st : State W) :
  exists sid t_user st_a,
    open_turn chat_request st = (Val sid, st_a)
    /\ sessions st_a
       = <[sid := (session_history sid st
                   ++ [make_message (JStr "user")
                         (JStr (message chat_request)) t_user])%list]>
           (sessions st)
    /\ calls st_a = calls st
    /\ current_model st_a = current_model st
    /\ (forall s, session_id chat_request = Some s ->
                  str_nonempty s = true -> sid = s).
Proof.
  assert (Hfrom : forall sid (st0 : State W),
    sessions st0 = sessions st -> calls st0 = calls st ->
    current_model st0 = current_model st ->
    exists t_user st_a,
      (modify (fun st =>
                 match sessions st !! sid with
                 | Some _ => st
                 | None => set_sessions (<[sid := []]> (sessions st)) st
                 end) ;;;
       t_user <- now ;;
       append_message sid
         (make_message (JStr "user") (JStr (message chat_request)) t_user) ;;;
       ret sid) st0 = (Val sid, st_a)
      /\ sessions st_a
         = <[sid := (session_history sid st
                     ++ [make_message (JStr "user")
                           (JStr (message chat_request)) t_user])%list]>
             (sessions st)
      /\ calls st_a = calls st
      /\ current_model st_a = current_model st).
  { intros sid st0 Hs Hc Hm.
    unfold bind, modify, now, append_message, ret.
    destruct (datetime_now_isoformat (world st0)) as [t w1] eqn:Enow.
    unfold session_history. rewrite <- Hs.
    destruct (sessions st0 !! sid) as [h|] eqn:Eh; cbn; rewrite Enow; cbn.
    - exists t. eexists. split; [reflexivity|]. cbn. rewrite Eh.
      repeat split; assumption.
    - exists t. eexists. split; [reflexivity|]. cbn.
      rewrite lookup_insert_eq, insert_insert_eq.
      repeat split; assumption. }
  unfold open_turn.
  destruct (session_id chat_request) as [[|c s]|] eqn:Esid; cbn [str_nonempty].
  - unfold bind at 1. unfold new_session_id.
    destruct (uuid4 (world st)) as [u w0] eqn:Eu.
    destruct (Hfrom u (set_world w0 st) eq_refl eq_refl eq_refl)
      as (t & st_a & Hrun & Hs & Hc & Hm).
    exists u, t, st_a. repeat split; try assumption.
    intros s' [= <-]. discriminate.
  - unfold bind at 1. unfold ret at 1.
    destruct (Hfrom (String c s) st eq_refl eq_refl eq_refl)
      as (t & st_a & Hrun & Hs & Hc & Hm).
    exists (String c s), t, st_a. repeat split; try assumption.
    intros s' [= <-]. reflexivity.
  - unfold bind at 1. unfold new_session_id.
    destruct (uuid4 (world st)) as [u w0] eqn:Eu.
    destruct (Hfrom u (set_world w0 st) eq_refl eq_refl eq_refl)
      as (t & st_a & Hrun & Hs & Hc & Hm).
    exists u, t, st_a. repeat split; try assumption.
    intros s' [=].
Qed.

Lemma chat_endpoint_local (chat_request : ChatMessage) (st st_a st_b : State W)
    (sid : string) (response : json) :
  local_path chat_request = true ->
  open_turn chat_request st = (Val sid, st_a) ->
  generate_response config (message chat_request) (Some (model chat_request))
                    (Some (session_history sid st_a)) st_a
  = (Val response, st_b) ->
  exists t_assistant t_reply st',
    chat_endpoint config chat_request st
    = (Val (Returned
              {| reply_response := response;
                 reply_session_id := sid;
                 reply_model_used :=
                   if use_online chat_request then online_provider chat_request
                   else Some (model chat_request);
                 reply_timestamp := t_reply |}),
       st')
    /\ sessions st'
       = <[sid := (session_history sid st_b
                   ++ [make_message (JStr "assistant") response t_assistant])%list]>
           (sessions st_b)
    /\ calls st' = calls st_b
    /\ current_model st' = current_model st_b.
Proof.
  intros Hlocal Hopen Hgen.
  assert (Hbranch :
    match online_provider chat_request with
    | Some provider =>
        if (use_online chat_request && str_nonempty provider)%bool then
          process_online_model config (message chat_request) provider
                               (session_history sid st_a)
        else
          generate_response config (message chat_request)
                            (Some (model chat_request))
                            (Some (session_history sid st_a))
    | None =>
        generate_response config (message chat_request)
                          (Some (model chat_request))
                          (Some (session_history sid st_a))
    end st_a = (Val response, st_b)).
  { unfold local_path in Hlocal.
    destruct (online_provider chat_request) as [provider|]; [|exact Hgen].
    apply negb_true_iff in Hlocal. rewrite Hlocal. exact Hgen. }
  unfold chat_endpoint, try_except. unfold open_turn in Hopen.
  unfold bind in *.
  destruct (match session_id chat_request with
            | Some s => if str_nonempty s then ret s else new_session_id
            | None => new_session_id
            end st) as [[sid0|e0] s0]; [|discriminate].
  unfold append_message in *. unfold modify, now, get_state, ret in *.
  cbv beta iota in *.
  destruct (datetime_now_isoformat _) as [t_user w1] in *.
  cbv beta iota in *.
  injection Hopen as Hsid Hst. subst sid0.
  cbn [sessions set_world set_sessions world current_model calls] in *.
  rewrite Hst, Hbranch.
  destruct (datetime_now_isoformat (world st_b)) as [t_assistant w2].
  cbv beta iota. cbn [world set_world set_sessions].
  destruct (datetime_now_isoformat w2) as [t_reply w3].
  exists t_assistant, t_reply. eexists. split; [reflexivity|].
  cbn. repeat split.
Qed.

Lemma generate_response_unavailable (message : string) (model : option string)
    (history : option (list msg)) (st st1 st2 : State W) :
  check_ollama_status st = (Val false, st1) ->
  start_ollama st1 = (Val false, st2) ->
  generate_response config message model history st
  = (Val (JStr "Error: Ollama service is not available"), st2).
Proof.
  intros Hc Hs. unfold generate_response, ensure_running, try_except, bind.
  now rewrite Hc, Hs.
Qed.

(** C6.  A turn on the local path, submitted while the runtime is down (the
    probe fails) and fails to start, returns normally (no [HTTPException]);
    its response is the text [Error: Ollama service is not available],
    which is not empty; and the session afterwards is the session before
    followed by the user turn and by an assistant turn that carries that
    text.  The probe and the start are those of the generation, made once
    the user turn is in the session. *)
Theorem chat_turn_while_down (chat_request : ChatMessage)
    (st st_a st_c st_b : State W) (sid : string) :
  local_path chat_request = true ->
  open_turn chat_request st = (Val sid, st_a) ->
  check_ollama_status st_a = (Val false, st_c) ->
  start_ollama st_c = (Val false, st_b) ->
  exists reply st' t_user t_assistant,
    chat_endpoint config chat_request st = (Val (Returned reply), st')
    /\ reply_session_id reply = sid
    /\ reply_response reply = JStr "Error: Ollama service is not available"
    /\ truthy (reply_response reply) = true
    /\ is_error_reply (reply_response reply) = true
    /\ session_history sid st'
       = (session_history sid st
          ++ [make_message (JStr "user") (JStr (message chat_request)) t_user;
              make_message (JStr "assistant") (reply_response reply)
                           t_assistant])%list.
Proof.
  intros Hlocal Hopen Hcheck Hstart.
  destruct (open_turn_run chat_request st)
    as (sid' & t_user & st_a' & Hopen' & Hs_a & _).
  rewrite Hopen in Hopen'. injection Hopen' as <- <-.
  pose proof (generate_response_unavailable (message chat_request)
                (Some (model chat_request)) (Some (session_history sid st_a))
                st_a st_c st_b Hcheck Hstart) as Hgen.
  destruct (chat_endpoint_local chat_request st st_a st_b sid _
              Hlocal Hopen Hgen) as (t_assistant & t_reply & st' & Hrun & Hs' & _).
  eexists _, st', t_user, t_assistant. split; [exact Hrun|].
  cbn [reply_response reply_session_id]. repeat split.
  unfold session_history at 1. rewrite Hs', lookup_insert_eq.
  assert (Hb : sessions st_b = sessions st_a).
  { pose proof (frames_generate_response config (message chat_request)
                  (Some (model chat_request))
                  (Some (session_history sid st_a)) st_a) as (_ & Hf & _).
    now rewrite Hgen in Hf. }
  unfold session_history at 1. rewrite Hb, Hs_a, lookup_insert_eq.
  now rewrite <- app_assoc.
Qed.






End Turn.

Section TurnScenario.
#[local] Existing Instance Sim.sim_python.
#[local] Existing Instance Sim.sim_world.

Lemma sim_down_stays_down : stays_down sim_down.
Proof.
  split.
  - intros w (Hup & _). cbn. unfold Sim.answer. now rewrite Hup.
  - intros w (Hup & Hst & Hsp). cbn. unfold Sim.answer. now rewrite Hup.
  - intros w b (Hup & Hst & Hsp). cbn. unfold Sim.popen.
    destruct (Sim.sim_popen_fails w); cbn; repeat split; assumption.
  - intros w s (Hup & Hst & Hsp). cbn. unfold Sim.sleep, sim_down. cbn.
    now rewrite Hup, Hsp.
Qed.

Lemma chat_turn_while_down_witness :
  exists reply st' t_user t_assistant,
    chat_endpoint Sim.config hello_turn (init_state Sim.config Sim.down)
    = (Val (Returned reply), st')
    /\ reply_session_id reply = "s1"
    /\ reply_response reply = JStr "Error: Ollama service is not available"
    /\ truthy (reply_response reply) = true
    /\ is_error_reply (reply_response reply) = true
    /\ session_history "s1" st'
       = (session_history "s1" (init_state Sim.config Sim.down)
          ++ [make_message (JStr "user") (JStr (message hello_turn)) t_user;
              make_message (JStr "assistant") (reply_response reply)
                           t_assistant])%list.
Proof.
  eapply (chat_turn_while_down Sim.config hello_turn
            (init_state Sim.config Sim.down)).
  - reflexivity.
  - vm_compute. reflexivity.
  - vm_compute. reflexivity.
  - vm_compute. reflexivity.
Defined.


End TurnScenario.

(* ===================================================================== *)
(** ** Concurrent calls of [start_ollama] *)
(* ===================================================================== *)

Section Spawning.
Context `{Python} {W : Type} `{World W}.

Lemma spawn_attempts_with_world (w : W) (c : call) (st : State W) :
  spawn_attempts (with_world w c st)
  = (spawn_attempts st + (if is_popen c then 1 else 0))%nat.
Proof.
  unfold spawn_attempts. cbn [calls with_world].
  rewrite List.filter_app, length_app. cbn [List.filter].
  now destruct (is_popen c).
Qed.

Lemma check_ollama_status_run (st : State W) :
  check_ollama_status st
  = (Val match fst (api_version (world st)) with
         | Val status_code => status_code =? 200
         | Exc _ => false
         end,
     with_world (snd (api_version (world st))) CallVersion st).
Proof.
  unfold check_ollama_status, try_except, bind, do_call.
  now destruct (api_version (world st)) as [[code|e] w1].
Qed.

(** The two segments of [start_step], run one after the other, are
    [start_ollama]. *)
Lemma start_ollama_as_steps (st : State W) :
  start_ollama st
  = (let (pc1, st1) := start_step AtEntry st in
     let (pc2, st2) := start_step pc1 st1 in
     (Val (result_of pc2), st2)).
Proof.
  unfold start_ollama, start_step, try_except, bind.
  rewrite check_ollama_status_run.
  destruct (fst (api_version (world st))) as [code|e0]; [destruct (code =? 200)|];
    try reflexivity.
  - cbn [_is_windows]. unfold do_call at 1 3.
    destruct (popen_ollama_serve _ _) as [[u|e] w2]; [|reflexivity].
    unfold do_call. rewrite !check_ollama_status_run. reflexivity.
  - cbn [_is_windows]. unfold do_call at 1 3.
    destruct (popen_ollama_serve _ _) as [[u|e] w2]; [|reflexivity].
    unfold do_call. rewrite !check_ollama_status_run. reflexivity.
Qed.

(** A segment never goes back to the entry, and spawns at most once, and
    only when it starts from the entry. *)
Lemma start_step_spawns (pc : start_pc) (st : State W) :
  past_entry (fst (start_step pc st)) = true
  /\ (spawn_attempts (snd (start_step pc st))
      <= spawn_attempts st + (if past_entry pc then 0 else 1))%nat.
Proof.
  destruct pc as [| |result]; unfold start_step.
  - rewrite check_ollama_status_run.
    destruct (fst (api_version (world st))) as [code|e];
      [destruct (code =? 200)|]; cbn [fst snd past_entry].
    + rewrite spawn_attempts_with_world. cbn. split; [reflexivity | lia].
    + unfold bind. cbn [_is_windows]. unfold do_call.
      destruct (popen_ollama_serve _ _) as [[u|e] w2]; cbn [fst snd past_entry];
        rewrite !spawn_attempts_with_world; cbn; split; (reflexivity || lia).
    + unfold bind. cbn [_is_windows]. unfold do_call.
      destruct (popen_ollama_serve _ _) as [[u|e'] w2]; cbn [fst snd past_entry];
        rewrite !spawn_attempts_with_world; cbn; split; (reflexivity || lia).
  - unfold bind, do_call. rewrite check_ollama_status_run.
    cbn [fst snd past_entry]. rewrite !spawn_attempts_with_world. cbn.
    split; [reflexivity | lia].
  - cbn. split; [reflexivity | lia].
Qed.

Lemma left_entry_insert (pcs : list start_pc) (i : nat) (pc pc' : start_pc) :
  pcs !! i = Some pc ->
  past_entry pc' = true ->
  left_entry (<[i := pc']> pcs)
  = (left_entry pcs + (if past_entry pc then 0 else 1))%nat.
Proof.
  unfold left_entry. revert i.
  induction pcs as [|q pcs IH]; intros [|i] Hi Hp; try discriminate.
  - injection Hi as ->.
    change (<[0%nat := pc']> (pc :: pcs)) with (pc' :: pcs).
    cbn [List.filter]. rewrite Hp. destruct (past_entry pc); cbn [length]; lia.
  - change (<[S i := pc']> (q :: pcs)) with (q :: <[i := pc']> pcs).
    change ((q :: pcs) !! S i) with (pcs !! i) in Hi.
    specialize (IH i Hi Hp). cbn [List.filter].
    destruct (past_entry q); cbn [length]; lia.
Qed.

Lemma left_entry_replicate (n : nat) : left_entry (replicate n AtEntry) = 0%nat.
Proof. unfold left_entry. induction n as [|k IH]; [reflexivity | exact IH]. Qed.

Lemma left_entry_le (pcs : list start_pc) : (left_entry pcs <= length pcs)%nat.
Proof. unfold left_entry. apply List.filter_length_le. Qed.

Lemma left_entry_finished (pcs : list start_pc) :
  forallb is_finished pcs = true -> left_entry pcs = length pcs.
Proof.
  unfold left_entry. induction pcs as [|pc pcs IH]; [reflexivity|].
  cbn [forallb List.filter]. intros [Hpc Hl]%andb_prop.
  destruct pc; try discriminate. cbn. now rewrite IH.
Qed.

Lemma resume_length (i : nat) (cfg : list start_pc * State W) :
  length (fst (resume i cfg)) = length (fst cfg).
Proof.
  unfold resume. destruct (fst cfg !! i) as [pc|]; [|reflexivity].
  destruct (start_step pc (snd cfg)). cbn. apply length_insert.
Qed.

Lemma run_schedule_length (schedule : list nat) (cfg : list start_pc * State W) :
  length (fst (run_schedule schedule cfg)) = length (fst cfg).
Proof.
  revert cfg. induction schedule as [|i schedule IH]; intros cfg; [reflexivity|].
  cbn [run_schedule fold_left]. fold (run_schedule schedule (resume i cfg)).
  now rewrite IH, resume_length.
Qed.

(** In any world, the calls in flight have spawned at most once each. *)
Lemma spawn_attempts_at_most_one_per_call (schedule : list nat)
    (cfg : list start_pc * State W) (base : nat) :
  (spawn_attempts (snd cfg) <= base + left_entry (fst cfg))%nat ->
  (spawn_attempts (snd (run_schedule schedule cfg))
   <= base + left_entry (fst (run_schedule schedule cfg)))%nat.
Proof.
  revert cfg. induction schedule as [|i schedule IH]; intros cfg Hinv;
    [exact Hinv|].
  cbn [run_schedule fold_left]. fold (run_schedule schedule (resume i cfg)).
  apply IH. unfold resume.
  destruct (fst cfg !! i) as [pc|] eqn:Ei; [|exact Hinv].
  destruct (start_step_spawns pc (snd cfg)) as [Hpast Hle].
  destruct (start_step pc (snd cfg)) as [pc' st']. cbn [fst snd] in *.
  rewrite (left_entry_insert _ _ _ _ Ei Hpast). lia.
Qed.

Section WhileDown.
Variable D : W -> Prop.
Hypothesis HD : stays_down D.

(** While the runtime stays down, the segment from the entry spawns. *)
Lemma start_step_down (pc : start_pc) (st : State W) :
  D (world st) ->
  D (world (snd (start_step pc st)))
  /\ spawn_attempts (snd (start_step pc st))
     = (spawn_attempts st + (if past_entry pc then 0 else 1))%nat.
Proof.
  intros Hw. destruct pc as [| |result]; unfold start_step.
  - destruct (check_ollama_status_down D HD st Hw) as (st1 & Hc & H1).
    pose proof (check_ollama_status_run st) as Hrun. rewrite Hc in Hrun.
    injection Hrun as _ Hst1. rewrite Hc.
    unfold bind. cbn [_is_windows]. unfold do_call.
    pose proof (down_popen D HD _
                  (String.eqb (str_lower (platform_system (world st1))) "windows")
                  H1) as Hp.
    destruct (popen_ollama_serve _ (world st1)) as [[u|e] w2];
      cbn [fst snd past_entry world with_world] in *;
      (split; [exact Hp|]);
      rewrite spawn_attempts_with_world, Hst1, spawn_attempts_with_world;
      cbn; lia.
  - unfold bind, do_call. rewrite check_ollama_status_run.
    cbn [fst snd past_entry world with_world].
    split.
    + apply (down_version_next D HD). now apply (down_sleep D HD).
    + rewrite !spawn_attempts_with_world. cbn. lia.
  - cbn. split; [exact Hw | lia].
Qed.

Lemma run_schedule_down (schedule : list nat) (cfg : list start_pc * State W)
    (base : nat) :
  D (world (snd cfg)) ->
  spawn_attempts (snd cfg) = (base + left_entry (fst cfg))%nat ->
  spawn_attempts (snd (run_schedule schedule cfg))
  = (base + left_entry (fst (run_schedule schedule cfg)))%nat.
Proof.
  revert cfg. induction schedule as [|i schedule IH]; intros cfg Hw Hinv;
    [exact Hinv|].
  cbn [run_schedule fold_left]. fold (run_schedule schedule (resume i cfg)).
  unfold resume.
  destruct (fst cfg !! i) as [pc|] eqn:Ei; [|now apply IH].
  destruct (start_step_down pc (snd cfg) Hw) as [Hw' Hsp].
  destruct (start_step_spawns pc (snd cfg)) as [Hpast _].
  destruct (start_step pc (snd cfg)) as [pc' st']. cbn [fst snd] in *.
  apply IH; cbn [fst snd]; [exact Hw'|].
  rewrite (left_entry_insert _ _ _ _ Ei Hpast). lia.
Qed.

(** C7, as the code has it.  [start_ollama] has no single-flight guard:
    every call that finds the runtime down makes a spawn attempt of its
    own.  For [n] calls in flight at once while the runtime stays down, under
    any schedule, the spawn attempts made are as many as the calls that have
    run their first segment, so [n] once all calls have returned; and in
    any case never more than [n]. *)
Theorem start_ollama_spawns_per_call (n : nat) (schedule : list nat)
    (st : State W) :
  D (world st) ->
  let cfg := run_schedule schedule (replicate n AtEntry, st) in
  length (fst cfg) = n
  /\ spawn_attempts (snd cfg)
     = (spawn_attempts st + left_entry (fst cfg))%nat
  /\ (spawn_attempts (snd cfg) <= spawn_attempts st + n)%nat
  /\ (forallb is_finished (fst cfg) = true ->
      spawn_attempts (snd cfg) = (spawn_attempts st + n)%nat).
Proof.
  intros Hw cfg.
  assert (Hlen : length (fst cfg) = n).
  { subst cfg. rewrite run_schedule_length. cbn. apply length_replicate. }
  assert (Hinv : spawn_attempts (snd cfg)
                 = (spawn_attempts st + left_entry (fst cfg))%nat).
  { subst cfg. apply run_schedule_down; [exact Hw|]. cbn [fst snd].
    rewrite left_entry_replicate. lia. }
  repeat split; try assumption.
  - rewrite Hinv. pose proof (left_entry_le (fst cfg)). lia.
  - intros Hfin. rewrite Hinv, (left_entry_finished _ Hfin), Hlen. reflexivity.
Qed.

End WhileDown.
End Spawning.

Section SpawningScenario.
#[local] Existing Instance Sim.sim_python.
#[local] Existing Instance Sim.sim_world.

(** C7 as stated fails: two calls of [start_ollama] in flight at once,
    each resumed in turn, both find the runtime down and both call
    [Popen]: two spawn attempts, not at most one. *)
Lemma two_concurrent_starts_spawn_twice :
  let cfg := run_schedule [0; 1; 0; 1]%nat ([AtEntry; AtEntry], down_startable) in
  fst cfg = [Finished true; Finished true]
  /\ spawn_attempts (snd cfg) = 2%nat
  /\ ~ (spawn_attempts (snd cfg) <= 1)%nat.
Proof.
  vm_compute. repeat split. intros Hle.
  apply Nat.nle_succ_diag_l in Hle. exact Hle.
Qed.

Lemma start_ollama_spawns_per_call_witness :
  let cfg :=
    run_schedule [0; 1; 0; 1]%nat
      (replicate 2 AtEntry, init_state Sim.config Sim.down) in
  length (fst cfg) = 2%nat
  /\ spawn_attempts (snd cfg)
     = (spawn_attempts (init_state Sim.config Sim.down) + left_entry (fst cfg))%nat
  /\ (spawn_attempts (snd cfg)
      <= spawn_attempts (init_state Sim.config Sim.down) + 2)%nat
  /\ (forallb is_finished (fst cfg) = true ->
      spawn_attempts (snd cfg)
      = (spawn_attempts (init_state Sim.config Sim.down) + 2)%nat).
Proof.
  apply (start_ollama_spawns_per_call sim_down sim_down_stays_down 2
           [0; 1; 0; 1]%nat (init_state Sim.config Sim.down)).
  repeat split.
Defined.

End SpawningScenario.

(* ===================================================================== *)
(** ** Further properties: the runtime's life cycle and inventory *)
(* ===================================================================== *)

Section Lifecycle.
Context `{Python} {W : Type} `{World W}.

Lemma check_ollama_status_probe (st : State W) :
  check_ollama_status st
  = (Val (probe_ok (world st)),
     with_world (snd (api_version (world st))) CallVersion st).
Proof. apply check_ollama_status_run. Qed.

Lemma start_ollama_run (st : State W) :
  let w1 := snd (api_version (world st)) in
  let windows := String.eqb (str_lower (platform_system w1)) "windows" in
  let w2 := snd (popen_ollama_serve windows w1) in
  let spawned := with_world w2 (CallPopen windows) (with_world w1 CallVersion st) in
  start_ollama st
  = if probe_ok (world st) then (Val true, with_world w1 CallVersion st)
    else
      match fst (popen_ollama_serve windows w1) with
      | Exc _ => (Val false, spawned)
      | Val _ =>
          (Val (probe_ok (asyncio_sleep 5 w2)),
           with_world (snd (api_version (asyncio_sleep 5 w2))) CallVersion
             (with_world (asyncio_sleep 5 w2) (CallSleep 5) spawned))
      end.
Proof.
  cbv zeta. unfold start_ollama, try_except, bind.
  rewrite check_ollama_status_probe.
  destruct (probe_ok (world st)); [reflexivity|].
  cbn [_is_windows world with_world]. unfold do_call at 1.
  cbn [world with_world].
  destruct (popen_ollama_serve _ _) as [[u|e] w2]; cbn [fst snd]; [|reflexivity].
  unfold do_call. cbn [world with_world].
  rewrite check_ollama_status_probe. reflexivity.
Qed.

(** X1.  [start_ollama] never raises.  When the first probe answers 200 it
    returns true having made that probe only: no spawn, no sleep.
    Otherwise it makes exactly one spawn attempt, and it can return true
    only if the probe after the five-second sleep answers 200; when the
    spawn itself raises it returns false. *)
Theorem start_ollama_outcome (st : State W) :
  let w1 := snd (api_version (world st)) in
  let windows := String.eqb (str_lower (platform_system w1)) "windows" in
  let w2 := snd (popen_ollama_serve windows w1) in
  (exists b, fst (start_ollama st) = Val b)
  /\ (probe_ok (world st) = true ->
      start_ollama st = (Val true, with_world w1 CallVersion st))
  /\ (probe_ok (world st) = false ->
      spawn_attempts (snd (start_ollama st)) = (spawn_attempts st + 1)%nat
      /\ (fst (start_ollama st) = Val true ->
          probe_ok (asyncio_sleep 5 w2) = true)
      /\ ((exists e, fst (popen_ollama_serve windows w1) = Exc e) ->
          fst (start_ollama st) = Val false)).
Proof.
  cbv zeta. rewrite start_ollama_run. cbv zeta.
  destruct (probe_ok (world st)).
  - split; [now exists true|]. split; [reflexivity | discriminate].
  - destruct (fst (popen_ollama_serve _ _)) as [u|e] eqn:Ep; cbn [fst snd].
    + split; [eexists; reflexivity|]. split; [discriminate|]. intros _.
      rewrite !spawn_attempts_with_world. cbn.
      split; [lia|]. split.
      * now intros [= ->].
      * intros [e He]. discriminate.
    + split; [now exists false|]. split; [discriminate|]. intros _.
      rewrite !spawn_attempts_with_world. cbn.
      split; [lia|]. split; [discriminate | reflexivity].
Qed.

Lemma names_of_all_names (entries : list json) :
  match all_names entries with
  | Some names => names_of entries = Val names
  | None => exists e, names_of entries = Exc e
  end.
Proof.
  induction entries as [|entry rest IH]; [reflexivity|].
  cbn [all_names names_of].
  destruct entry as [| b | raw | s | items | d]; cbn [entry_name];
    try (eexists; reflexivity).
  destruct (dict_lookup "name" d) as [n|]; [|eexists; reflexivity].
  destruct (all_names rest) as [names|].
  - now rewrite IH.
  - destruct IH as [e ->]. now exists e.
Qed.

Lemma get_available_models_answered (st st1 : State W) (code : Z)
    (text : string) (w2 : W) :
  ensure_running st = (Val true, st1) ->
  api_tags (world st1) = (Val (code, text), w2) ->
  fst (get_available_models st)
  = Val (if code =? 200 then
           match response_json text with
           | Val data =>
               match model_names data with Val names => names | Exc _ => [] end
           | Exc _ => []
           end
         else []).
Proof.
  intros He Ht. unfold get_available_models, try_except, bind.
  rewrite He. cbn [negb]. unfold do_call. rewrite Ht.
  destruct (code =? 200); [|reflexivity].
  unfold lift. destruct (response_json text) as [data|e]; [|reflexivity].
  now destruct (model_names data).
Qed.

(** X2.  With the runtime reachable and the listing answered with status
    200 and a JSON object, [get_available_models] returns the [name] of
    every entry of [models], in the order of the listing, when each entry is
    an object that has a name; one entry without a name, or one that is not
    an object, empties the whole result.  A listing without the key [models]
    gives the empty list. *)
Theorem get_available_models_listing (st st1 : State W) (text : string)
    (d : list (string * json)) (w2 : W) :
  ensure_running st = (Val true, st1) ->
  api_tags (world st1) = (Val (200, text), w2) ->
  json_loads text = Some (JObj d) ->
  (forall entries,
      dict_lookup "models" d = Some (JArr entries) ->
      fst (get_available_models st)
      = Val (match all_names entries with Some names => names | None => [] end))
  /\ (dict_lookup "models" d = None -> fst (get_available_models st) = Val []).
Proof.
  intros He Ht Hd.
  rewrite (get_available_models_answered st st1 200 text w2 He Ht).
  cbn [Z.eqb Pos.eqb]. unfold response_json. rewrite Hd.
  cbn [model_names]. unfold dict_get. split.
  - intros entries ->. pose proof (names_of_all_names entries) as Hn.
    destruct (all_names entries) as [names|].
    + now rewrite Hn.
    + destruct Hn as [e ->]. reflexivity.
  - intros ->. reflexivity.
Qed.

Lemma lifecycle_check_ollama_status : adds is_lifecycle check_ollama_status.
Proof.
  apply adds_try_except.
  - apply adds_bind; [now apply adds_do_call|]. intros a. apply adds_ret.
  - intros e. apply adds_ret.
Qed.

Lemma lifecycle_start_ollama : adds is_lifecycle start_ollama.
Proof.
  apply adds_try_except; [|intros e; apply adds_ret].
  apply adds_bind; [apply lifecycle_check_ollama_status|]. intros [|].
  - apply adds_ret.
  - apply adds_bind.
    { intros st. exists []. cbn. now rewrite app_nil_r. }
    intros windows. apply adds_bind; [now apply adds_do_call|]. intros _.
    apply adds_bind; [now apply adds_do_call|]. intros _.
    apply lifecycle_check_ollama_status.
Qed.

Lemma lifecycle_ensure_running : adds is_lifecycle ensure_running.
Proof.
  apply adds_bind; [apply lifecycle_check_ollama_status|]. intros [|].
  - apply adds_ret.
  - apply lifecycle_start_ollama.
Qed.

(** X3.  When the runtime cannot be reached and cannot be started, listing,
    pulling and generating give up with their failure value (the empty
    list, false, the text that the service is not available, that text as
    the only chunk) in the state the start attempt left, having sent only
    probes, a spawn and a sleep: no listing, pull or generation request. *)
Theorem unavailable_sends_no_request (config : Config) (name message : string)
    (model : option string) (history : option (list msg))
    (st st1 : State W) :
  ensure_running st = (Val false, st1) ->
  get_available_models st = (Val [], st1)
  /\ pull_model name st = (Val false, st1)
  /\ generate_response config message model history st
     = (Val (JStr "Error: Ollama service is not available"), st1)
  /\ generate_streaming_response config message model history st
     = (Val [JStr "Error: Ollama service is not available"], st1)
  /\ exists new,
      calls st1 = (calls st ++ new)%list /\ forallb is_lifecycle new = true.
Proof.
  intros He. repeat split.
  - unfold get_available_models, try_except, bind. now rewrite He.
  - unfold pull_model, try_except, bind. now rewrite He.
  - unfold generate_response, try_except, bind. now rewrite He.
  - unfold generate_streaming_response, try_except, bind. now rewrite He.
  - destruct (lifecycle_ensure_running st) as (new & Hn & Hall).
    rewrite He in Hn. now exists new.
Qed.

End Lifecycle.

Section LifecycleScenario.
#[local] Existing Instance Sim.sim_python.
#[local] Existing Instance Sim.sim_world.

Lemma start_ollama_outcome_witness :
  start_ollama (init_state Sim.config Sim.up)
  = (Val true, with_world Sim.up CallVersion (init_state Sim.config Sim.up)).
Proof.
  destruct (start_ollama_outcome (init_state Sim.config Sim.up))
    as (_ & Hup & _).
  apply Hup. reflexivity.
Defined.

Lemma get_available_models_listing_witness :
  fst (get_available_models second_choice_present)
  = Val [JStr "llama3.2"; JStr "deepseek-coder"].
Proof.
  edestruct (get_available_models_listing second_choice_present) as [Hlist _].
  - vm_compute. reflexivity.
  - vm_compute. reflexivity.
  - vm_compute. reflexivity.
  - rewrite (Hlist [JObj [("name", JStr "llama3.2")];
                    JObj [("name", JStr "deepseek-coder")]]); reflexivity.
Defined.

Lemma unavailable_sends_no_request_witness :
  pull_model "llama3.2" (init_state Sim.config Sim.down)
  = (Val false, snd (ensure_running (init_state Sim.config Sim.down))).
Proof.
  apply (unavailable_sends_no_request Sim.config "llama3.2" "" None None
           (init_state Sim.config Sim.down)).
  vm_compute. reflexivity.
Defined.

End LifecycleScenario.

(* ===================================================================== *)
(** ** Further properties: generation *)
(* ===================================================================== *)

Section Generation.
Context `{Python} {W : Type} `{World W}.
Variable config : Config.

Lemma is_error_reply_text (x : string) :
  is_error_reply (JStr ("Error: " ++ x)) = true.
Proof. reflexivity. Qed.

(** X4.  [generate_response] never raises: every failure comes back as a
    text that starts with [Error:] (runtime unavailable, transport
    exception, status other than 200, body that is not JSON or not an
    object).  The only other results are those of a status-200 answer whose
    body is a JSON object: its [response] field, whatever JSON value that
    is, or the text [No response generated] when the field is missing. *)
Theorem generate_response_failure_is_text (message : string)
    (model : option string) (history : option (list msg)) (st : State W) :
  exists v st',
    generate_response config message model history st = (Val v, st')
    /\ (is_error_reply v = true
        \/ exists st1 text d w2,
            ensure_running st = (Val true, st1)
            /\ api_generate
                 (make_request config (model_or_current model st1)
                               (_prepare_prompt message history) false)
                 (world st1)
               = (Val (200, text), w2)
            /\ json_loads text = Some (JObj d)
            /\ v = match dict_lookup "response" d with
                   | Some field => field
                   | None => JStr "No response generated"
                   end).
Proof.
  unfold generate_response, try_except, bind.
  destruct (ensure_running st) as [[[|]|e] st1] eqn:He.
  - cbn [negb get_state]. unfold do_call.
    destruct (api_generate _ (world st1)) as [[[code text]|e] w2] eqn:Hg.
    + destruct (Z.eqb_spec code 200) as [->|Hne].
      * unfold lift, response_json.
        destruct (json_loads text) as [[| b | raw | s | items | d]|] eqn:Hd;
          try (eexists _, _; split; [reflexivity|]; left; reflexivity).
        eexists _, _. split; [reflexivity|]. right.
        exists st1, text, d, w2. repeat split; try assumption.
      * eexists _, _. split; [reflexivity|]. left. reflexivity.
    + eexists _, _. split; [reflexivity|]. left. reflexivity.
  - eexists _, _. split; [reflexivity|]. left. reflexivity.
  - eexists _, _. split; [reflexivity|]. left. reflexivity.
Qed.

Lemma generate_response_requests (message : string) (model : option string)
    (history : option (list msg)) (st : State W) :
  exists new,
    calls (snd (generate_response config message model history st))
    = (calls st ++ new)%list
    /\ forall r,
        In (CallGenerate r) new ->
        r = make_request config (model_or_current model st)
                         (_prepare_prompt message history) false.
Proof.
  destruct (adds_ensure_running st) as (quiet_calls & Hq & Hall).
  assert (Hnone : forall r, ~ In (CallGenerate r) quiet_calls).
  { intros r Hin. rewrite forallb_forall in Hall.
    specialize (Hall _ Hin). discriminate. }
  pose proof (proj1 (frames_ensure_running st)) as Hcur.
  unfold generate_response, try_except, bind.
  destruct (ensure_running st) as [[[|]|e] st1] eqn:Hrun; cbn [fst snd] in *.
  - cbn [negb get_state]. unfold do_call.
    replace (model_or_current model st1) with (model_or_current model st)
      by (unfold model_or_current; now rewrite Hcur).
    set (req := make_request config (model_or_current model st)
                  (_prepare_prompt message history) false).
    exists (quiet_calls ++ [CallGenerate req])%list. split.
    + assert (Hcalls : forall X (r : outcome X * State W) w2,
                snd r = with_world w2 (CallGenerate req) st1 ->
                calls (snd r)
                = (calls st ++ quiet_calls ++ [CallGenerate req])%list).
      { intros X r w2 ->. cbn. now rewrite Hq, app_assoc. }
      destruct (api_generate req (world st1)) as [[[code text]|e] w2].
      * destruct (code =? 200); [|now apply (Hcalls _ _ w2)].
        unfold lift. destruct (response_json text) as [[| | | | |d]|e];
          now apply (Hcalls _ _ w2).
      * now apply (Hcalls _ _ w2).
    + intros r [Hin|[[= <-]|[]]]%in_app_or; [now destruct (Hnone r)|].
      reflexivity.
  - exists quiet_calls. cbn. split; [exact Hq|].
    intros r Hin. now destruct (Hnone r).
  - exists quiet_calls. cbn. split; [exact Hq|].
    intros r Hin. now destruct (Hnone r).
Qed.

Lemma switch_model_sets_current (x : string) (st st' : State W) :
  switch_model config x st = (Val true, st') -> current_model st' = x.
Proof.
  intros Hsw.
  destruct (switch_model_stages config x st)
    as (available & st1 & present & st2 & Ha & Hp & _ & reply & st3 & Hg & _).
  destruct present.
  - rewrite (switch_model_probed config x st st1 st2 st3 available reply
               Ha Hp Hg) in Hsw.
    destruct reply as [| b | raw | s | items | members]; try discriminate.
    destruct (str_nonempty s); [|discriminate].
    now injection Hsw as <-.
  - rewrite (switch_model_not_present config x st st1 st2 available Ha Hp)
      in Hsw.
    discriminate.
Qed.

(** X5.  After a switch to [x] that returned true the current model is
    [x], and every request that [generate_response] then sends without a
    model, that is with [None] or with the empty string, names [x].  A
    model argument that is a non-empty string is the model of the request
    instead, whatever the switch set. *)
Theorem switched_model_is_default (x message : string)
    (history : option (list msg)) (st st' : State W) :
  switch_model config x st = (Val true, st') ->
  current_model st' = x
  /\ (forall model,
       model = None \/ model = Some "" ->
       exists new,
         calls (snd (generate_response config message model history st'))
         = (calls st' ++ new)%list
         /\ forall r, In (CallGenerate r) new -> req_model r = x)
  /\ (forall m,
       str_nonempty m = true ->
       exists new,
         calls (snd (generate_response config message (Some m) history st'))
         = (calls st' ++ new)%list
         /\ forall r, In (CallGenerate r) new -> req_model r = m).
Proof.
  intros Hsw.
  pose proof (switch_model_sets_current x st st' Hsw) as Hcur.
  split; [exact Hcur|]. split.
  - intros model Hmodel.
    destruct (generate_response_requests message model history st')
      as (new & Hnew & Hreq).
    exists new. split; [exact Hnew|].
    intros r Hin. rewrite (Hreq r Hin). cbn [req_model make_request].
    destruct Hmodel as [-> | ->]; exact Hcur.
  - intros m Hm.
    destruct (generate_response_requests message (Some m) history st')
      as (new & Hnew & Hreq).
    exists new. split; [exact Hnew|].
    intros r Hin. rewrite (Hreq r Hin).
    cbn [req_model make_request model_or_current]. now rewrite Hm.
Qed.


Lemma stream_lines_chunks (good : list string) (vs : list json)
    (rest : list stream_item) :
  Forall2 chunk_line good vs ->
  stream_lines (map Line good ++ rest)
  = ((vs ++ fst (stream_lines rest))%list, snd (stream_lines rest)).
Proof.
  induction 1 as [|line v good vs (Hne & d & Hd & Hr & Hdone) _ IH].
  - cbn [map app]. now destruct (stream_lines rest).
  - cbn [map app].
    rewrite (stream_lines_object line d _ Hne Hd). cbv zeta.
    rewrite Hr, Hdone, IH. reflexivity.
Qed.

(** X7.  A streamed generation that goes wrong midway keeps what it has
    yielded: after lines that each carried a chunk, a transport exception,
    or a line that decodes to a JSON value other than an object, ends the
    stream with one more chunk, a text that starts with [Error:].  (Only a
    line that does not decode at all is skipped.) *)
Theorem stream_fault_keeps_chunks (message : string) (model : option string)
    (history : option (list msg)) (st st1 : State W)
    (good : list string) (vs : list json) (lines : list stream_item) (w2 : W) :
  ensure_running st = (Val true, st1) ->
  api_generate_stream
    (make_request config (model_or_current model st1)
                  (_prepare_prompt message history) true)
    (world st1)
  = (Val (200, lines), w2) ->
  Forall2 chunk_line good vs ->
  (forall e rest,
      lines = (map Line good ++ Broken e :: rest)%list ->
      fst (generate_streaming_response config message model history st)
      = Val (vs ++ [JStr ("Error: " ++ str_exn e)])%list)
  /\ (forall line v rest,
         lines = (map Line good ++ Line line :: rest)%list ->
         str_nonempty line = true ->
         json_loads line = Some v ->
         (forall d, v <> JObj d) ->
         exists e,
           fst (generate_streaming_response config message model history st)
           = Val (vs ++ [JStr ("Error: " ++ str_exn e)])%list).
Proof.
  intros He Hg Hgood.
  rewrite (generate_streaming_answered config message model history st st1
             lines w2 He Hg).
  split.
  - intros e rest ->. rewrite (stream_lines_chunks good vs _ Hgood).
    cbn [stream_lines fst snd]. now rewrite app_nil_r.
  - intros line v rest -> Hne Hd Hv.
    rewrite (stream_lines_chunks good vs _ Hgood).
    cbn [stream_lines]. rewrite Hne, Hd.
    destruct v as [| b | raw | s | items | d];
      try (cbn [contains_response fst snd]; eexists;
           now rewrite app_nil_r).
    + cbn [contains_response subscript_response get_done].
      destruct (str_in "response" s); cbn [fst snd]; eexists;
        now rewrite app_nil_r.
    + cbn [contains_response subscript_response get_done].
      destruct (str_in_list "response" items); cbn [fst snd]; eexists;
        now rewrite app_nil_r.
    + now destruct (Hv d).
Qed.

Lemma first_available_in (l : list string) (available : list json) (m : string) :
  first_available l available = Some m -> In m l.
Proof.
  induction l as [|p l IH]; [discriminate|]. cbn [first_available].
  destruct (str_in_list p available).
  - intros [= <-]. now left.
  - intros Hm. right. now apply IH.
Qed.

(** X8.  [optimize_model_selection] never raises and never changes the
    current model or the sessions; what it returns is an entry of the
    preference list of the task or the current model. *)
Theorem optimize_model_selection_range (task message : string) (st : State W) :
  exists m st',
    optimize_model_selection config task message st = (Val m, st')
    /\ (In m (get_model_for_task config task) \/ m = current_model st)
    /\ current_model st' = current_model st
    /\ sessions st' = sessions st.
Proof.
  destruct (never_raises_get_available_models st) as [available Ha].
  apply run_eq in Ha.
  destruct (frames_get_available_models st) as (Hc1 & Hs1 & _).
  set (st1 := snd (get_available_models st)) in *.
  unfold optimize_model_selection, try_except, bind. rewrite Ha.
  destruct (first_available _ available) as [m|] eqn:Ef.
  - exists m, st1. repeat split; try assumption.
    left. now apply (first_available_in _ available).
  - destruct (get_model_for_task config task) as [|first rest] eqn:Eprefs.
    + cbn [ret get_state]. exists (current_model st1), st1.
      repeat split; try assumption. now right.
    + destruct (never_raises_pull_model first st1) as [pulled Hp].
      apply run_eq in Hp.
      destruct (frames_pull_model first st1) as (Hc2 & Hs2 & _).
      rewrite Hp. destruct pulled; cbn [ret get_state].
      * eexists _, _. split; [reflexivity|].
        repeat split; [left; now left | congruence | congruence].
      * eexists _, _. split; [reflexivity|].
        repeat split; [right; congruence | congruence | congruence].
Qed.

End Generation.

Section GenerationScenario.
#[local] Existing Instance Sim.sim_python.
#[local] Existing Instance Sim.sim_world.

Lemma switched_model_is_default_witness :
  current_model (snd (switch_model Sim.config "codellama" (init_state Sim.config Sim.up)))
  = "codellama"
  /\ (forall model,
       model = None \/ model = Some "" ->
       exists new,
         calls (snd (generate_response Sim.config "hi" model None
                       (snd (switch_model Sim.config "codellama"
                               (init_state Sim.config Sim.up)))))
         = (calls (snd (switch_model Sim.config "codellama"
                          (init_state Sim.config Sim.up))) ++ new)%list
         /\ forall r, In (CallGenerate r) new -> req_model r = "codellama")
  /\ (forall m,
       str_nonempty m = true ->
       exists new,
         calls (snd (generate_response Sim.config "hi" (Some m) None
                       (snd (switch_model Sim.config "codellama"
                               (init_state Sim.config Sim.up)))))
         = (calls (snd (switch_model Sim.config "codellama"
                          (init_state Sim.config Sim.up))) ++ new)%list
         /\ forall r, In (CallGenerate r) new -> req_model r = m).
Proof.
  apply (switched_model_is_default Sim.config "codellama" "hi" None
           (init_state Sim.config Sim.up)
           (snd (switch_model Sim.config "codellama"
                   (init_state Sim.config Sim.up)))).
  vm_compute. reflexivity.
Defined.


Lemma stream_fault_keeps_chunks_witness :
  fst (generate_streaming_response Sim.config "hi" None None broken_stream)
  = Val [JStr "a"; JStr "Error: connection reset"].
Proof.
  edestruct (stream_fault_keeps_chunks Sim.config "hi" None None broken_stream)
    with (good := [generate_event "a" false]) (vs := [JStr "a"])
    as [Hbroken _].
  - vm_compute. reflexivity.
  - vm_compute. reflexivity.
  - constructor; [|constructor]. split; [reflexivity|].
    eexists. split; [vm_compute; reflexivity|]. split; reflexivity.
  - rewrite (Hbroken (TransportError "connection reset") []); reflexivity.
Defined.

End GenerationScenario.

(* ===================================================================== *)
(** ** Further properties: model information and deletion *)
(* ===================================================================== *)

Section AdminFacts.
Context `{Python} {W : Type} `{World W} `{RuntimeAdmin W}.

Lemma get_model_info_run (name : string) (st : State W) :
  let w1 := snd (api_version (world st)) in
  get_model_info name st
  = if probe_ok (world st) then
      (Val match fst (api_show name w1) with
           | Val (status_code, text) =>
               if status_code =? 200 then json_loads text else None
           | Exc _ => None
           end,
       set_world (snd (api_show name w1)) (with_world w1 CallVersion st))
    else (Val None, with_world w1 CallVersion st).
Proof.
  cbv zeta. unfold get_model_info, try_except, bind.
  rewrite check_ollama_status_probe.
  destruct (probe_ok (world st)); [|reflexivity].
  cbn [negb]. unfold unrecorded. cbn [world with_world].
  destruct (api_show name _) as [[[code text]|e] w2]; [|reflexivity].
  cbn [fst snd]. destruct (code =? 200); [|reflexivity].
  unfold lift, response_json. now destruct (json_loads text).
Qed.

Lemma spawn_attempts_set_world (w : W) (st : State W) :
  spawn_attempts (set_world w st) = spawn_attempts st.
Proof. reflexivity. Qed.

(** X9.  [delete_model] never deletes anything and always returns
    false.  It never raises and never tries to start the runtime: it makes
    one version probe and no spawn.  When the probe fails it gives up; when
    the probe answers 200 the call of the client's [delete] with a [json]
    argument raises [TypeError], which the [except] turns into false.  In
    both cases no delete request is sent: the world is the one the probe
    left, and the current model and the sessions are untouched. *)
Theorem delete_model_always_false (name : string) (st : State W) :
  exists st',
    delete_model name st = (Val false, st')
    /\ world st' = snd (api_version (world st))
    /\ calls st' = (calls st ++ [CallVersion])%list
    /\ spawn_attempts st' = spawn_attempts st
    /\ current_model st' = current_model st
    /\ sessions st' = sessions st.
Proof.
  exists (with_world (snd (api_version (world st))) CallVersion st).
  split.
  - unfold delete_model, try_except, bind.
    rewrite check_ollama_status_probe.
    now destruct (probe_ok (world st)).
  - split; [reflexivity|]. split; [reflexivity|].
    split; [rewrite spawn_attempts_with_world; cbn; lia|].
    split; reflexivity.
Qed.

(** X10.  [get_model_info] never raises and never tries to start the
    runtime.  It gives nothing when the probe fails (no request is sent
    then), when the request raises or is answered with a status other than
    200, or when the body is not JSON; otherwise it gives the decoded body,
    unchanged. *)
Theorem get_model_info_outcome (name : string) (st : State W) :
  let w1 := snd (api_version (world st)) in
  exists r st',
    get_model_info name st = (Val r, st')
    /\ calls st' = (calls st ++ [CallVersion])%list
    /\ current_model st' = current_model st
    /\ sessions st' = sessions st
    /\ (probe_ok (world st) = false -> r = None /\ world st' = w1)
    /\ (forall data,
           r = Some data <->
           probe_ok (world st) = true
           /\ exists text,
               fst (api_show name w1) = Val (200, text)
               /\ json_loads text = Some data).
Proof.
  cbv zeta. rewrite get_model_info_run. cbv zeta.
  destruct (probe_ok (world st)).
  - eexists _, _. split; [reflexivity|].
    split; [reflexivity|]. split; [reflexivity|]. split; [reflexivity|].
    split; [discriminate|]. intros data.
    destruct (fst (api_show name _)) as [[code text]|e].
    + destruct (Z.eqb_spec code 200) as [->|Hne].
      * split.
        -- intros Hd. split; [reflexivity|]. now exists text.
        -- intros (_ & text' & [= <-] & Hd). exact Hd.
      * split; [discriminate|].
        intros (_ & text' & [= Hc _] & _). contradiction.
    + split; [discriminate|]. intros (_ & text' & Hx & _). discriminate.
  - eexists _, _. split; [reflexivity|].
    split; [reflexivity|]. split; [reflexivity|]. split; [reflexivity|].
    split; [now intros _|]. intros data.
    split; [discriminate|]. now intros [? _].
Qed.

End AdminFacts.

(* ===================================================================== *)
(** ** Further properties: the endpoints of [main.py] *)
(* ===================================================================== *)

Section EndpointFacts.
Context `{Python} {W : Type} `{World W}.
Variable config : Config.
Variable str_http_exception : Z -> string -> string.

(** X11.  [POST /models/switch] never answers with status 400: the
    [HTTPException(400)] it raises when the switch fails is caught by its
    own [except Exception] and raised again with status 500, so every
    failure of the endpoint is a 500.  For a provider other than [ollama]
    it reports success, naming the requested model as current, without
    calling the model manager or changing anything. *)
Theorem post_models_switch_status (model_request : ModelSwitch) (st : State W) :
  (forall r st',
      post_models_switch config str_http_exception model_request st
      = (Raised r, st') ->
      exists detail, r = RaisedHTTP 500 detail)
  /\ (provider model_request <> "ollama" ->
      post_models_switch config str_http_exception model_request st
      = (Replied {| switch_success := true;
                    switch_current_model := model_name model_request;
                    switch_provider := provider model_request |},
         st))
  /\ (provider model_request = "ollama" ->
      forall success st',
        switch_model config (model_name model_request) st = (Val success, st') ->
        post_models_switch config str_http_exception model_request st
        = (if success then
             Replied {| switch_success := true;
                        switch_current_model := model_name model_request;
                        switch_provider := provider model_request |}
           else
             Raised (RaisedHTTP 500
                       (str_http_exception 400 "Failed to switch model")),
           st')).
Proof.
  unfold post_models_switch, e_try, e_bind, of_M.
  destruct (String.eqb_spec (provider model_request) "ollama") as [Hp|Hp].
  - destruct (never_raises_switch_model config (model_name model_request) st)
      as [success Hs].
    apply run_eq in Hs. rewrite Hs.
    split; [|split].
    + destruct success; cbn; intros r st' [= <- _]; eauto.
    + intros Hne. contradiction.
    + intros _ success' st' [= <- <-]. now destruct success.
  - split; [|split].
    + cbn. intros r st' [=].
    + reflexivity.
    + intros Heq. contradiction.
Qed.

(** X12.  [POST /models/pull/{model_name}] likewise never answers with
    status 400: a pull that returns false ends as a 500 whose detail is the
    text of the [HTTPException(400)]; a pull that returns true gives the
    success message with the model's name. *)
Theorem post_models_pull_status (name : string) (st : State W) :
  (forall r st',
      post_models_pull str_http_exception name st = (Raised r, st') ->
      exists detail, r = RaisedHTTP 500 detail)
  /\ (forall success st',
         pull_model name st = (Val success, st') ->
         post_models_pull str_http_exception name st
         = (if success then
              Replied {| pull_success := true;
                         pull_message := "Model " ++ name ++ " pulled successfully" |}
            else
              Raised (RaisedHTTP 500
                        (str_http_exception 400 "Failed to pull model")),
            st')).
Proof.
  unfold post_models_pull, e_try, e_bind, of_M.
  destruct (never_raises_pull_model name st) as [success Hs].
  apply run_eq in Hs. rewrite Hs. split.
  - destruct success; cbn; intros r st' [= <- _]; eauto.
  - intros success' st' [= <- <-]. now destruct success.
Qed.

Lemma is_api_key_configured_supported (p : string) :
  is_api_key_configured config p = true ->
  (String.eqb p "claude" || String.eqb p "openai" || String.eqb p "deepseek")%bool
  = true
  /\ str_nonempty (api_key_of config p) = true.
Proof.
  unfold is_api_key_configured, api_key_of.
  destruct (String.eqb p "claude"); [now intros ->|].
  destruct (String.eqb p "openai"); [now intros ->|].
  destruct (String.eqb p "deepseek"); [now intros ->|discriminate].
Qed.

(** X13.  [process_online_model] never raises.  It reaches the remote
    provider exactly when [is_api_key_configured] holds for the provider:
    then it makes one remote call, with the message and the history it was
    given, and returns the provider's answer, or a text naming the provider
    and the exception if the call raises.  Otherwise (unsupported provider,
    or key not set) it returns a text and leaves the state as it was. *)
Theorem process_online_model_guard (message_text p : string)
    (history : list msg) (st : State W) :
  (is_api_key_configured config p = true ->
   process_online_model config message_text p history st
   = (match fst (remote_call p message_text history (world st)) with
      | Val v => Val v
      | Exc e => Val (JStr ("Error processing with " ++ p ++ ": " ++ str_exn e))
      end,
      with_world (snd (remote_call p message_text history (world st)))
                 (CallRemote p) st))
  /\ (is_api_key_configured config p = false ->
      exists text,
        process_online_model config message_text p history st
        = (Val (JStr text), st)).
Proof.
  split.
  - intros Hk. destruct (is_api_key_configured_supported p Hk) as [Hsup Hkey].
    unfold process_online_model, try_except. rewrite Hsup.
    unfold call_provider_api. rewrite Hkey. unfold do_call.
    now destruct (remote_call p message_text history (world st)) as [[v|e] w].
  - intros Hk. unfold process_online_model, try_except, call_provider_api.
    unfold is_api_key_configured, api_key_of in *.
    destruct (String.eqb p "claude"); cbn [orb].
    { rewrite Hk. eexists. reflexivity. }
    destruct (String.eqb p "openai"); cbn [orb].
    { rewrite Hk. eexists. reflexivity. }
    destruct (String.eqb p "deepseek"); cbn [orb].
    { rewrite Hk. eexists. reflexivity. }
    eexists. reflexivity.
Qed.

Lemma frames_process_online_model (message_text p : string) (history : list msg) :
  frames (process_online_model config message_text p history).
Proof.
  unfold process_online_model. apply frames_try_except.
  - destruct (_ || _)%bool; [|apply frames_raise].
    unfold call_provider_api. destruct (str_nonempty _).
    + apply frames_do_call.
    + apply frames_ret.
  - intros e. apply frames_ret.
Qed.

Lemma never_raises_process_online_model (message_text p : string)
    (history : list msg) :
  never_raises (process_online_model config message_text p history).
Proof. apply never_raises_try_except. intros e. apply never_raises_ret. Qed.

Lemma frames_respond (chat_request : ChatMessage) (sid : string) (st0 : State W) :
  frames (respond config chat_request sid st0).
Proof.
  unfold respond. destruct (online_provider chat_request) as [p|].
  - destruct (_ && _)%bool.
    + apply frames_process_online_model.
    + apply frames_generate_response.
  - apply frames_generate_response.
Qed.

Lemma never_raises_respond (chat_request : ChatMessage) (sid : string)
    (st0 : State W) :
  never_raises (respond config chat_request sid st0).
Proof.
  unfold respond. destruct (online_provider chat_request) as [p|].
  - destruct (_ && _)%bool.
    + apply never_raises_process_online_model.
    + apply never_raises_generate_response.
  - apply never_raises_generate_response.
Qed.

Lemma chat_endpoint_run (chat_request : ChatMessage) (st st_a st_b : State W)
    (sid : string) (response : json) :
  open_turn chat_request st = (Val sid, st_a) ->
  respond config chat_request sid st_a st_a = (Val response, st_b) ->
  exists t_assistant t_reply st',
    chat_endpoint config chat_request st
    = (Val (Returned
              {| reply_response := response;
                 reply_session_id := sid;
                 reply_model_used :=
                   if use_online chat_request then online_provider chat_request
                   else Some (model chat_request);
                 reply_timestamp := t_reply |}),
       st')
    /\ sessions st'
       = <[sid := (session_history sid st_b
                   ++ [make_message (JStr "assistant") response t_assistant])%list]>
           (sessions st_b)
    /\ calls st' = calls st_b
    /\ current_model st' = current_model st_b.
Proof.
  intros Hopen Hbranch. unfold respond in Hbranch.
  unfold chat_endpoint, try_except. unfold open_turn in Hopen.
  unfold bind in *.
  destruct (match session_id chat_request with
            | Some s => if str_nonempty s then ret s else new_session_id
            | None => new_session_id
            end st) as [[sid0|e0] s0]; [|discriminate].
  unfold append_message in *. unfold modify, now, get_state, ret in *.
  cbv beta iota in *.
  destruct (datetime_now_isoformat _) as [t_user w1] in *.
  cbv beta iota in *.
  injection Hopen as Hsid Hst. subst sid0.
  cbn [sessions set_world set_sessions world current_model calls] in *.
  rewrite Hst, Hbranch.
  destruct (datetime_now_isoformat (world st_b)) as [t_assistant w2].
  cbv beta iota. cbn [world set_world set_sessions].
  destruct (datetime_now_isoformat w2) as [t_reply w3].
  exists t_assistant, t_reply. eexists. split; [reflexivity|].
  cbn. repeat split.
Qed.

(** Every turn, on either path. *)
Lemma chat_turn_general (chat_request : ChatMessage) (st : State W) :
  exists reply st' t_user t_assistant,
    chat_endpoint config chat_request st = (Val (Returned reply), st')
    /\ session_history (reply_session_id reply) st'
       = (session_history (reply_session_id reply) st
          ++ [make_message (JStr "user") (JStr (message chat_request)) t_user;
              make_message (JStr "assistant") (reply_response reply)
                           t_assistant])%list
    /\ (forall other,
           other <> reply_session_id reply ->
           sessions st' !! other = sessions st !! other)
    /\ current_model st' = current_model st
    /\ (forall s, session_id chat_request = Some s ->
                  str_nonempty s = true -> reply_session_id reply = s).
Proof.
  destruct (open_turn_run chat_request st)
    as (sid & t_user & st_a & Hopen & Hs_a & _ & Hm_a & Hsid).
  destruct (never_raises_respond chat_request sid st_a st_a) as [response Hr].
  apply run_eq in Hr.
  destruct (frames_respond chat_request sid st_a st_a) as (Hm_b & Hs_b & _).
  set (st_b := snd (respond config chat_request sid st_a st_a)) in *.
  destruct (chat_endpoint_run chat_request st st_a st_b sid response Hopen Hr)
    as (t_assistant & t_reply & st' & Hrun & Hs' & _ & Hm').
  eexists _, st', t_user, t_assistant. split; [exact Hrun|].
  cbn [reply_response reply_session_id]. repeat split.
  - unfold session_history at 1. rewrite Hs', lookup_insert_eq.
    unfold session_history at 1. rewrite Hs_b, Hs_a, lookup_insert_eq.
    now rewrite <- app_assoc.
  - intros other Hne. rewrite Hs', lookup_insert_ne by congruence.
    rewrite Hs_b, Hs_a. apply lookup_insert_ne. congruence.
  - congruence.
  - exact Hsid.
Qed.

(** X14.  Every turn of the chat endpoint, on the local path or through a
    remote provider, returns a reply (its [except] branch never runs) and
    appends exactly two messages to the session of the turn: the user turn,
    then an assistant turn whose content is the response it returns.
    Earlier messages keep their order, every other session is unchanged,
    and so is the current model.  A non-empty session id in the request is
    the session used. *)
Theorem chat_turn_appends_two (chat_request : ChatMessage) (st : State W) :
  exists reply st' t_user t_assistant,
    chat_endpoint config chat_request st = (Val (Returned reply), st')
    /\ session_history (reply_session_id reply) st'
       = (session_history (reply_session_id reply) st
          ++ [make_message (JStr "user") (JStr (message chat_request)) t_user;
              make_message (JStr "assistant") (reply_response reply)
                           t_assistant])%list
    /\ (forall other,
           other <> reply_session_id reply ->
           sessions st' !! other = sessions st !! other)
    /\ current_model st' = current_model st
    /\ (forall s, session_id chat_request = Some s ->
                  str_nonempty s = true -> reply_session_id reply = s).
Proof. apply chat_turn_general. Qed.

(** X15.  Clearing a session and then sending a turn on the same id starts
    the conversation afresh: right after the clearing the history read back
    is empty, and after the turn it holds exactly the two messages of that
    turn, whatever the session held before. *)
Theorem clear_session_starts_afresh (chat_request : ChatMessage) (sid : string)
    (st : State W) :
  session_id chat_request = Some sid ->
  str_nonempty sid = true ->
  let st1 := snd (clear_session sid st) in
  get_session_history sid st1 = (Val (sid, []), st1)
  /\ exists reply st' t_user t_assistant,
      chat_endpoint config chat_request st1 = (Val (Returned reply), st')
      /\ get_session_history sid st'
         = (Val (sid,
                 [make_message (JStr "user") (JStr (message chat_request)) t_user;
                  make_message (JStr "assistant") (reply_response reply)
                               t_assistant]),
            st').
Proof.
  intros Hsid Hne st1.
  assert (Hempty : session_history sid st1 = []).
  { unfold session_history. subst st1.
    now rewrite clear_session_sessions, lookup_delete_eq. }
  split.
  - unfold get_session_history, bind, get_state, ret. now rewrite Hempty.
  - destruct (chat_turn_general chat_request st1)
      as (reply & st' & t_user & t_assistant & Hrun & Hhist & _ & _ & Hid).
    rewrite (Hid sid Hsid Hne) in Hhist.
    exists reply, st', t_user, t_assistant. split; [exact Hrun|].
    unfold get_session_history, bind, get_state, ret.
    now rewrite Hhist, Hempty.
Qed.

End EndpointFacts.

Section EndpointScenario.
#[local] Existing Instance Sim.sim_python.
#[local] Existing Instance Sim.sim_world.

Lemma post_models_switch_status_witness :
  post_models_switch Sim.config (fun _ detail => detail)
    {| model_name := "mistral:7b"; provider := "ollama" |} pull_refused
  = (Raised (RaisedHTTP 500 "Failed to switch model"),
     snd (switch_model Sim.config "mistral:7b" pull_refused)).
Proof.
  destruct (post_models_switch_status Sim.config (fun _ detail => detail)
              {| model_name := "mistral:7b"; provider := "ollama" |}
              pull_refused) as (_ & _ & Hollama).
  apply (Hollama eq_refl false). vm_compute. reflexivity.
Defined.

Lemma post_models_pull_status_witness :
  post_models_pull (fun _ detail => detail) "mistral:7b" pull_refused
  = (Raised (RaisedHTTP 500 "Failed to pull model"),
     snd (pull_model "mistral:7b" pull_refused)).
Proof.
  destruct (post_models_pull_status (fun _ detail => detail) "mistral:7b"
              pull_refused) as (_ & Hpull).
  apply (Hpull false). vm_compute. reflexivity.
Defined.

Lemma process_online_model_guard_witness :
  exists text,
    process_online_model Sim.config "hello" "claude" []
      (init_state Sim.config Sim.up)
    = (Val (JStr text), init_state Sim.config Sim.up).
Proof.
  apply (process_online_model_guard Sim.config "hello" "claude" []
           (init_state Sim.config Sim.up)).
  reflexivity.
Defined.

Lemma chat_turn_appends_two_witness :
  exists reply st' t_user t_assistant,
    chat_endpoint Sim.config hello_turn two_sessions = (Val (Returned reply), st')
    /\ session_history (reply_session_id reply) st'
       = (session_history (reply_session_id reply) two_sessions
          ++ [make_message (JStr "user") (JStr (message hello_turn)) t_user;
              make_message (JStr "assistant") (reply_response reply)
                           t_assistant])%list
    /\ (forall other,
           other <> reply_session_id reply ->
           sessions st' !! other = sessions two_sessions !! other)
    /\ current_model st' = current_model two_sessions
    /\ (forall s, session_id hello_turn = Some s ->
                  str_nonempty s = true -> reply_session_id reply = s).
Proof. exact (chat_turn_appends_two Sim.config hello_turn two_sessions). Defined.

Lemma clear_session_starts_afresh_witness :
  get_session_history "s1" (snd (clear_session "s1" two_sessions))
  = (Val ("s1", []), snd (clear_session "s1" two_sessions)).
Proof.
  apply (clear_session_starts_afresh Sim.config hello_turn "s1" two_sessions);
    reflexivity.
Defined.

End EndpointScenario.

Section AdminScenarioFacts.
#[local] Existing Instance Sim.sim_python.
#[local] Existing Instance Sim.sim_world.
#[local] Existing Instance sim_admin.

Lemma delete_model_always_false_witness :
  fst (delete_model "llama3.2" (init_state Sim.config Sim.up)) = Val false
  /\ fst (delete_model "llama3.2" (init_state Sim.config Sim.down)) = Val false.
Proof.
  split.
  - destruct (delete_model_always_false "llama3.2"
                (init_state Sim.config Sim.up)) as (st' & -> & _).
    reflexivity.
  - destruct (delete_model_always_false "llama3.2"
                (init_state Sim.config Sim.down)) as (st' & -> & _).
    reflexivity.
Defined.

Lemma get_model_info_outcome_witness :
  fst (get_model_info "llama3.2" (init_state Sim.config Sim.up))
  = Val (Some (JObj [("details", JObj [("family", JStr "llama")])])).
Proof.
  destruct (get_model_info_outcome "llama3.2" (init_state Sim.config Sim.up))
    as (r & st' & Hrun & _ & _ & _ & _ & Hsome).
  rewrite Hrun. cbn [fst]. f_equal. apply Hsome.
  split; [reflexivity|]. eexists. split; vm_compute; reflexivity.
Defined.

End AdminScenarioFacts.

(* ===================================================================== *)
(** ** Further properties: [config.py] *)
(* ===================================================================== *)

Section DictFacts.

Lemma dict_lookup_app (k : string) (d1 d2 : list (string * json)) :
  dict_lookup k (d1 ++ d2)
  = match dict_lookup k d2 with
    | Some v => Some v
    | None => dict_lookup k d1
    end.
Proof.
  induction d1 as [|[k' v'] d1 IH]; cbn [app dict_lookup].
  - now destruct (dict_lookup k d2).
  - rewrite IH. destruct (dict_lookup k d2); [reflexivity|].
    reflexivity.
Qed.

Lemma dict_lookup_replace_eq (k : string) (v : json) (d : list (string * json)) :
  dict_lookup k (dict_replace k v d)
  = match dict_lookup k d with Some _ => Some v | None => None end.
Proof.
  induction d as [|[k' v'] d IH]; [reflexivity|].
  cbn [dict_replace dict_lookup]. rewrite IH.
  destruct (dict_lookup k d); [reflexivity|].
  now destruct (String.eqb k k').
Qed.

Lemma dict_lookup_replace_ne (k k0 : string) (v : json)
    (d : list (string * json)) :
  k0 <> k ->
  dict_lookup k0 (dict_replace k v d) = dict_lookup k0 d.
Proof.
  intros Hne. induction d as [|[k' v'] d IH]; [reflexivity|].
  cbn [dict_replace dict_lookup]. rewrite IH.
  destruct (dict_lookup k0 d); [reflexivity|].
  destruct (String.eqb_spec k0 k') as [->|Hk]; [|reflexivity].
  destruct (String.eqb_spec k k') as [->|Hk']; [contradiction | reflexivity].
Qed.

Lemma dict_lookup_set_eq (k : string) (v : json) (d : list (string * json)) :
  dict_lookup k (dict_set k v d) = Some v.
Proof.
  unfold dict_set. destruct (dict_lookup k d) eqn:E.
  - now rewrite dict_lookup_replace_eq, E.
  - rewrite dict_lookup_app. cbn. now rewrite String.eqb_refl.
Qed.

Lemma dict_lookup_set_ne (k k0 : string) (v : json) (d : list (string * json)) :
  k0 <> k ->
  dict_lookup k0 (dict_set k v d) = dict_lookup k0 d.
Proof.
  intros Hne. unfold dict_set. destruct (dict_lookup k d).
  - now apply dict_lookup_replace_ne.
  - rewrite dict_lookup_app. cbn.
    destruct (String.eqb_spec k0 k) as [->|_]; [contradiction | reflexivity].
Qed.

End DictFacts.

Section SettingsFacts.
Context {F : Type} `{SettingsFile F}.

Lemma assign_setting_ok (category key : string) (value : json)
    (d c : list (string * json)) :
  dict_get category d (JObj []) = JObj c ->
  (dict_lookup category d = None -> c = []) ->
  exists settings' c',
    ConfigPy.assign_setting category key value (JObj d) = Val settings'
    /\ ConfigPy.get_settings category settings' = Val (JObj c')
    /\ dict_lookup key c' = Some value
    /\ (forall k, k <> key -> dict_lookup k c' = dict_lookup k c)
    /\ (forall other,
           other <> category ->
           ConfigPy.get_settings other settings'
           = ConfigPy.get_settings other (JObj d)).
Proof.
  intros Hc Habsent. unfold dict_get in Hc.
  unfold ConfigPy.assign_setting, ConfigPy.get_settings, py_get, dict_get.
  destruct (dict_lookup category d) as [v|] eqn:Ecat.
  - subst v. eexists _, (dict_set key value c). split; [reflexivity|].
    cbv beta iota. rewrite dict_lookup_replace_eq, Ecat.
    split; [reflexivity|]. split; [apply dict_lookup_set_eq|].
    split; [intros k Hk; now apply dict_lookup_set_ne|].
    intros other Ho. now rewrite dict_lookup_replace_ne.
  - rewrite (Habsent eq_refl). eexists _, [(key, value)].
    split; [reflexivity|].
    assert (Hget : forall other,
               dict_lookup other (d ++ [(category, JObj [(key, value)])])
               = if String.eqb other category then Some (JObj [(key, value)])
                 else dict_lookup other d).
    { intros other. rewrite dict_lookup_app. cbn.
      now destruct (String.eqb other category). }
    cbv beta iota. rewrite Hget, String.eqb_refl.
    split; [reflexivity|].
    split; [cbn; now rewrite String.eqb_refl|].
    split.
    + intros k Hk. cbn.
      destruct (String.eqb_spec k key); [contradiction | reflexivity].
    + intros other Ho. rewrite Hget.
      destruct (String.eqb_spec other category); [contradiction | reflexivity].
Qed.

(** X16.  [update_setting] on a category that is absent, or that holds an
    object: afterwards the settings read back give the new value under the
    key, every other key of the category and every other category as
    before; the file is handed exactly these settings; and the result is
    true exactly when the writing did not raise.  When the writing raises
    the result is false although the settings in memory have changed.  When
    the category holds something that is not an object, nothing is changed,
    nothing is written and the result is false. *)
Theorem update_setting_read_back (category key : string) (value : json)
    (d : list (string * json)) (f : F) :
  (forall c,
      dict_get category d (JObj []) = JObj c ->
      (dict_lookup category d = None -> c = []) ->
      exists c',
        let '(ok, settings', f') :=
          ConfigPy.update_setting category key value (JObj d) f in
        ConfigPy.get_settings category settings' = Val (JObj c')
        /\ dict_lookup key c' = Some value
        /\ (forall k, k <> key -> dict_lookup k c' = dict_lookup k c)
        /\ (forall other,
               other <> category ->
               ConfigPy.get_settings other settings'
               = ConfigPy.get_settings other (JObj d))
        /\ f' = snd (dump_settings settings' f)
        /\ (ok = true <-> exists u, fst (dump_settings settings' f) = Val u))
  /\ (forall v,
         dict_lookup category d = Some v ->
         (forall c, v <> JObj c) ->
         ConfigPy.update_setting category key value (JObj d) f
         = (false, JObj d, f)).
Proof.
  split.
  - intros c Hc Habsent.
    destruct (assign_setting_ok category key value d c Hc Habsent)
      as (settings' & c' & Hassign & Hget & Hkey & Hkeys & Hothers).
    exists c'. unfold ConfigPy.update_setting. rewrite Hassign.
    destruct (dump_settings settings' f) as [[u|e] f'] eqn:Ed; rewrite Ed;
      cbn [fst snd].
    + repeat (split; [assumption || reflexivity|]).
      split; [eauto | reflexivity].
    + repeat (split; [assumption || reflexivity|]).
      split; [discriminate | now intros [u [=]]].
  - intros v Hv Hnot.
    unfold ConfigPy.update_setting, ConfigPy.assign_setting. rewrite Hv.
    destruct v as [| b | raw | s | items | c]; try reflexivity.
    now destruct (Hnot c).
Qed.

End SettingsFacts.

Section ModelInfoFacts.

Lemma find_named_sound (name : string) (models : list json) (m : json) :
  ConfigPy.find_named name models = Val (Some m) ->
  In m models /\ ConfigPy.subscript_name m = Val (JStr name).
Proof.
  induction models as [|x models IH]; [discriminate|].
  cbn [ConfigPy.find_named].
  destruct (ConfigPy.subscript_name x) as [v|e] eqn:Ex; [|discriminate].
  destruct (eq_str v name) eqn:Ev.
  - intros [= <-]. split; [now left|]. rewrite Ex.
    destruct v as [| | |s| |]; try discriminate.
    cbn in Ev. apply String.eqb_eq in Ev. now subst.
  - intros Hm. destruct (IH Hm) as [Hin Hs]. split; [now right | exact Hs].
Qed.

Lemma find_in_sound (name : string) (models : outcome json) (m : json) :
  ConfigPy.find_in name models = Val (Some m) ->
  ConfigPy.subscript_name m = Val (JStr name).
Proof.
  unfold ConfigPy.find_in. destruct models as [v|e]; [|discriminate].
  destruct (ConfigPy.py_iter v) as [l|e]; [|discriminate].
  intros Hf. now apply (find_named_sound name l).
Qed.

Lemma find_online_sound (name : string) (providers : list json) (m : json) :
  ConfigPy.find_online name providers = Val (Some m) ->
  ConfigPy.subscript_name m = Val (JStr name).
Proof.
  induction providers as [|p providers IH]; [discriminate|].
  cbn [ConfigPy.find_online].
  destruct (ConfigPy.find_in name (Val p)) as [[m'|]|e] eqn:Ep.
  - intros [= <-]. now apply (find_in_sound name (Val p)).
  - exact IH.
  - discriminate.
Qed.

Lemma find_named_first (name : string) (before after : list json) (m : json) :
  Forall (fun b => exists v, ConfigPy.subscript_name b = Val v
                             /\ eq_str v name = false) before ->
  ConfigPy.subscript_name m = Val (JStr name) ->
  ConfigPy.find_named name (before ++ m :: after) = Val (Some m).
Proof.
  intros Hb Hm. induction Hb as [|b before (v & Hv & Hne) _ IH];
    cbn [app ConfigPy.find_named].
  - rewrite Hm. cbn. now rewrite String.eqb_refl.
  - now rewrite Hv, Hne.
Qed.

Lemma find_named_none (name : string) (models : list json) :
  ConfigPy.find_named name models = Val None ->
  forall m, In m models -> ConfigPy.subscript_name m <> Val (JStr name).
Proof.
  induction models as [|x models IH]; [now intros _ m []|].
  cbn [ConfigPy.find_named].
  destruct (ConfigPy.subscript_name x) as [v|e] eqn:Ex; [|discriminate].
  destruct (eq_str v name) eqn:Ev; [discriminate|].
  intros Hn m [<-|Hin].
  - rewrite Ex. intros [= ->]. cbn in Ev. now rewrite String.eqb_refl in Ev.
  - now apply IH.
Qed.

(** X17.  [Config.get_model_info]: a model it returns is an object whose
    [name] is the name asked for.  The recommended models come first: when
    that list holds a model of that name, after entries that all have other
    names, this model is the result, whatever the specialized and online
    lists hold.  And when the result is nothing, no recommended model has
    the name. *)
Theorem config_get_model_info_lookup (models_config : json) (name : string) :
  (forall m,
      ConfigPy.get_model_info models_config name = Val (Some m) ->
      exists d, m = JObj d /\ dict_lookup "name" d = Some (JStr name))
  /\ (forall before m after,
         ConfigPy.get_recommended_models models_config
         = Val (JArr (before ++ m :: after)) ->
         Forall (fun b => exists v, ConfigPy.subscript_name b = Val v
                                    /\ eq_str v name = false) before ->
         ConfigPy.subscript_name m = Val (JStr name) ->
         ConfigPy.get_model_info models_config name = Val (Some m))
  /\ (ConfigPy.get_model_info models_config name = Val None ->
      forall l m,
        ConfigPy.get_recommended_models models_config = Val (JArr l) ->
        In m l -> ConfigPy.subscript_name m <> Val (JStr name)).
Proof.
  split; [|split].
  - intros m Hm.
    assert (Hs : ConfigPy.subscript_name m = Val (JStr name)).
    { unfold ConfigPy.get_model_info in Hm.
      destruct (ConfigPy.find_in name (ConfigPy.get_recommended_models _))
        as [[m1|]|e1] eqn:E1; try discriminate.
      { injection Hm as <-. now apply (find_in_sound name _ _ E1). }
      destruct (ConfigPy.find_in name (ConfigPy.get_specialized_models _))
        as [[m2|]|e2] eqn:E2; try discriminate.
      { injection Hm as <-. now apply (find_in_sound name _ _ E2). }
      destruct (ConfigPy.get_online_models models_config)
        as [[| | | | |d]|e3]; try discriminate.
      now apply (find_online_sound name (ConfigPy.dict_values d)). }
    unfold ConfigPy.subscript_name in Hs.
    destruct m as [| | | | |d]; try discriminate.
    exists d. split; [reflexivity|].
    destruct (dict_lookup "name" d); [now injection Hs as -> | discriminate].
  - intros before m after Hrec Hb Hm.
    unfold ConfigPy.get_model_info. rewrite Hrec.
    cbn [ConfigPy.find_in ConfigPy.py_iter].
    now rewrite (find_named_first name before after m Hb Hm).
  - intros Hnone l m Hrec Hin.
    unfold ConfigPy.get_model_info in Hnone. rewrite Hrec in Hnone.
    cbn [ConfigPy.find_in ConfigPy.py_iter] in Hnone.
    destruct (ConfigPy.find_named name l) as [[m1|]|e1] eqn:E1;
      try discriminate.
    now apply (find_named_none name l E1).
Qed.

End ModelInfoFacts.

(* ===================================================================== *)
(** ** Further properties: [ConnectionManager] *)
(* ===================================================================== *)

Section ConnectionFacts.

Lemma list_remove_snoc (x : nat) (l : list nat) :
  ~ In x l -> list_remove x (l ++ [x]) = Some l.
Proof.
  induction l as [|y l IH]; cbn [app list_remove In].
  - intros _. now rewrite Nat.eqb_refl.
  - intros Hn. destruct (Nat.eqb_spec x y) as [->|Hne].
    + destruct Hn. now left.
    + rewrite IH; [reflexivity|]. intros Hin. apply Hn. now right.
Qed.

Lemma list_remove_in (x : nat) (l : list nat) :
  In x l -> exists l', list_remove x l = Some l'.
Proof.
  induction l as [|y l IH]; [now intros []|]. cbn [list_remove].
  intros [->|Hin].
  - rewrite Nat.eqb_refl. eauto.
  - destruct (Nat.eqb x y); [eauto|].
    destruct (IH Hin) as [l' ->]. eauto.
Qed.

Lemma list_remove_not_in (x : nat) (l : list nat) :
  ~ In x l -> list_remove x l = None.
Proof.
  induction l as [|y l IH]; [reflexivity|]. cbn [list_remove In].
  intros Hn. destruct (Nat.eqb_spec x y) as [->|Hne].
  - destruct Hn. now left.
  - rewrite IH; [reflexivity|]. intros Hin. apply Hn. now right.
Qed.

Lemma list_remove_others (x : nat) (l l' : list nat) :
  list_remove x l = Some l' ->
  length l = S (length l')
  /\ forall y, y <> x -> In y l' <-> In y l.
Proof.
  revert l'. induction l as [|z l IH]; intros l'; cbn [list_remove].
  - discriminate.
  - destruct (Nat.eqb_spec x z) as [->|Hne].
    + intros [= <-]. split; [reflexivity|].
      intros y Hy. cbn [In]. split; [now right|].
      intros [->|Hin]; [now destruct Hy | exact Hin].
    + destruct (list_remove x l) as [r|]; [|discriminate].
      intros [= <-]. destruct (IH r eq_refl) as [Hlen Hin].
      split; [cbn [length]; now rewrite Hlen|].
      intros y Hy. cbn [In]. now rewrite (Hin y Hy).
Qed.

(** X18.  Connecting a web socket to a session id that already has a
    history keeps that history; a new id gets an empty one; the other
    sessions are untouched.  Disconnecting never removes or changes a
    session, in any state of the manager and whichever socket it is: a
    connected socket leaves the list of connections (one entry less, the
    other sockets stay), so after connecting and disconnecting a fresh
    socket the list is back to what it was; a socket that is not connected
    raises [ValueError] and changes nothing. *)
Theorem connect_keeps_history (websocket : nat) (sid : string) (m : Connections) :
  let m1 := snd (connect websocket sid (Val tt) m) in
  conn_sessions m1 !! sid
  = Some (match conn_sessions m !! sid with Some h => h | None => [] end)
  /\ (forall other, other <> sid ->
                    conn_sessions m1 !! other = conn_sessions m !! other)
  /\ (exists m2, disconnect websocket m1 = (Val tt, m2)
                 /\ conn_sessions m2 = conn_sessions m1
                 /\ (~ In websocket (active_connections m) ->
                     active_connections m2 = active_connections m))
  /\ (forall ws m', conn_sessions (snd (disconnect ws m')) = conn_sessions m')
  /\ (forall ws m',
       In ws (active_connections m') ->
       exists m2,
         disconnect ws m' = (Val tt, m2)
         /\ conn_sessions m2 = conn_sessions m'
         /\ length (active_connections m') = S (length (active_connections m2))
         /\ forall other, other <> ws ->
              In other (active_connections m2)
              <-> In other (active_connections m'))
  /\ (forall ws m',
       ~ In ws (active_connections m') ->
       disconnect ws m'
       = (Exc (ValueError "list.remove(x): x not in list"), m')).
Proof.
  cbv zeta. cbn [connect snd]. split; [|split; [|split; [|split; [|split]]]].
  - cbn [conn_sessions]. destruct (conn_sessions m !! sid) as [h|] eqn:E.
    + exact E.
    + apply lookup_insert_eq.
  - intros other Hne. cbn [conn_sessions].
    destruct (conn_sessions m !! sid); [reflexivity|].
    apply lookup_insert_ne. congruence.
  - unfold disconnect. cbn [active_connections conn_sessions].
    destruct (list_remove_in websocket (active_connections m ++ [websocket]))
      as [l' Hl'].
    { apply in_or_app. right. now left. }
    rewrite Hl'. eexists. split; [reflexivity|]. split; [reflexivity|].
    intros Hfresh. cbn [active_connections].
    rewrite (list_remove_snoc _ _ Hfresh) in Hl'. now injection Hl' as <-.
  - intros ws m'. unfold disconnect.
    now destruct (list_remove ws (active_connections m')).
  - intros ws m' Hin. unfold disconnect.
    destruct (list_remove_in ws (active_connections m') Hin) as [l' Hl'].
    rewrite Hl'. eexists. split; [reflexivity|]. split; [reflexivity|].
    cbn [active_connections]. exact (list_remove_others _ _ _ Hl').
  - intros ws m' Hfresh. unfold disconnect.
    now rewrite (list_remove_not_in _ _ Hfresh).
Qed.

End ConnectionFacts.

Section ConfigScenarioFacts.
#[local] Existing Instance read_only_file.

Lemma update_setting_read_back_witness :
  ConfigPy.update_setting "behavior" "temperature" (JNum "0.2")
    (JObj default_settings) tt
  = (false,
     JObj [("behavior",
            JObj [("default_model", JStr "llama3.2");
                  ("temperature", JNum "0.2"); ("max_tokens", JNum "2000")])],
     tt)
  /\ ConfigPy.update_setting "behavior" "temperature" (JNum "0.2")
       (JObj [("behavior", JStr "broken")]) tt
     = (false, JObj [("behavior", JStr "broken")], tt).
Proof.
  split; [reflexivity|].
  apply (update_setting_read_back "behavior" "temperature" (JNum "0.2")
           [("behavior", JStr "broken")] tt) with (v := JStr "broken").
  - reflexivity.
  - discriminate.
Defined.

Lemma config_get_model_info_lookup_witness :
  ConfigPy.get_model_info small_models_config "llama3.2"
  = Val (Some (JObj [("name", JStr "llama3.2")])).
Proof.
  apply (config_get_model_info_lookup small_models_config "llama3.2")
    with (before := []) (after := []).
  - reflexivity.
  - constructor.
  - reflexivity.
Defined.

Lemma connect_keeps_history_witness :
  conn_sessions
    (snd (connect 7%nat "s2" (Val tt)
            {| active_connections := [3%nat];
               conn_sessions := sessions two_sessions |})) !! "s1"
  = sessions two_sessions !! "s1"
  /\ (exists m2,
        disconnect 3%nat
          (snd (connect 7%nat "s2" (Val tt)
                  {| active_connections := [3%nat];
                     conn_sessions := sessions two_sessions |}))
        = (Val tt, m2)
        /\ active_connections m2 = [7%nat])
  /\ fst (disconnect 5%nat
            {| active_connections := [3%nat];
               conn_sessions := sessions two_sessions |})
     = Exc (ValueError "list.remove(x): x not in list").
Proof.
  destruct (connect_keeps_history 7%nat "s2"
              {| active_connections := [3%nat];
                 conn_sessions := sessions two_sessions |})
    as (_ & Hother & _ & _ & Hin & Hout).
  split; [apply Hother; discriminate|]. split.
  - destruct (Hin 3%nat
                (snd (connect 7%nat "s2" (Val tt)
                        {| active_connections := [3%nat];
                           conn_sessions := sessions two_sessions |})))
      as (m2 & Hrun & _).
    + cbn. now left.
    + exists m2. split; [exact Hrun|].
      cbn in Hrun. now injection Hrun as <-.
  - rewrite Hout; [reflexivity|]. cbn. lia.
Defined.

End ConfigScenarioFacts.

(* ===================================================================== *)
(** ** Further properties: switching and listing through the endpoints *)
(* ===================================================================== *)

Section ModelsEndpointFacts.
Context `{Python} {W : Type} `{World W}.
Variable config : Config.
Variable str_http_exception : Z -> string -> string.

Lemma get_models_run (d : list (string * json)) (st : State W) :
  exists local st',
    get_available_models st = (Val local, st')
    /\ get_models str_http_exception (JObj d) st
       = (Replied {| local_models := local;
                     online_models := dict_get "online_models" d (JObj []);
                     reply_current_model := current_model st |},
          st').
Proof.
  destruct (never_raises_get_available_models st) as [local Ha].
  apply run_eq in Ha.
  pose proof (proj1 (frames_get_available_models st)) as Hcur.
  exists local, (snd (get_available_models st)). split; [exact Ha|].
  unfold get_models, e_try, e_bind, of_M, of_outcome. rewrite Ha.
  cbn [ConfigPy.get_online_models py_get]. now rewrite Hcur.
Qed.

(** X19.  What [GET /models] reports as current model after
    [POST /models/switch], the models configuration being an object.  After
    a switch with provider [ollama] that succeeded it is the model of the
    request.  After a request with any other provider it is still the
    model that was current before, although the reply to that request
    named the requested model as current. *)
Theorem switch_then_get_models (model_request : ModelSwitch)
    (d : list (string * json)) (st : State W) :
  (provider model_request = "ollama" ->
   forall reply st',
     post_models_switch config str_http_exception model_request st
     = (Replied reply, st') ->
     exists models st'',
       get_models str_http_exception (JObj d) st' = (Replied models, st'')
       /\ reply_current_model models = model_name model_request)
  /\ (provider model_request <> "ollama" ->
      exists reply st' models st'',
        post_models_switch config str_http_exception model_request st
        = (Replied reply, st')
        /\ switch_current_model reply = model_name model_request
        /\ get_models str_http_exception (JObj d) st' = (Replied models, st'')
        /\ reply_current_model models = current_model st).
Proof.
  split.
  - intros Hp reply st' Hpost.
    assert (Hsw : switch_model config (model_name model_request) st
                  = (Val true, st')).
    { unfold post_models_switch, e_try, e_bind, of_M in Hpost.
      rewrite Hp in Hpost. cbn [String.eqb Ascii.eqb Bool.eqb] in Hpost.
      destruct (switch_model config (model_name model_request) st)
        as [[[|]|e] st1]; cbn in Hpost; try discriminate.
      now injection Hpost as _ <-. }
    destruct (get_models_run d st') as (local & st'' & _ & Hget).
    eexists _, st''. split; [exact Hget|]. cbn [reply_current_model].
    now apply (switch_model_sets_current config _ st).
  - intros Hp.
    destruct (get_models_run d st) as (local & st'' & _ & Hget).
    eexists _, st, _, st''. split; [|split; [|split; [exact Hget|]]].
    + unfold post_models_switch, e_try, e_bind.
      destruct (String.eqb_spec (provider model_request) "ollama");
        [contradiction | reflexivity].
    + reflexivity.
    + reflexivity.
Qed.

End ModelsEndpointFacts.

Section ModelsEndpointScenario.
#[local] Existing Instance Sim.sim_python.
#[local] Existing Instance Sim.sim_world.

Lemma switch_then_get_models_witness :
  exists reply st' models st'',
    post_models_switch Sim.config (fun _ detail => detail)
      {| model_name := "gpt-4"; provider := "openai" |}
      (init_state Sim.config Sim.up)
    = (Replied reply, st')
    /\ switch_current_model reply = "gpt-4"
    /\ get_models (fun _ detail => detail) (JObj []) st' = (Replied models, st'')
    /\ reply_current_model models = "llama3.2".
Proof.
  apply (switch_then_get_models Sim.config (fun _ detail => detail)
           {| model_name := "gpt-4"; provider := "openai" |} []
           (init_state Sim.config Sim.up)).
  discriminate.
Defined.

End ModelsEndpointScenario.

(* ===================================================================== *)
(** ** Further properties: the web socket *)
(* ===================================================================== *)

Section WebSocketFacts.
Context `{Python} {W : Type} `{World W}.
Variable config : Config.

(** X20.  A round over the web socket always produces a reply and stores
    nothing: the sessions and the current model are afterwards what they
    were, so the history a later round sees does not hold this exchange.
    On the local path the prompt of its generation request is built from
    the stored history of the session and the message, which therefore
    appears once when that history is empty. *)
Theorem websocket_round_stores_nothing (sid : string)
    (message_data : SocketMessage) (st : State W) :
  exists reply st' new,
    websocket_round config sid message_data st = (Val reply, st')
    /\ sessions st' = sessions st
    /\ current_model st' = current_model st
    /\ calls st' = (calls st ++ new)%list
    /\ (match socket_use_online message_data with
        | Some v => truthy v
        | None => false
        end = false ->
        forall r,
          In (CallGenerate r) new ->
          req_prompt r
          = _prepare_prompt (socket_message message_data)
                            (Some (session_history sid st))
          /\ (session_history sid st = [] ->
              req_prompt r
              = ("System: " ++ get_system_prompt ++ nl ++ nl)
                ++ "User: " ++ socket_message message_data ++ nl
                ++ "Assistant: ")).
Proof.
  unfold websocket_round, bind. cbn [get_state].
  destruct (match socket_use_online message_data with
            | Some v => truthy v
            | None => false
            end) eqn:Eonline.
  - set (p := match socket_online_provider message_data with
              | Some p => p
              | None => "claude"
              end).
    destruct (never_raises_process_online_model config
                (socket_message message_data) p (session_history sid st) st)
      as [response Hr].
    apply run_eq in Hr.
    destruct (frames_process_online_model config (socket_message message_data)
                p (session_history sid st) st) as (Hm & Hs & new & Hn).
    rewrite Hr. unfold now, ret.
    destruct (datetime_now_isoformat _) as [t w].
    eexists _, _, new. split; [reflexivity|]. cbn.
    split; [assumption|]. split; [assumption|]. split; [assumption|].
    discriminate.
  - set (m := match socket_model message_data with
              | Some m => m
              | None => "llama3.2"
              end).
    destruct (never_raises_generate_response config
                (socket_message message_data) (Some m)
                (Some (session_history sid st)) st) as [response Hr].
    apply run_eq in Hr.
    destruct (frames_generate_response config (socket_message message_data)
                (Some m) (Some (session_history sid st)) st)
      as (Hm & Hs & _).
    destruct (generate_response_requests config (socket_message message_data)
                (Some m) (Some (session_history sid st)) st)
      as (new & Hn & Hreq).
    rewrite Hr. unfold now, ret.
    destruct (datetime_now_isoformat _) as [t w].
    eexists _, _, new. split; [reflexivity|]. cbn.
    split; [assumption|]. split; [assumption|]. split; [assumption|].
    intros _ r Hin. rewrite (Hreq r Hin). cbn [req_prompt make_request].
    split; [reflexivity|]. intros ->. reflexivity.
Qed.

End WebSocketFacts.

Section WebSocketScenario.
#[local] Existing Instance Sim.sim_python.
#[local] Existing Instance Sim.sim_world.

Lemma websocket_round_stores_nothing_witness :
  exists reply st' new,
    websocket_round Sim.config "s1"
      {| socket_message := "hello"; socket_model := None;
         socket_use_online := None; socket_online_provider := None |}
      two_sessions
    = (Val reply, st')
    /\ sessions st' = sessions two_sessions
    /\ current_model st' = current_model two_sessions
    /\ calls st' = (calls two_sessions ++ new)%list
    /\ (false = false ->
        forall r,
          In (CallGenerate r) new ->
          req_prompt r
          = _prepare_prompt "hello" (Some (session_history "s1" two_sessions))
          /\ (session_history "s1" two_sessions = [] ->
              req_prompt r
              = ("System: " ++ get_system_prompt ++ nl ++ nl)
                ++ "User: " ++ "hello" ++ nl ++ "Assistant: ")).
Proof.
  exact (websocket_round_stores_nothing Sim.config "s1"
           {| socket_message := "hello"; socket_model := None;
              socket_use_online := None; socket_online_provider := None |}
           two_sessions).
Defined.

End WebSocketScenario.
